(** * Booking and order lifecycle of the Maskon Health backend

    A shallow embedding of the Express route handlers and Mongoose model
    methods that create, cancel, rate, track and price bookings and orders
    ([backend/routes/bookings.js], [backend/models/Booking.js], the orders
    router, the [Order] model and the [HealthProfessional] model), followed
    by the properties of the specification that concern them and by further
    properties of the same code.

    Conventions.
    - A JavaScript [Number] is an IEEE-754 binary64 value: the primitive
      [float] of Rocq, with the same rounding.
    - A [Date] is either the invalid date (time value NaN) or a time value in
      milliseconds since the epoch.
    - A handler is a function from the request, the store and the readings
      of the environment (clock, random source, fresh identifier) to a
      response and the new store.  An early [return res.status(..)] and a
      thrown exception are the two ways of leaving the straight-line code;
      the handler's [catch] turns the second into the 500 response.
    - What the run-time library decides (date parsing, date formatting, the
      ISO-8601 validator, the local time zone) is a field of [Host]; the
      handlers are written against an arbitrary host and [node] is the host
      used to run them on concrete requests.
    - Of Mongoose, the model keeps the schema defaults, the casts, the
      validation of the required reference number, which [save] runs before
      the [pre('save')] hooks of the schema, those hooks, [timestamps: true]
      with its test for a modified document, and the unique indexes.  A
      [save] of a new document fails on a missing reference number or on a
      unique index, a [save] of a stored one on a notification type outside
      its enumeration; a [save] of a stored document that no assignment has
      changed sends nothing.
    - Of Express, the model keeps the order of the routes of a router, the
      matching of a route path, segment by segment, and the decoding of the
      parameters with [decodeURIComponent].
    - A string is the sequence of its bytes in UTF-8; every string the
      handlers build or compare is ASCII. *)

From Stdlib Require Import ZArith QArith List String Ascii Bool Lia Floats DecimalString.
From Stdlib Require DecimalN.
Import ListNotations.
Local Open Scope string_scope.
Local Open Scope Z_scope.

Set Implicit Arguments.
Set Warnings "-inexact-float".

(* ================================================================== *)
(** * JavaScript values *)

Module Js.

(** ** Numbers *)

Definition Number := float.

(** [ToBoolean] on a number: [0], [-0] and [NaN] are falsy. *)
Definition truthy (x : Number) : bool :=
  negb (PrimFloat.is_zero x || PrimFloat.is_nan x).

(** The number has no fractional part (and is finite). *)
Definition isInteger (x : Number) : bool :=
  match Prim2SF x with
  | S754_zero _ => true
  | S754_finite _ m e =>
      (0 <=? e) || (Z.pos m mod 2 ^ (- e) =? 0)
  | S754_infinity _ | S754_nan => false
  end.

Definition isFinite (x : Number) : bool :=
  negb (PrimFloat.is_nan x || PrimFloat.is_infinity x).

(** ** Strings *)

Definition isDigit (c : ascii) : bool :=
  let n := nat_of_ascii c in (48 <=? n)%nat && (n <=? 57)%nat.

Definition digitVal (c : ascii) : Z := Z.of_nat (nat_of_ascii c) - 48.

Definition isHexDigit (c : ascii) : bool :=
  let n := nat_of_ascii c in
  isDigit c || ((97 <=? n)%nat && (n <=? 102)%nat)
            || ((65 <=? n)%nat && (n <=? 70)%nat).

Definition toLowerAscii (c : ascii) : ascii :=
  let n := nat_of_ascii c in
  if (65 <=? n)%nat && (n <=? 90)%nat then ascii_of_nat (n + 32) else c.

Fixpoint toLowerCase (s : string) : string :=
  match s with
  | EmptyString => EmptyString
  | String c r => String (toLowerAscii c) (toLowerCase r)
  end.

Fixpoint forallb_string (p : ascii -> bool) (s : string) : bool :=
  match s with
  | EmptyString => true
  | String c r => p c && forallb_string p r
  end.

Fixpoint repeat_char (c : ascii) (n : nat) : string :=
  match n with
  | O => EmptyString
  | S k => String c (repeat_char c k)
  end.

(** [s.padStart(n, c)] for a one-character pad string. *)
Definition padStart (n : nat) (c : ascii) (s : string) : string :=
  repeat_char c (n - String.length s) ++ s.

(** [s.slice(-n)]. *)
Definition sliceLast (n : nat) (s : string) : string :=
  let len := String.length s in
  substring (len - n) (Nat.min n len) s.

(** [Number.prototype.toString] on a non-negative integer. *)
Definition decimal (n : Z) : string :=
  NilZero.string_of_uint (N.to_uint (Z.to_N n)).

Definition notEmpty (s : string) : bool :=
  negb (String.eqb s "").

Definition inList (s : string) (l : list string) : bool :=
  existsb (String.eqb s) l.

(** [a === b] on two values that are strings or undefined. *)
Definition sameString (a b : option string) : bool :=
  match a, b with
  | Some x, Some y => String.eqb x y
  | None, None => true
  | _, _ => false
  end.

(** Two dates that are set or undefined have the same time value. *)
Definition sameTime (a b : option Z) : bool :=
  match a, b with
  | Some x, Some y => x =? y
  | None, None => true
  | _, _ => false
  end.

Definition isSpace (c : ascii) : bool :=
  let n := nat_of_ascii c in
  (n =? 32)%nat || ((9 <=? n)%nat && (n <=? 13)%nat).

Fixpoint trimStart (s : string) : string :=
  match s with
  | EmptyString => EmptyString
  | String c r => if isSpace c then trimStart r else s
  end.

Fixpoint trimEnd (s : string) : string :=
  match s with
  | EmptyString => EmptyString
  | String c r =>
      match trimEnd r with
      | EmptyString => if isSpace c then EmptyString else String c EmptyString
      | r' => String c r'
      end
  end.

Definition trim (s : string) : string := trimEnd (trimStart s).

(** ** Dates *)

Inductive Date := InvalidDate | TimeValue (t : Z).

(** Relational operators on dates compare the time values; with NaN on
    either side every comparison is false. *)
Definition date_leb (a b : Date) : bool :=
  match a, b with
  | TimeValue x, TimeValue y => x <=? y
  | _, _ => false
  end.

Definition date_geb (a b : Date) : bool := date_leb b a.

Definition msPerMinute : Z := 60000.
Definition msPerHour : Z := 3600000.
Definition msPerDay : Z := 86400000.

(** Day number of a civil date (proleptic Gregorian calendar), day 0 being
    1970-01-01; the month may be any of 1..12 and the day overflows into
    the following month as [MakeDay] does. *)
Definition daysFromCivil (y m d : Z) : Z :=
  let y' := if m <=? 2 then y - 1 else y in
  let era := y' / 400 in
  let yoe := y' - era * 400 in
  let mp := if 2 <? m then m - 3 else m + 9 in
  let doy := (153 * mp + 2) / 5 + d - 1 in
  let doe := yoe * 365 + yoe / 4 - yoe / 100 + doy in
  era * 146097 + doe - 719468.

(** Year, month (1..12) and day of month of a day number. *)
Definition civilFromDays (z0 : Z) : Z * Z * Z :=
  let z := z0 + 719468 in
  let era := z / 146097 in
  let doe := z - era * 146097 in
  let yoe := (doe - doe / 1460 + doe / 36524 - doe / 146096) / 365 in
  let doy := doe - (365 * yoe + yoe / 4 - yoe / 100) in
  let mp := (5 * doy + 2) / 153 in
  let d := doy - (153 * mp + 2) / 5 + 1 in
  let m := if mp <? 10 then mp + 3 else mp - 9 in
  let y := yoe + era * 400 + (if m <=? 2 then 1 else 0) in
  (y, m, d).

(** Day of the week of a day number, 0 for Sunday. *)
Definition weekDay (day : Z) : Z := (day + 4) mod 7.

(** ** Exceptions *)

Inductive Error :=
| RangeError (msg : string)
| TypeError (msg : string)
| CastError (path : string)
| ValidationError (path : string)
| MongoServerError (msg : string).

Inductive Completion (A : Type) :=
| Normal (a : A)
| Throw (e : Error).
Arguments Throw {A} e.

End Js.

Import Js.

(* ================================================================== *)
(** * The run-time library *)

Module Platform.

(** The options object of [toLocaleDateString]; the handlers only ever
    set [weekday]. *)
Record DateTimeOptions := { weekday : option string }.

Record Host := {
  (** [new Date(s)] on a string. *)
  Date_parse : string -> Date;
  (** Offset of local time from UTC, in milliseconds. *)
  LocalTZA : Z;
  (** [isISO8601] of validator.js. *)
  isISO8601 : string -> bool;
  (** [Date.prototype.toLocaleDateString(locales, options)]. *)
  toLocaleDateString : Date -> string -> DateTimeOptions -> Completion string
}.

(** The two clauses of ECMA-402 (Date.prototype.toLocaleDateString and
    the weekday option of Intl.DateTimeFormat) the bookings router
    depends on: an invalid date is rendered without looking at the
    options, and on a valid date a weekday style other than narrow,
    short or long is a RangeError. *)
Definition weekdayStyles : list string := ["narrow"; "short"; "long"].

Record Ecma402 (H : Host) : Prop := {
  invalid_date_first : forall locales options,
    toLocaleDateString H InvalidDate locales options = Normal "Invalid Date";
  weekday_out_of_range : forall t locales style,
    inList style weekdayStyles = false ->
    exists msg,
      toLocaleDateString H (TimeValue t) locales {| weekday := Some style |}
      = Throw (RangeError msg)
}.

(** ** A concrete host *)

Definition num2 (a b : ascii) : option Z :=
  if isDigit a && isDigit b then Some (digitVal a * 10 + digitVal b) else None.

Definition isChar (c : ascii) (s : string) : bool :=
  String.eqb (String c EmptyString) s.

(** [YYYY-MM-DD] at the head of the input: the day number and the rest. *)
Definition parseCalendarDate (cs : list ascii) : option (Z * list ascii) :=
  match cs with
  | y1 :: y2 :: y3 :: y4 :: s1 :: m1 :: m2 :: s2 :: d1 :: d2 :: rest =>
      match num2 y1 y2, num2 y3 y4, num2 m1 m2, num2 d1 d2 with
      | Some yh, Some yl, Some m, Some d =>
          if isChar s1 "-" && isChar s2 "-"
             && (1 <=? m) && (m <=? 12) && (1 <=? d) && (d <=? 31)
          then Some (daysFromCivil (yh * 100 + yl) m d, rest)
          else None
      | _, _, _, _ => None
      end
  | _ => None
  end.

(** [HH:mm], and also [H:mm] when a one-digit hour is tolerated: minutes
    since midnight and the rest. *)
Definition parseHourMinute (oneDigitHour : bool) (cs : list ascii)
  : option (Z * list ascii) :=
  let cs' :=
    match cs with
    | h :: c :: _ =>
        if oneDigitHour && isDigit h && isChar c ":" then "0"%char :: cs else cs
    | _ => cs
    end in
  match cs' with
  | h1 :: h2 :: c :: m1 :: m2 :: rest =>
      match num2 h1 h2, num2 m1 m2 with
      | Some h, Some m =>
          if isChar c ":" && (h <=? 23) && (m <=? 59)
          then Some (h * 60 + m, rest) else None
      | _, _ => None
      end
  | _ => None
  end.

(** Optional [:ss] and [.sss] after the minutes: milliseconds and the
    rest. *)
Definition parseSeconds (cs : list ascii) : option (Z * list ascii) :=
  match cs with
  | c :: s1 :: s2 :: rest =>
      if isChar c ":" then
        match num2 s1 s2 with
        | Some s =>
            if s <=? 59 then
              match rest with
              | p :: f1 :: f2 :: f3 :: rest' =>
                  if isChar p "." then
                    match num2 "0" f1, num2 f2 f3 with
                    | Some a, Some b => Some (s * 1000 + a * 100 + b, rest')
                    | _, _ => None
                    end
                  else Some (s * 1000, rest)
              | _ => Some (s * 1000, rest)
              end
            else None
        | None => None
        end
      else Some (0, cs)
  | _ => Some (0, cs)
  end.

(** The date-time string format of ECMAScript ([YYYY-MM-DD], in UTC, and
    [YYYY-MM-DDTHH:mm[:ss[.sss]][Z]], local time unless [Z] is given), and
    the form [YYYY-MM-DD H:mm] that V8 reads as local time.  Anything else
    is an invalid date; in particular nothing may follow the time, and
    after [T] the hour has two digits. *)
Definition parseDate (tz : Z) (s : string) : Date :=
  match parseCalendarDate (list_ascii_of_string s) with
  | None => InvalidDate
  | Some (day, []) => TimeValue (day * msPerDay)
  | Some (day, sep :: r) =>
      if isChar sep "T" then
        match parseHourMinute false r with
        | Some (mins, r1) =>
            match parseSeconds r1 with
            | Some (ms, []) =>
                TimeValue (day * msPerDay + mins * msPerMinute + ms - tz)
            | Some (ms, [z]) =>
                if isChar z "Z"
                then TimeValue (day * msPerDay + mins * msPerMinute + ms)
                else InvalidDate
            | _ => InvalidDate
            end
        | None => InvalidDate
        end
      else if isChar sep " " then
        match parseHourMinute true r with
        | Some (mins, []) => TimeValue (day * msPerDay + mins * msPerMinute - tz)
        | _ => InvalidDate
        end
      else InvalidDate
  end.

Definition weekdayNames : list string :=
  ["Sunday"; "Monday"; "Tuesday"; "Wednesday"; "Thursday"; "Friday"; "Saturday"].

Definition localDay (tz : Z) (t : Z) : Z := (t + tz) / msPerDay.

Definition longWeekday (tz : Z) (t : Z) : string :=
  nth (Z.to_nat (weekDay (localDay tz t))) weekdayNames "".

(** [en-US] rendering of the date alone: [M/D/YYYY]. *)
Definition numericDate (tz : Z) (t : Z) : string :=
  let '(y, m, d) := civilFromDays (localDay tz t) in
  decimal m ++ "/" ++ decimal d ++ "/" ++ decimal y.

Definition formatDate (tz : Z) (d : Date) (locales : string)
           (options : DateTimeOptions) : Completion string :=
  match d with
  | InvalidDate => Normal "Invalid Date"
  | TimeValue t =>
      match weekday options with
      | None => Normal (numericDate tz t)
      | Some style =>
          if String.eqb style "long" then Normal (longWeekday tz t)
          else if String.eqb style "short"
          then Normal (substring 0 3 (longWeekday tz t))
          else if String.eqb style "narrow"
          then Normal (substring 0 1 (longWeekday tz t))
          else Throw (RangeError
                 ("Value " ++ style ++
                  " out of range for Intl.DateTimeFormat options property weekday"))
      end
  end.

(** Calendar dates with an optional time, the part of validator.js's
    pattern that [parseDate] reads as well. *)
Definition isCalendarDateTime (s : string) : bool :=
  match parseDate 0 s with
  | InvalidDate => false
  | TimeValue _ => true
  end.

(** Node.js in the time zone of Nairobi (UTC+3). *)
Definition nairobi : Z := 3 * msPerHour.

Definition node : Host := {|
  Date_parse := parseDate nairobi;
  LocalTZA := nairobi;
  isISO8601 := isCalendarDateTime;
  toLocaleDateString := formatDate nairobi
|}.

(** A host whose formatter does not reject an unknown weekday style but
    answers with the long name in lower case: what line 72 of the bookings
    router is written for.  No ECMA-402 host behaves like this. *)
Definition lowercaseWeekday (tz : Z) (d : Date) (locales : string)
           (options : DateTimeOptions) : Completion string :=
  match d, weekday options with
  | TimeValue t, Some style =>
      if inList style weekdayStyles then formatDate tz d locales options
      else Normal (toLowerCase (longWeekday tz t))
  | _, _ => formatDate tz d locales options
  end.

Definition lenient : Host := {|
  Date_parse := parseDate nairobi;
  LocalTZA := nairobi;
  isISO8601 := isCalendarDateTime;
  toLocaleDateString := lowercaseWeekday nairobi
|}.

End Platform.

Import Platform.

(* ================================================================== *)
(** * Documents *)

Module ObjectId.
(** An identifier is kept as its 24 lower-case hexadecimal digits, the
    form [toString] gives back. *)
Definition t := string.

Definition isMongoId (s : string) : bool :=
  (String.length s =? 24)%nat && forallb_string isHexDigit s.

(** The cast Mongoose applies to a string where the schema says
    [ObjectId]; upper-case digits are accepted. *)
Definition cast (s : string) : t := toLowerCase s.

Definition toString (o : t) : string := o.

Definition eqb (a b : t) : bool := String.eqb a b.
End ObjectId.

Inductive PaymentStatus := payment_pending | paid | failed | refunded.

Record PaymentDetails := {
  transactionId : option string;
  paymentDate : option Z;
  mpesaCode : option string
}.

Record Coordinates := { latitude : Number; longitude : Number }.

(** An entry of a [notifications] array; [sentAt] and [isRead] take their
    schema defaults when the entry is pushed. *)
Record Notification (T : Type) := {
  type : T;
  message : string;
  sentAt : Z;
  isRead : bool
}.

(** The readings a handler takes from its environment. *)
Record Env := {
  (** [new Date()]. *)
  now : Z;
  (** [Math.floor(Math.random() * 1000)], one of 0..999. *)
  random1000 : Z;
  (** The [_id] a new document is given. *)
  freshId : ObjectId.t
}.

(** The reference number of the two [pre('save')] hooks: prefix, two digits
    each of year, month and day in local time, three random digits. *)
Definition referenceNumber (H : Host) (prefix : string) (env : Env) : string :=
  let '(y, m, d) := civilFromDays (localDay (LocalTZA H) (now env)) in
  let year := sliceLast 2 (decimal y) in
  let month := padStart 2 "0" (decimal m) in
  let day := padStart 2 "0" (decimal d) in
  let random := padStart 3 "0" (decimal (random1000 env)) in
  prefix ++ year ++ month ++ day ++ random.

Module Meal.
Record t := {
  _id : ObjectId.t;
  name : string;
  price : Number;
  isActive : bool
}.
End Meal.

Module Order.

Inductive Status :=
| pending | confirmed | preparing | out_for_delivery | delivered | cancelled.

(** The [enum] of [notifications.type]. *)
Inductive NotificationType :=
| order_confirmed | note_preparing | note_out_for_delivery | note_delivered
| payment_received.

Definition statusName (s : Status) : string :=
  match s with
  | pending => "pending" | confirmed => "confirmed" | preparing => "preparing"
  | out_for_delivery => "out_for_delivery" | delivered => "delivered"
  | cancelled => "cancelled"
  end.

Definition notificationTypeName (k : NotificationType) : string :=
  match k with
  | order_confirmed => "order_confirmed" | note_preparing => "preparing"
  | note_out_for_delivery => "out_for_delivery" | note_delivered => "delivered"
  | payment_received => "payment_received"
  end.

Record Item := {
  meal : ObjectId.t;
  quantity : Number;
  price : Number;
  totalPrice : Number;
  itemInstructions : option string
}.

Record Address := {
  street : string;
  city : string;
  county : string;
  postalCode : option string;
  coordinates : option Coordinates;
  instructions : option string
}.

Record Contact := {
  contactName : string;
  phone : string;
  email : option string
}.

Record DeliveryTime := { estimated : option Z; actual : option Z }.

Record DeliveryPerson := {
  personName : option string;
  personPhone : option string;
  personId : option string
}.

Record Rating := {
  food : Number;
  delivery : Number;
  overall : Number;
  comment : option string;
  date : Z
}.

Record t := {
  _id : ObjectId.t;
  user : ObjectId.t;
  orderNumber : option string;
  items : list Item;
  subtotal : Number;
  deliveryFee : Number;
  tax : Number;
  total : Number;
  currency : string;
  deliveryAddress : Address;
  contactInfo : Contact;
  paymentMethod : string;
  paymentStatus : PaymentStatus;
  paymentDetails : option PaymentDetails;
  orderStatus : Status;
  deliveryTime : DeliveryTime;
  deliveryPerson : option DeliveryPerson;
  specialInstructions : option string;
  allergies : list string;
  dietaryRestrictions : list string;
  isUrgent : bool;
  cancellationReason : option string;
  refundAmount : option Number;
  refundReason : option string;
  rating : option Rating;
  notifications : list (Notification NotificationType);
  createdBy : ObjectId.t;
  createdAt : option Z;
  updatedAt : option Z
}.

Definition set_orderNumber (v : option string) (o : t) : t :=
  Build_t (_id o) (user o) v (items o) (subtotal o) (deliveryFee o) (tax o)
    (total o) (currency o) (deliveryAddress o) (contactInfo o)
    (paymentMethod o) (paymentStatus o) (paymentDetails o) (orderStatus o)
    (deliveryTime o) (deliveryPerson o) (specialInstructions o) (allergies o)
    (dietaryRestrictions o) (isUrgent o) (cancellationReason o)
    (refundAmount o) (refundReason o) (rating o) (notifications o)
    (createdBy o) (createdAt o) (updatedAt o).

Definition set_orderStatus (v : Status) (o : t) : t :=
  Build_t (_id o) (user o) (orderNumber o) (items o) (subtotal o)
    (deliveryFee o) (tax o) (total o) (currency o) (deliveryAddress o)
    (contactInfo o) (paymentMethod o) (paymentStatus o) (paymentDetails o) v
    (deliveryTime o) (deliveryPerson o) (specialInstructions o) (allergies o)
    (dietaryRestrictions o) (isUrgent o) (cancellationReason o)
    (refundAmount o) (refundReason o) (rating o) (notifications o)
    (createdBy o) (createdAt o) (updatedAt o).

Definition set_deliveryTime (v : DeliveryTime) (o : t) : t :=
  Build_t (_id o) (user o) (orderNumber o) (items o) (subtotal o)
    (deliveryFee o) (tax o) (total o) (currency o) (deliveryAddress o)
    (contactInfo o) (paymentMethod o) (paymentStatus o) (paymentDetails o)
    (orderStatus o) v (deliveryPerson o) (specialInstructions o) (allergies o)
    (dietaryRestrictions o) (isUrgent o) (cancellationReason o)
    (refundAmount o) (refundReason o) (rating o) (notifications o)
    (createdBy o) (createdAt o) (updatedAt o).

Definition set_cancellationReason (v : option string) (o : t) : t :=
  Build_t (_id o) (user o) (orderNumber o) (items o) (subtotal o)
    (deliveryFee o) (tax o) (total o) (currency o) (deliveryAddress o)
    (contactInfo o) (paymentMethod o) (paymentStatus o) (paymentDetails o)
    (orderStatus o) (deliveryTime o) (deliveryPerson o)
    (specialInstructions o) (allergies o) (dietaryRestrictions o)
    (isUrgent o) v (refundAmount o) (refundReason o) (rating o)
    (notifications o) (createdBy o) (createdAt o) (updatedAt o).

Definition set_createdAt (v : option Z) (o : t) : t :=
  Build_t (_id o) (user o) (orderNumber o) (items o) (subtotal o)
    (deliveryFee o) (tax o) (total o) (currency o) (deliveryAddress o)
    (contactInfo o) (paymentMethod o) (paymentStatus o) (paymentDetails o)
    (orderStatus o) (deliveryTime o) (deliveryPerson o)
    (specialInstructions o) (allergies o) (dietaryRestrictions o)
    (isUrgent o) (cancellationReason o) (refundAmount o) (refundReason o)
    (rating o) (notifications o) (createdBy o) v (updatedAt o).

Definition set_updatedAt (v : option Z) (o : t) : t :=
  Build_t (_id o) (user o) (orderNumber o) (items o) (subtotal o)
    (deliveryFee o) (tax o) (total o) (currency o) (deliveryAddress o)
    (contactInfo o) (paymentMethod o) (paymentStatus o) (paymentDetails o)
    (orderStatus o) (deliveryTime o) (deliveryPerson o)
    (specialInstructions o) (allergies o) (dietaryRestrictions o)
    (isUrgent o) (cancellationReason o) (refundAmount o) (refundReason o)
    (rating o) (notifications o) (createdBy o) (createdAt o) v.

(** Replacing the stored document that has the identifier of [this]. *)
Definition replace (this : t) (coll : list t) : list t :=
  map (fun x => if ObjectId.eqb (_id x) (_id this) then this else x) coll.

Definition hasId (id : ObjectId.t) (coll : list t) : bool :=
  existsb (fun x => ObjectId.eqb (_id x) id) coll.

Definition hasNumber (number : string) (coll : list t) : bool :=
  existsb (fun x => match orderNumber x with
                    | Some n => String.eqb n number
                    | None => false
                    end) coll.

(** [required: true] on a string path: the value is there and is not the
    empty string. *)
Definition present (v : option string) : bool :=
  match v with
  | Some s => notEmpty s
  | None => false
  end.

(** [save()] of a new document.  Mongoose validates the document in the
    first of the [pre('save')] hooks, ahead of the hooks of the schema:
    [orderNumber] is [required: true], so a document that comes without it
    is refused with a ValidationError, and the hook of the schema that
    would number it is not run.  For a document that has a number,
    [timestamps: true] sets the two timestamps, the hook of the schema
    puts its own number in the place of the one given ([isNew] is true),
    and the document is appended to the collection unless the unique index
    on [_id] or the one on [orderNumber] ([unique: true]) refuses it. *)
Definition saveNew (H : Host) (env : Env) (this : t) (coll : list t)
  : Completion (t * list t) :=
  if negb (present (orderNumber this))
  then Throw (ValidationError "orderNumber")
  else
  let number := referenceNumber H "MH" env in
  let this' :=
    set_orderNumber (Some number)
      (set_updatedAt (Some (now env)) (set_createdAt (Some (now env)) this)) in
  if hasId (_id this') coll
  then Throw (MongoServerError "E11000 duplicate key error: _id")
  else if hasNumber number coll
  then Throw (MongoServerError "E11000 duplicate key error: orderNumber")
  else Normal (this', (coll ++ [this'])%list).

(** [save()] of a stored document; [modified] says whether an assignment
    since the document was loaded has changed a path ([isModified()]).
    The hook of the schema does nothing ([isNew] is false).  For a
    modified document [timestamps: true] renews [updatedAt] and the
    document takes the place of the stored one; for one that is not
    modified nothing is sent and [updatedAt] stays. *)
Definition save (env : Env) (modified : bool) (this : t) (coll : list t)
  : t * list t :=
  if modified then
    let this' := set_updatedAt (Some (now env)) this in
    (this', replace this' coll)
  else (this, coll).

(** [orderSchema.methods.calculateDeliveryTime]. *)
Definition calculateDeliveryTime (env : Env) (this : t) (coll : list t)
  : t * list t :=
  let estimatedDelivery := now env + 45 * 60 * 1000 in
  save env
    (negb (sameTime (estimated (deliveryTime this)) (Some estimatedDelivery)))
    (set_deliveryTime
       {| estimated := Some estimatedDelivery;
          actual := actual (deliveryTime this) |} this)
    coll.

(** The two orders agree on every field but [orderStatus],
    [cancellationReason] and [updatedAt]. *)
Definition agreeButCancellation (o o' : t) : Prop :=
  _id o' = _id o
  /\ user o' = user o
  /\ orderNumber o' = orderNumber o
  /\ items o' = items o
  /\ subtotal o' = subtotal o
  /\ deliveryFee o' = deliveryFee o
  /\ tax o' = tax o
  /\ total o' = total o
  /\ currency o' = currency o
  /\ deliveryAddress o' = deliveryAddress o
  /\ contactInfo o' = contactInfo o
  /\ paymentMethod o' = paymentMethod o
  /\ paymentStatus o' = paymentStatus o
  /\ paymentDetails o' = paymentDetails o
  /\ deliveryTime o' = deliveryTime o
  /\ deliveryPerson o' = deliveryPerson o
  /\ specialInstructions o' = specialInstructions o
  /\ allergies o' = allergies o
  /\ dietaryRestrictions o' = dietaryRestrictions o
  /\ isUrgent o' = isUrgent o
  /\ refundAmount o' = refundAmount o
  /\ refundReason o' = refundReason o
  /\ rating o' = rating o
  /\ notifications o' = notifications o
  /\ createdBy o' = createdBy o
  /\ createdAt o' = createdAt o.

(** [orderSchema.methods.canBeCancelled]. *)
Definition canBeCancelled (this : t) : bool :=
  let cancellableStatuses := ["pending"; "confirmed"] in
  inList (statusName (orderStatus this)) cancellableStatuses.

Record Summary := {
  summary_id : ObjectId.t;
  summary_orderNumber : option string;
  summary_total : Number;
  summary_currency : string;
  summary_orderStatus : Status;
  summary_paymentStatus : PaymentStatus;
  summary_deliveryAddress : Address;
  summary_createdAt : option Z;
  summary_deliveryTime : DeliveryTime
}.

(** [orderSchema.methods.getSummary]. *)
Definition getSummary (this : t) : Summary := {|
  summary_id := _id this;
  summary_orderNumber := orderNumber this;
  summary_total := total this;
  summary_currency := currency this;
  summary_orderStatus := orderStatus this;
  summary_paymentStatus := paymentStatus this;
  summary_deliveryAddress := deliveryAddress this;
  summary_createdAt := createdAt this;
  summary_deliveryTime := deliveryTime this
|}.



Definition set_rating (v : option Rating) (o : t) : t :=
  Build_t (_id o) (user o) (orderNumber o) (items o) (subtotal o)
    (deliveryFee o) (tax o) (total o) (currency o) (deliveryAddress o)
    (contactInfo o) (paymentMethod o) (paymentStatus o) (paymentDetails o)
    (orderStatus o) (deliveryTime o) (deliveryPerson o)
    (specialInstructions o) (allergies o) (dietaryRestrictions o)
    (isUrgent o) (cancellationReason o) (refundAmount o) (refundReason o) v
    (notifications o) (createdBy o) (createdAt o) (updatedAt o).

Definition set_notifications (v : list (Notification NotificationType)) (o : t) : t :=
  Build_t (_id o) (user o) (orderNumber o) (items o) (subtotal o)
    (deliveryFee o) (tax o) (total o) (currency o) (deliveryAddress o)
    (contactInfo o) (paymentMethod o) (paymentStatus o) (paymentDetails o)
    (orderStatus o) (deliveryTime o) (deliveryPerson o)
    (specialInstructions o) (allergies o) (dietaryRestrictions o)
    (isUrgent o) (cancellationReason o) (refundAmount o) (refundReason o)
    (rating o) v (createdBy o) (createdAt o) (updatedAt o).


(** The notification type whose name is the name of the status, when the
    enumeration has one. *)
Definition notificationTypeOfStatus (s : Status) : option NotificationType :=
  match s with
  | preparing => Some note_preparing
  | out_for_delivery => Some note_out_for_delivery
  | delivered => Some note_delivered
  | _ => None
  end.

(** [this.notifications.push({ type, message })]. *)
Definition pushNotification (env : Env) (k : NotificationType)
           (msg : string) (this : t) : t :=
  set_notifications
    (notifications this ++
       [{| type := k; message := msg; sentAt := now env; isRead := false |}])%list
    this.

(** [orderSchema.methods.updateStatus].  The type of the pushed entry is the
    status name; when the enumeration of notification types does not have
    it, validation rejects the [save].  A push modifies the document; the
    assignment of the status does when the status is another one. *)
Definition updateStatus (env : Env) (this : t) (newStatus : Status)
           (notificationMessage : option string) (coll : list t)
  : Completion (t * list t) :=
  let this1 := set_orderStatus newStatus this in
  let changed :=
    negb (String.eqb (statusName (orderStatus this)) (statusName newStatus)) in
  match notificationMessage with
  | Some msg =>
      if notEmpty msg then
        match notificationTypeOfStatus newStatus with
        | Some k =>
            Normal (save env true (pushNotification env k msg this1) coll)
        | None => Throw (ValidationError "notifications.0.type")
        end
      else Normal (save env changed this1 coll)
  | None => Normal (save env changed this1 coll)
  end.

(** [orderSchema.methods.addRating].  The object assigned to [rating] is
    a new one, with the present time for its date: the assignment modifies
    the document. *)
Definition addRating (env : Env) (this : t)
           (foodRating deliveryRating overallRating : Number)
           (comment : option string) (coll : list t) : t * list t :=
  save env true
    (set_rating
       (Some {| food := foodRating;
                delivery := deliveryRating;
                overall := overallRating;
                comment := comment;
                date := now env |}) this)
    coll.

End Order.

Module Availability.
Record t := {
  day : string;
  startTime : string;
  endTime : string;
  isAvailable : bool
}.
End Availability.

Module HealthProfessional.

Record t := {
  _id : ObjectId.t;
  user : ObjectId.t;
  specialty : string;
  consultationFee : Number;
  availability : list Availability.t;
  isActive : bool
}.

(** [healthProfessionalSchema.methods.isAvailable]. *)
Definition isAvailable (H : Host) (this : t) (day time : string) : bool :=
  match find (fun a => String.eqb (Availability.day a) day
                       && Availability.isAvailable a)
             (availability this) with
  | None => false
  | Some availability =>
      let requestedTime := Date_parse H ("2000-01-01 " ++ time) in
      let startTime :=
        Date_parse H ("2000-01-01 " ++ Availability.startTime availability) in
      let endTime :=
        Date_parse H ("2000-01-01 " ++ Availability.endTime availability) in
      date_geb requestedTime startTime && date_leb requestedTime endTime
  end.

Record Slot := { slotDay : string; slotTime : string }.

Definition days : list string :=
  ["monday"; "tuesday"; "wednesday"; "thursday"; "friday"; "saturday"; "sunday"].

(** [l.indexOf(x)]: the first position of [x], or -1. *)
Fixpoint indexOf (x : string) (l : list string) : Z :=
  match l with
  | [] => -1
  | y :: r =>
      if String.eqb y x then 0
      else let i := indexOf x r in if i <? 0 then -1 else i + 1
  end.

(** [this.availability.find(a => a.day === day && a.isAvailable)]. *)
Definition openEntry (this : t) (day : string) : option Availability.t :=
  find (fun a => String.eqb (Availability.day a) day
                 && Availability.isAvailable a)
       (availability this).

(** The [for] loop of [getNextAvailableSlot] over the values of [i] that are
    left: the first of them whose day has an open entry. *)
Fixpoint nextDaySlot (this : t) (currentDayIndex : Z) (steps : list Z)
  : option Slot :=
  match steps with
  | [] => None
  | i :: rest =>
      let nextDayIndex := Z.rem (currentDayIndex + i) 7 in
      let nextDay := nth (Z.to_nat nextDayIndex) days "" in
      match openEntry this nextDay with
      | Some nextDayAvailability =>
          Some {| slotDay := nextDay;
                  slotTime := Availability.startTime nextDayAvailability |}
      | None => nextDaySlot this currentDayIndex rest
      end
  end.

(** [healthProfessionalSchema.methods.getNextAvailableSlot].  The time of
    day comes from [toLocaleTimeString('en-US', { hour12: false })], given
    here as a function of the time value; the two times are compared as
    strings. *)
Definition getNextAvailableSlot (H : Host)
           (toLocaleTimeString : Z -> Completion string)
           (env : Env) (this : t) : Completion (option Slot) :=
  match toLocaleDateString H (TimeValue (now env)) "en-US"
          {| weekday := Some "lowercase" |} with
  | Throw e => Throw e
  | Normal currentDay =>
      match toLocaleTimeString (now env) with
      | Throw e => Throw e
      | Normal currentTime =>
          let today :=
            match openEntry this currentDay with
            | Some todayAvailability =>
                if String.ltb currentTime (Availability.endTime todayAvailability)
                then Some
                       {| slotDay := currentDay;
                          slotTime :=
                            if String.ltb currentTime
                                 (Availability.startTime todayAvailability)
                            then Availability.startTime todayAvailability
                            else currentTime |}
                else None
            | None => None
            end in
          match today with
          | Some slot => Normal (Some slot)
          | None =>
              let currentDayIndex := indexOf currentDay days in
              Normal (nextDaySlot this currentDayIndex [1; 2; 3; 4; 5; 6; 7])
          end
      end
  end.

End HealthProfessional.

Module Booking.

Inductive Status :=
| pending | confirmed | in_progress | completed | cancelled | no_show.

(** The [enum] of [cancellationBy]. *)
Inductive Party := user_party | professional_party | system_party.

(** The [enum] of [notifications.type]. *)
Inductive NotificationType :=
| booking_confirmed | reminder | note_cancelled | note_completed
| payment_received.

Definition statusName (s : Status) : string :=
  match s with
  | pending => "pending" | confirmed => "confirmed"
  | in_progress => "in_progress" | completed => "completed"
  | cancelled => "cancelled" | no_show => "no_show"
  end.

Definition notificationTypeName (k : NotificationType) : string :=
  match k with
  | booking_confirmed => "booking_confirmed" | reminder => "reminder"
  | note_cancelled => "cancelled" | note_completed => "completed"
  | payment_received => "payment_received"
  end.

(** The notification type whose name is the name of the status, when the
    enumeration has one. *)
Definition notificationTypeOfStatus (s : Status) : option NotificationType :=
  match s with
  | cancelled => Some note_cancelled
  | completed => Some note_completed
  | _ => None
  end.

Record Service := {
  serviceName : option string;
  serviceDescription : option string;
  servicePrice : option Number;
  serviceDuration : option Number
}.

Record Address := {
  street : option string;
  city : option string;
  county : option string;
  coordinates : option Coordinates
}.

Record EmergencyContact := {
  contactName : option string;
  contactPhone : option string;
  relationship : option string
}.

Record Notes := { professionalNote : option string; userNote : option string }.

Record FollowUp := {
  required : bool;
  followUpDate : option Z;
  followUpReason : option string
}.

Record Rating := {
  professional : Number;
  service_ : Number;
  overall : Number;
  comment : option string;
  date : Z
}.

Record t := {
  _id : ObjectId.t;
  user : ObjectId.t;
  healthProfessional : ObjectId.t;
  bookingNumber : option string;
  appointmentDate : Z;
  appointmentTime : string;
  duration : Number;
  service : option Service;
  consultationType : string;
  location : string;
  address : option Address;
  symptoms : list string;
  medicalHistory : option string;
  currentMedications : list string;
  allergies : list string;
  emergencyContact : option EmergencyContact;
  specialInstructions : option string;
  isUrgent : bool;
  status : Status;
  paymentStatus : PaymentStatus;
  paymentMethod : string;
  amount : Number;
  currency : string;
  paymentDetails : option PaymentDetails;
  cancellationReason : option string;
  cancellationDate : option Z;
  cancellationBy : option Party;
  notes : Notes;
  followUp : FollowUp;
  rating : option Rating;
  notifications : list (Notification NotificationType);
  createdBy : ObjectId.t;
  createdAt : option Z;
  updatedAt : option Z
}.

Definition set_bookingNumber (v : option string) (o : t) : t :=
  Build_t (_id o) (user o) (healthProfessional o) v (appointmentDate o)
    (appointmentTime o) (duration o) (service o) (consultationType o)
    (location o) (address o) (symptoms o) (medicalHistory o)
    (currentMedications o) (allergies o) (emergencyContact o)
    (specialInstructions o) (isUrgent o) (status o) (paymentStatus o)
    (paymentMethod o) (amount o) (currency o) (paymentDetails o)
    (cancellationReason o) (cancellationDate o) (cancellationBy o) (notes o)
    (followUp o) (rating o) (notifications o) (createdBy o) (createdAt o)
    (updatedAt o).

Definition set_status (v : Status) (o : t) : t :=
  Build_t (_id o) (user o) (healthProfessional o) (bookingNumber o)
    (appointmentDate o) (appointmentTime o) (duration o) (service o)
    (consultationType o) (location o) (address o) (symptoms o)
    (medicalHistory o) (currentMedications o) (allergies o)
    (emergencyContact o) (specialInstructions o) (isUrgent o) v
    (paymentStatus o) (paymentMethod o) (amount o) (currency o)
    (paymentDetails o) (cancellationReason o) (cancellationDate o)
    (cancellationBy o) (notes o) (followUp o) (rating o) (notifications o)
    (createdBy o) (createdAt o) (updatedAt o).

Definition set_cancellationReason (v : option string) (o : t) : t :=
  Build_t (_id o) (user o) (healthProfessional o) (bookingNumber o)
    (appointmentDate o) (appointmentTime o) (duration o) (service o)
    (consultationType o) (location o) (address o) (symptoms o)
    (medicalHistory o) (currentMedications o) (allergies o)
    (emergencyContact o) (specialInstructions o) (isUrgent o) (status o)
    (paymentStatus o) (paymentMethod o) (amount o) (currency o)
    (paymentDetails o) v (cancellationDate o) (cancellationBy o) (notes o)
    (followUp o) (rating o) (notifications o) (createdBy o) (createdAt o)
    (updatedAt o).

Definition set_cancellationDate (v : option Z) (o : t) : t :=
  Build_t (_id o) (user o) (healthProfessional o) (bookingNumber o)
    (appointmentDate o) (appointmentTime o) (duration o) (service o)
    (consultationType o) (location o) (address o) (symptoms o)
    (medicalHistory o) (currentMedications o) (allergies o)
    (emergencyContact o) (specialInstructions o) (isUrgent o) (status o)
    (paymentStatus o) (paymentMethod o) (amount o) (currency o)
    (paymentDetails o) (cancellationReason o) v (cancellationBy o) (notes o)
    (followUp o) (rating o) (notifications o) (createdBy o) (createdAt o)
    (updatedAt o).

Definition set_cancellationBy (v : option Party) (o : t) : t :=
  Build_t (_id o) (user o) (healthProfessional o) (bookingNumber o)
    (appointmentDate o) (appointmentTime o) (duration o) (service o)
    (consultationType o) (location o) (address o) (symptoms o)
    (medicalHistory o) (currentMedications o) (allergies o)
    (emergencyContact o) (specialInstructions o) (isUrgent o) (status o)
    (paymentStatus o) (paymentMethod o) (amount o) (currency o)
    (paymentDetails o) (cancellationReason o) (cancellationDate o) v
    (notes o) (followUp o) (rating o) (notifications o) (createdBy o)
    (createdAt o) (updatedAt o).

Definition set_rating (v : option Rating) (o : t) : t :=
  Build_t (_id o) (user o) (healthProfessional o) (bookingNumber o)
    (appointmentDate o) (appointmentTime o) (duration o) (service o)
    (consultationType o) (location o) (address o) (symptoms o)
    (medicalHistory o) (currentMedications o) (allergies o)
    (emergencyContact o) (specialInstructions o) (isUrgent o) (status o)
    (paymentStatus o) (paymentMethod o) (amount o) (currency o)
    (paymentDetails o) (cancellationReason o) (cancellationDate o)
    (cancellationBy o) (notes o) (followUp o) v (notifications o)
    (createdBy o) (createdAt o) (updatedAt o).

Definition set_notifications (v : list (Notification NotificationType)) (o : t) : t :=
  Build_t (_id o) (user o) (healthProfessional o) (bookingNumber o)
    (appointmentDate o) (appointmentTime o) (duration o) (service o)
    (consultationType o) (location o) (address o) (symptoms o)
    (medicalHistory o) (currentMedications o) (allergies o)
    (emergencyContact o) (specialInstructions o) (isUrgent o) (status o)
    (paymentStatus o) (paymentMethod o) (amount o) (currency o)
    (paymentDetails o) (cancellationReason o) (cancellationDate o)
    (cancellationBy o) (notes o) (followUp o) (rating o) v (createdBy o)
    (createdAt o) (updatedAt o).

Definition set_createdAt (v : option Z) (o : t) : t :=
  Build_t (_id o) (user o) (healthProfessional o) (bookingNumber o)
    (appointmentDate o) (appointmentTime o) (duration o) (service o)
    (consultationType o) (location o) (address o) (symptoms o)
    (medicalHistory o) (currentMedications o) (allergies o)
    (emergencyContact o) (specialInstructions o) (isUrgent o) (status o)
    (paymentStatus o) (paymentMethod o) (amount o) (currency o)
    (paymentDetails o) (cancellationReason o) (cancellationDate o)
    (cancellationBy o) (notes o) (followUp o) (rating o) (notifications o)
    (createdBy o) v (updatedAt o).

Definition set_updatedAt (v : option Z) (o : t) : t :=
  Build_t (_id o) (user o) (healthProfessional o) (bookingNumber o)
    (appointmentDate o) (appointmentTime o) (duration o) (service o)
    (consultationType o) (location o) (address o) (symptoms o)
    (medicalHistory o) (currentMedications o) (allergies o)
    (emergencyContact o) (specialInstructions o) (isUrgent o) (status o)
    (paymentStatus o) (paymentMethod o) (amount o) (currency o)
    (paymentDetails o) (cancellationReason o) (cancellationDate o)
    (cancellationBy o) (notes o) (followUp o) (rating o) (notifications o)
    (createdBy o) (createdAt o) v.

Definition replace (this : t) (coll : list t) : list t :=
  map (fun x => if ObjectId.eqb (_id x) (_id this) then this else x) coll.

Definition hasId (id : ObjectId.t) (coll : list t) : bool :=
  existsb (fun x => ObjectId.eqb (_id x) id) coll.

Definition hasNumber (number : string) (coll : list t) : bool :=
  existsb (fun x => match bookingNumber x with
                    | Some n => String.eqb n number
                    | None => false
                    end) coll.

(** [required: true] on a string path: the value is there and is not the
    empty string. *)
Definition present (v : option string) : bool :=
  match v with
  | Some s => notEmpty s
  | None => false
  end.

(** [save()] of a new document.  Mongoose validates the document in the
    first of the [pre('save')] hooks, ahead of the hooks of the schema:
    [bookingNumber] is [required: true], so a document that comes without
    it is refused with a ValidationError, and the hook of the schema that
    would number it is not run.  For a document that has a number,
    [timestamps: true] sets the two timestamps, the hook of the schema
    puts its own number in the place of the one given ([isNew] is true),
    and the document is appended to the collection unless the unique index
    on [_id] or the one on [bookingNumber] ([unique: true]) refuses it. *)
Definition saveNew (H : Host) (env : Env) (this : t) (coll : list t)
  : Completion (t * list t) :=
  if negb (present (bookingNumber this))
  then Throw (ValidationError "bookingNumber")
  else
  let number := referenceNumber H "BK" env in
  let this' :=
    set_bookingNumber (Some number)
      (set_updatedAt (Some (now env)) (set_createdAt (Some (now env)) this)) in
  if hasId (_id this') coll
  then Throw (MongoServerError "E11000 duplicate key error: _id")
  else if hasNumber number coll
  then Throw (MongoServerError "E11000 duplicate key error: bookingNumber")
  else Normal (this', (coll ++ [this'])%list).

(** [save()] of a stored document; [modified] says whether an assignment
    since the document was loaded has changed a path ([isModified()]).
    For a modified document [timestamps: true] renews [updatedAt] and the
    document takes the place of the stored one; for one that is not
    modified nothing is sent and [updatedAt] stays. *)
Definition save (env : Env) (modified : bool) (this : t) (coll : list t)
  : t * list t :=
  if modified then
    let this' := set_updatedAt (Some (now env)) this in
    (this', replace this' coll)
  else (this, coll).

(** [this.notifications.push({ type, message })]. *)
Definition pushNotification (env : Env) (k : NotificationType)
           (msg : string) (this : t) : t :=
  set_notifications
    (notifications this ++
       [{| type := k; message := msg; sentAt := now env; isRead := false |}])%list
    this.

(** [bookingSchema.methods.updateStatus].  The type of the pushed entry is
    the status name; when the enumeration of notification types does not
    have it, validation rejects the [save].  A push modifies the document;
    the assignment of the status does when the status is another one. *)
Definition updateStatus (env : Env) (this : t) (newStatus : Status)
           (notificationMessage : option string) (coll : list t)
  : Completion (t * list t) :=
  let this1 := set_status newStatus this in
  let changed :=
    negb (String.eqb (statusName (status this)) (statusName newStatus)) in
  match notificationMessage with
  | Some msg =>
      if notEmpty msg then
        match notificationTypeOfStatus newStatus with
        | Some k =>
            Normal (save env true (pushNotification env k msg this1) coll)
        | None => Throw (ValidationError "notifications.0.type")
        end
      else Normal (save env changed this1 coll)
  | None => Normal (save env changed this1 coll)
  end.

(** A value interpolated in a template literal. *)
Definition interpolate (v : option string) : string :=
  match v with
  | Some s => s
  | None => "undefined"
  end.

(** [bookingSchema.methods.cancelBooking].  The push of the notification
    modifies the document. *)
Definition cancelBooking (env : Env) (this : t) (reason : option string)
           (cancelledBy : Party) (coll : list t) : t * list t :=
  let this1 := set_status cancelled this in
  let this2 := set_cancellationReason reason this1 in
  let this3 := set_cancellationDate (Some (now env)) this2 in
  let this4 := set_cancellationBy (Some cancelledBy) this3 in
  let this5 :=
    pushNotification env note_cancelled
      ("Your appointment has been cancelled. Reason: " ++ interpolate reason)
      this4 in
  save env true this5 coll.

(** [bookingSchema.methods.addRating].  The object assigned to [rating]
    is a new one, with the present time for its date: the assignment
    modifies the document. *)
Definition addRating (env : Env) (this : t)
           (professionalRating serviceRating overallRating : Number)
           (comment : option string) (coll : list t) : t * list t :=
  save env true
    (set_rating
       (Some {| professional := professionalRating;
                service_ := serviceRating;
                overall := overallRating;
                comment := comment;
                date := now env |}) this)
    coll.

Record Summary := {
  summary_id : ObjectId.t;
  summary_bookingNumber : option string;
  summary_appointmentDate : Z;
  summary_appointmentTime : string;
  summary_status : Status;
  summary_paymentStatus : PaymentStatus;
  summary_amount : Number;
  summary_currency : string;
  summary_consultationType : string
}.

(** [bookingSchema.methods.getSummary]. *)
Definition getSummary (this : t) : Summary := {|
  summary_id := _id this;
  summary_bookingNumber := bookingNumber this;
  summary_appointmentDate := appointmentDate this;
  summary_appointmentTime := appointmentTime this;
  summary_status := status this;
  summary_paymentStatus := paymentStatus this;
  summary_amount := amount this;
  summary_currency := currency this;
  summary_consultationType := consultationType this
|}.

Definition Qltb (x y : Q) : bool := negb (Qle_bool y x).

(** [bookingSchema.methods.canBeCancelled].  The appointment instant is
    [new Date(this.appointmentDate)], the stored date; the difference of
    the two time values is divided exactly. *)
Definition canBeCancelled (env : Env) (this : t) : bool :=
  let cancellableStatuses := ["pending"; "confirmed"] in
  let appointmentDateTime := appointmentDate this in
  let hoursDifference :=
    (inject_Z (appointmentDateTime - now env) / inject_Z (1000 * 60 * 60))%Q in
  inList (statusName (status this)) cancellableStatuses
  && Qltb 24 hoursDifference.

(** [bookingSchema.methods.isUpcoming]. *)
Definition isUpcoming (env : Env) (this : t) : bool :=
  (now env <? appointmentDate this)
  && String.eqb (statusName (status this)) "confirmed".

End Booking.

(* ================================================================== *)
(** * The store and the HTTP layer *)

Record Store := {
  meals : list Meal.t;
  orders : list Order.t;
  professionals : list HealthProfessional.t;
  bookings : list Booking.t
}.

Definition set_orders (v : list Order.t) (st : Store) : Store :=
  {| meals := meals st; orders := v;
     professionals := professionals st; bookings := bookings st |}.

Definition set_bookings (v : list Booking.t) (st : Store) : Store :=
  {| meals := meals st; orders := orders st;
     professionals := professionals st; bookings := v |}.

Module Http.

Inductive Payload :=
| NoData
| Errors (errors : list string)
| OrderData (order : Order.Summary)
| BookingData (booking : Booking.Summary)
| BookingRatingData (rating : option Booking.Rating).

Record Response := {
  status : Z;
  success : bool;
  message : string;
  data : Payload
}.

(** [res.status(code).json({ success: false, message })]. *)
Definition failure (code : Z) (msg : string) : Response :=
  {| status := code; success := false; message := msg; data := NoData |}.

Definition validationErrors (errors : list string) : Response :=
  {| status := 400; success := false; message := "Validation errors";
     data := Errors errors |}.

Definition serverError : Response := failure 500 "Server error".

(** The straight-line code of a handler: it goes on with a value, leaves
    with a response, or throws. *)
Inductive Step (A : Type) :=
| Next (a : A)
| Return (r : Response)
| Raise (e : Error).
Arguments Return {A} r.
Arguments Raise {A} e.

Definition bind {A B : Type} (c : Step A) (k : A -> Step B) : Step B :=
  match c with
  | Next a => k a
  | Return r => Return r
  | Raise e => Raise e
  end.

Definition await {A : Type} (c : Completion A) : Step A :=
  match c with
  | Normal a => Next a
  | Throw e => Raise e
  end.

Fixpoint mapM {A B : Type} (f : A -> Step B) (l : list A) : Step (list B) :=
  match l with
  | [] => Next []
  | x :: r =>
      bind (f x) (fun y => bind (mapM f r) (fun ys => Next (y :: ys)))
  end.

(** [try { body } catch (error) { res.status(500)... }] around a body that
    writes to the store last: leaving early or throwing leaves the store
    as it was. *)
Definition tryCatch (st : Store) (body : Step (Response * Store))
  : Response * Store :=
  match body with
  | Next rs => rs
  | Return r => (r, st)
  | Raise _ => (serverError, st)
  end.

End Http.

Import Http.

Notation "x <- c ;; k" := (bind c (fun x => k))
  (at level 61, c at next level, right associativity).

Definition isNil {A : Type} (l : list A) : bool :=
  match l with
  | [] => true
  | _ => false
  end.

(** One validator of a chain: its message when the check fails. *)
Definition check (ok : bool) (msg : string) : list string :=
  if ok then [] else [msg].

(** An [optional()] chain is skipped for a missing value. *)
Definition checkOptional {A : Type} (v : option A) (ok : A -> bool)
           (msg : string) : list string :=
  match v with
  | None => []
  | Some a => check (ok a) msg
  end.

(** [isInt({ min, max })] on a number: its decimal rendering is an integer
    literal, so it has no fraction and no exponent part. *)
Definition isInt (min : Number) (max : option Number) (x : Number) : bool :=
  isInteger x && PrimFloat.ltb (PrimFloat.abs x) 1e21%float
  && PrimFloat.leb min x
  && match max with
     | Some m => PrimFloat.leb x m
     | None => true
     end.

(** [isFloat({ min, max })] on a number. *)
Definition isFloat (min : Number) (max : option Number) (x : Number) : bool :=
  isFinite x && PrimFloat.leb min x
  && match max with
     | Some m => PrimFloat.leb x m
     | None => true
     end.

(** The answer of a handler whose [data] is of a kind of its own: the
    success response with its status, message (empty when the response has
    none) and data, or a failure response. *)
Module Reply.

Inductive t (A : Type) :=
| Sent (code : Z) (message : string) (data : A)
| Failed (r : Response).
Arguments Failed {A} r.

Definition succeeded {A : Type} (r : t A) : bool :=
  match r with
  | Sent _ _ _ => true
  | Failed _ => false
  end.

(** [try { body; res.status(code).json({ success: true, message, data }) }
    catch (error) { res.status(500)... }]. *)
Definition respond {A : Type} (code : Z) (message : string) (st : Store)
           (body : Step (A * Store)) : t A * Store :=
  match body with
  | Next (a, st') => (Sent code message a, st')
  | Return r => (Failed r, st)
  | Raise _ => (Failed serverError, st)
  end.

End Reply.

(* ================================================================== *)
(** * Routing *)

(** The part of an Express router the two route files rely on: routes are
    tried in the order of their declaration, the first one whose path and
    method match serves the request, and every handler of the two files ends
    the request (none calls [next]).  A route path is matched segment by
    segment, without regard to case and with an optional trailing slash; a
    named parameter takes one non-empty segment, and the handler is given
    the segment decoded with [decodeURIComponent].  A segment that cannot be
    decoded ends the request with the status 400: the parameters of a
    route are decoded when its path matches, before its method is looked
    at, and no later route matches once a decoding has failed. *)
Module Express.

Inductive Method := GET | POST | PUT.

Definition method_eqb (a b : Method) : bool :=
  match a, b with
  | GET, GET | POST, POST | PUT, PUT => true
  | _, _ => false
  end.

Inductive Segment :=
| Literal (text : string)
| Param (name : string).

Record Route (A : Type) := {
  method : Method;
  path : list Segment;
  handler : A
}.

Fixpoint splitSlash (s : string) : list string :=
  match s with
  | EmptyString => [EmptyString]
  | String c r =>
      if Ascii.eqb c "/" then EmptyString :: splitSlash r
      else match splitSlash r with
           | seg :: rest => String c seg :: rest
           | [] => [String c EmptyString]
           end
  end.

Definition dropTrailingEmpty (l : list string) : list string :=
  match rev l with
  | EmptyString :: r => rev r
  | _ => l
  end.

(** The segments of a request path below the mount point. *)
Definition segments (url : string) : option (list string) :=
  match url with
  | EmptyString => Some []
  | String c r =>
      if Ascii.eqb c "/" then Some (dropTrailingEmpty (splitSlash r)) else None
  end.

(** The regular expression of a route path run on the request path
    ([layer.regexp.exec(path)]): the captures, as they stand in the path,
    when it matches.  [matchLayer] below decodes them. *)
Fixpoint matchPath (pattern : list Segment) (segs : list string)
  : option (list (string * string)) :=
  match pattern, segs with
  | [], [] => Some []
  | Literal text :: pattern', s :: segs' =>
      if String.eqb (toLowerCase s) (toLowerCase text)
      then matchPath pattern' segs' else None
  | Param name :: pattern', s :: segs' =>
      if notEmpty s
      then option_map (cons (name, s)) (matchPath pattern' segs') else None
  | _, _ => None
  end.

Definition hexValue (c : ascii) : option Z :=
  let n := Z.of_nat (nat_of_ascii c) in
  if (48 <=? n) && (n <=? 57) then Some (n - 48)
  else if (97 <=? n) && (n <=? 102) then Some (n - 87)
  else if (65 <=? n) && (n <=? 70) then Some (n - 55)
  else None.

(** The octet of the two hexadecimal digits of an escape. *)
Definition hexOctet (a b : ascii) : option Z :=
  match hexValue a, hexValue b with
  | Some h, Some l => Some (16 * h + l)
  | _, _ => None
  end.

Definition within (lo hi x : Z) : bool := (lo <=? x) && (x <=? hi).

(** The octets are the UTF-8 encoding of one code point that takes more
    than one octet: no overlong form, no surrogate, nothing above
    U+10FFFF. *)
Definition wellFormed (octets : list Z) : bool :=
  match octets with
  | [a; b] => within 194 223 a && within 128 191 b
  | [a; b; c] =>
      ((a =? 224) && within 160 191 b
       || (within 225 236 a || within 238 239 a) && within 128 191 b
       || (a =? 237) && within 128 159 b)
      && within 128 191 c
  | [a; b; c; d] =>
      ((a =? 240) && within 144 191 b
       || within 241 243 a && within 128 191 b
       || (a =? 244) && within 128 143 b)
      && within 128 191 c && within 128 191 d
  | _ => false
  end.

Definition charOfOctet (b : Z) : ascii := ascii_of_nat (Z.to_nat b).

Fixpoint stringOfOctets (octets : list Z) (rest : string) : string :=
  match octets with
  | [] => rest
  | b :: r => String (charOfOctet b) (stringOfOctets r rest)
  end.

(** The number of octets the first octet of an encoding announces: the
    number of its leading 1 bits. *)
Definition announced (b : Z) : nat :=
  if b <? 128 then 0
  else if b <? 192 then 1
  else if b <? 224 then 2
  else if b <? 240 then 3
  else if b <? 248 then 4
  else 5.

(** [Decode] of ECMA-262 with an empty set of reserved characters, from a
    place in the string where [pending] are the octets of the escapes read
    for the code point under way and [remaining] is the number of escapes
    it still takes.  [None] stands for the URIError. *)
Fixpoint decodeFrom (pending : list Z) (remaining : nat) (s : string)
  : option string :=
  match s with
  | EmptyString =>
      match remaining with
      | O => Some EmptyString
      | S _ => None
      end
  | String c r =>
      if Ascii.eqb c "%" then
        match r with
        | String a (String b r') =>
            match hexOctet a b with
            | None => None
            | Some octet =>
                match remaining with
                | O =>
                    match announced octet with
                    | O => option_map (String (charOfOctet octet))
                             (decodeFrom [] 0 r')
                    | 2%nat => decodeFrom [octet] 1 r'
                    | 3%nat => decodeFrom [octet] 2 r'
                    | 4%nat => decodeFrom [octet] 3 r'
                    | _ => None
                    end
                | 1%nat =>
                    let octets := (pending ++ [octet])%list in
                    if wellFormed octets
                    then option_map (stringOfOctets octets)
                           (decodeFrom [] 0 r')
                    else None
                | S k => decodeFrom (pending ++ [octet])%list k r'
                end
            end
        | _ => None
        end
      else
        match remaining with
        | O => option_map (String c) (decodeFrom [] 0 r)
        | S _ => None
        end
  end.

(** [decodeURIComponent]. *)
Definition decodeURIComponent (s : string) : option string :=
  decodeFrom [] 0 s.

(** The captures of a route, each put through [decode_param], which is
    [decodeURIComponent] with the status 400 on its URIError. *)
Fixpoint decodeParams (captures : list (string * string))
  : option (list (string * string)) :=
  match captures with
  | [] => Some []
  | (name, value) :: rest =>
      match decodeURIComponent value, decodeParams rest with
      | Some value', Some rest' => Some ((name, value') :: rest')
      | _, _ => None
      end
  end.

Inductive Matching :=
| Matched (params : list (string * string))
| NoMatch
| DecodeError.

(** [matchLayer]: the route path is matched against the request path and
    the captures are decoded; what the handler finds in [req.params] are
    the decoded values. *)
Definition matchLayer (pattern : list Segment) (segs : list string)
  : Matching :=
  match matchPath pattern segs with
  | None => NoMatch
  | Some captures =>
      match decodeParams captures with
      | Some params => Matched params
      | None => DecodeError
      end
  end.

Inductive Outcome (A : Type) :=
| Served (h : A) (params : list (string * string))
| BadRequest
| NoRoute.
Arguments BadRequest {A}.
Arguments NoRoute {A}.

(** The loop of [router.handle] over the routes: a route whose path does
    not match is passed; a decoding error is kept and no later route
    matches; a route whose path matches and whose parameters are decoded
    serves the request when it has the method, and is passed otherwise. *)
Fixpoint dispatch {A : Type} (routes : list (Route A)) (m : Method)
         (segs : list string) : Outcome A :=
  match routes with
  | [] => NoRoute
  | r :: rest =>
      match matchLayer (path r) segs with
      | NoMatch => dispatch rest m segs
      | DecodeError => BadRequest
      | Matched params =>
          if method_eqb (method r) m then Served (handler r) params
          else dispatch rest m segs
      end
  end.

(** The handler that serves a request, with the parameters of its path;
    none serves it when no route matches (404) and when a parameter cannot
    be decoded (400). *)
Definition serve {A : Type} (routes : list (Route A)) (m : Method)
           (url : string) : option (A * list (string * string)) :=
  match segments url with
  | Some segs =>
      match dispatch routes m segs with
      | Served h params => Some (h, params)
      | BadRequest | NoRoute => None
      end
  | None => None
  end.

End Express.

(* ================================================================== *)
(** * The orders router *)

Module OrdersRoute.

Record ItemRequest := {
  mealId : string;
  quantity : Number;
  specialInstructions : option string
}.

Record Request := {
  items : list ItemRequest;
  deliveryAddress : Order.Address;
  contactInfo : Order.Contact;
  paymentMethod : string;
  orderInstructions : option string;
  allergies : list string;
  dietaryRestrictions : list string
}.

(** The validation chain of [POST /api/orders]; a missing string field is
    the empty string. *)
Definition validateCreate (req : Request) : list string :=
  (check (1 <=? List.length (items req))%nat "At least one item is required"
   ++ flat_map (fun item => check (ObjectId.isMongoId (mealId item))
                              "Invalid meal ID") (items req)
   ++ flat_map (fun item => check (isInt 1%float None (quantity item))
                              "Quantity must be at least 1") (items req)
   ++ check (notEmpty (Order.street (deliveryAddress req)))
        "Street address is required"
   ++ check (notEmpty (Order.city (deliveryAddress req))) "City is required"
   ++ check (notEmpty (Order.county (deliveryAddress req)))
        "County is required"
   ++ check (notEmpty (Order.contactName (contactInfo req)))
        "Contact name is required"
   ++ check (notEmpty (Order.phone (contactInfo req)))
        "Contact phone is required"
   ++ check (inList (paymentMethod req)
               ["mpesa"; "cash_on_delivery"; "bank_transfer"; "credit_card"])
        "Invalid payment method")%list.

(** [Meal.find({ _id: { $in: mealIds }, isActive: true })]. *)
Definition findMeals (mealIds : list string) (coll : list Meal.t)
  : list Meal.t :=
  filter (fun m => existsb (fun id => ObjectId.eqb (Meal._id m) (ObjectId.cast id))
                     mealIds
                   && Meal.isActive m) coll.

(** The identifiers the query looks for, one for each line. *)
Definition wanted (l : list ItemRequest) : list ObjectId.t :=
  map (fun item => ObjectId.cast (mealId item)) l.

(** The callback of [items.map]: reading [price] of a meal that [find]
    did not return throws. *)
Definition orderItem (meals : list Meal.t) (item : ItemRequest)
  : Step Order.Item :=
  match find (fun m => String.eqb (ObjectId.toString (Meal._id m)) (mealId item))
             meals with
  | None => Raise (TypeError "Cannot read properties of undefined (reading 'price')")
  | Some meal =>
      Next {| Order.meal := ObjectId.cast (mealId item);
              Order.quantity := quantity item;
              Order.price := Meal.price meal;
              Order.totalPrice := (Meal.price meal * quantity item)%float;
              Order.itemInstructions := specialInstructions item |}
  end.

Definition calculateSubtotal (orderItems : list Order.Item) : Number :=
  fold_left (fun sum item => (sum + Order.totalPrice item)%float) orderItems
    0%float.

(** [new Order({...})] with the defaults of the schema. *)
Definition newOrder (env : Env) (user : ObjectId.t) (req : Request)
           (orderItems : list Order.Item)
           (subtotal deliveryFee tax total : Number) : Order.t := {|
  Order._id := freshId env;
  Order.user := user;
  Order.orderNumber := None;
  Order.items := orderItems;
  Order.subtotal := subtotal;
  Order.deliveryFee := deliveryFee;
  Order.tax := tax;
  Order.total := total;
  Order.currency := "KES";
  Order.deliveryAddress := deliveryAddress req;
  Order.contactInfo := contactInfo req;
  Order.paymentMethod := paymentMethod req;
  Order.paymentStatus := payment_pending;
  Order.paymentDetails := None;
  Order.orderStatus := Order.pending;
  Order.deliveryTime := {| Order.estimated := None; Order.actual := None |};
  Order.deliveryPerson := None;
  Order.specialInstructions := orderInstructions req;
  Order.allergies := allergies req;
  Order.dietaryRestrictions := dietaryRestrictions req;
  Order.isUrgent := false;
  Order.cancellationReason := None;
  Order.refundAmount := None;
  Order.refundReason := None;
  Order.rating := None;
  Order.notifications := [];
  Order.createdBy := user;
  Order.createdAt := None;
  Order.updatedAt := None
|}.

Definition unavailable : Response :=
  failure 400 "Some meals are not available".

(** [POST /api/orders] as far as [new Order({...})]: the document the
    handler hands to [save()]. *)
Definition buildOrder (env : Env) (user : ObjectId.t) (req : Request)
           (st : Store) : Step Order.t :=
  let errors := validateCreate req in
  if negb (isNil errors) then Return (validationErrors errors) else
  let mealIds := map mealId (items req) in
  let meals := findMeals mealIds (meals st) in
  if negb (List.length meals =? List.length (items req))%nat then Return unavailable
  else
  orderItems <- mapM (orderItem meals) (items req) ;;
  let subtotal := calculateSubtotal orderItems in
  let deliveryFee := if PrimFloat.ltb 1000 subtotal then 0%float else 200%float in
  let tax := (subtotal * 0.16)%float in
  let total := (subtotal + deliveryFee + tax)%float in
  Next (newOrder env user req orderItems subtotal deliveryFee tax total).

(** [POST /api/orders]. *)
Definition createOrder (H : Host) (env : Env) (user : ObjectId.t)
           (req : Request) (st : Store) : Response * Store :=
  tryCatch st (
    order <- buildOrder env user req st ;;
    saved <- await (Order.saveNew H env order (orders st)) ;;
    let '(order, coll) := saved in
    let '(order, coll) := Order.calculateDeliveryTime env order coll in
    Next ({| status := 201; success := true;
             message := "Order created successfully";
             data := OrderData (Order.getSummary order) |},
          set_orders coll st)).

(** [Order.findOne({ _id: id, user: req.user.id })]. *)
Definition findOwned (id : string) (user : ObjectId.t) (coll : list Order.t)
  : option Order.t :=
  find (fun o => ObjectId.eqb (Order._id o) (ObjectId.cast id)
                 && ObjectId.eqb (Order.user o) user) coll.

Definition cannotCancel : Response :=
  failure 400 "Order cannot be cancelled at this stage".

(** [PUT /api/orders/:id/cancel]; the chain trims a reason that is
    given.  The two assignments modify the order when the status was not
    cancelled or the reason was another one. *)
Definition cancelOrder (env : Env) (user : ObjectId.t) (id : string)
           (reason : option string) (st : Store) : Response * Store :=
  tryCatch st (
    let errors := check (ObjectId.isMongoId id) "Invalid order ID" in
    if negb (isNil errors) then Return (validationErrors errors) else
    let reason := option_map trim reason in
    match findOwned id user (orders st) with
    | None => Return (failure 404 "Order not found")
    | Some order =>
        if negb (Order.canBeCancelled order) then Return cannotCancel else
        let modified :=
          negb (String.eqb (Order.statusName (Order.orderStatus order))
                  "cancelled")
          || negb (sameString (Order.cancellationReason order) reason) in
        let order := Order.set_orderStatus Order.cancelled order in
        let order := Order.set_cancellationReason reason order in
        let '(order, coll) := Order.save env modified order (orders st) in
        Next ({| status := 200; success := true;
                 message := "Order cancelled successfully";
                 data := OrderData (Order.getSummary order) |},
              set_orders coll st)
    end).

(** [POST /api/orders/:id/rate]. *)
Definition rateOrder (env : Env) (user : ObjectId.t) (id : string)
           (foodRating deliveryRating overallRating : Number)
           (comment : option string) (st : Store)
  : Reply.t (option Order.Rating) * Store :=
  Reply.respond 200 "Rating submitted successfully" st (
    let inRange := isFloat 1%float (Some 5%float) in
    let errors :=
      (check (ObjectId.isMongoId id) "Invalid order ID"
       ++ check (inRange foodRating) "Food rating must be between 1 and 5"
       ++ check (inRange deliveryRating)
            "Delivery rating must be between 1 and 5"
       ++ check (inRange overallRating)
            "Overall rating must be between 1 and 5")%list in
    if negb (isNil errors) then Return (validationErrors errors) else
    let comment := option_map trim comment in
    match findOwned id user (orders st) with
    | None => Return (failure 404 "Order not found")
    | Some order =>
        if negb (String.eqb (Order.statusName (Order.orderStatus order))
                   "delivered")
        then Return (failure 400 "Order must be delivered before rating")
        else
        let '(order, coll) :=
          Order.addRating env order foodRating deliveryRating overallRating
            comment (orders st) in
        Next (Order.rating order, set_orders coll st)
    end).

(** An entry of the tracking timeline. *)
Record Milestone := {
  milestone : string;
  title : string;
  description : string;
  time : option Z;
  completed : bool
}.

(** The timeline of [GET /api/orders/tracking/:orderNumber]. *)
Definition timeline (order : Order.t) : list Milestone :=
  let status := Order.statusName (Order.orderStatus order) in
  [ {| milestone := "order_placed";
       title := "Order Placed";
       description := "Your order has been placed successfully";
       time := Order.createdAt order;
       completed := true |};
    {| milestone := "order_confirmed";
       title := "Order Confirmed";
       description := "Your order has been confirmed";
       time := if String.eqb status "confirmed" then Order.updatedAt order
               else None;
       completed := inList status
                      ["confirmed"; "preparing"; "out_for_delivery"; "delivered"] |};
    {| milestone := "preparing";
       title := "Preparing";
       description := "Your order is being prepared";
       time := if String.eqb status "preparing" then Order.updatedAt order
               else None;
       completed := inList status ["preparing"; "out_for_delivery"; "delivered"] |};
    {| milestone := "out_for_delivery";
       title := "Out for Delivery";
       description := "Your order is on its way";
       time := if String.eqb status "out_for_delivery"
               then Order.updatedAt order else None;
       completed := inList status ["out_for_delivery"; "delivered"] |};
    {| milestone := "delivered";
       title := "Delivered";
       description := "Your order has been delivered";
       time := if String.eqb status "delivered"
               then Order.actual (Order.deliveryTime order) else None;
       completed := String.eqb status "delivered" |} ].

(** A line of a tracked order: [populate('items.meal', 'name image')] puts
    the meal document in the place of its identifier, or null when there is
    none; of the two selected fields the model's meal has the name. *)
Record TrackedItem := {
  trackedMeal : option (ObjectId.t * string);
  trackedQuantity : Number;
  trackedPrice : Number;
  trackedTotalPrice : Number;
  trackedInstructions : option string
}.

Definition populateItem (coll : list Meal.t) (item : Order.Item) : TrackedItem :=
  {| trackedMeal :=
       option_map (fun m => (Meal._id m, Meal.name m))
         (find (fun m => ObjectId.eqb (Meal._id m) (Order.meal item)) coll);
     trackedQuantity := Order.quantity item;
     trackedPrice := Order.price item;
     trackedTotalPrice := Order.totalPrice item;
     trackedInstructions := Order.itemInstructions item |}.

Record Tracking := {
  trackedNumber : option string;
  trackedStatus : Order.Status;
  estimatedDelivery : option Z;
  actualDelivery : option Z;
  trackedPerson : option Order.DeliveryPerson;
  trackedItems : list TrackedItem;
  trackedTimeline : list Milestone
}.

(** [Order.findOne({ orderNumber, user: req.user.id })]. *)
Definition findByNumber (orderNumber : string) (user : ObjectId.t)
           (coll : list Order.t) : option Order.t :=
  find (fun o => match Order.orderNumber o with
                 | Some n => String.eqb n orderNumber
                 | None => false
                 end
                 && ObjectId.eqb (Order.user o) user) coll.

(** [GET /api/orders/tracking/:orderNumber]. *)
Definition trackOrder (user : ObjectId.t) (orderNumber : string) (st : Store)
  : Reply.t Tracking * Store :=
  Reply.respond 200 "" st (
    let errors := check (notEmpty orderNumber) "Order number is required" in
    if negb (isNil errors) then Return (validationErrors errors) else
    match findByNumber orderNumber user (orders st) with
    | None => Return (failure 404 "Order not found")
    | Some order =>
        Next ({| trackedNumber := Order.orderNumber order;
                 trackedStatus := Order.orderStatus order;
                 estimatedDelivery := Order.estimated (Order.deliveryTime order);
                 actualDelivery := Order.actual (Order.deliveryTime order);
                 trackedPerson := Order.deliveryPerson order;
                 trackedItems := map (populateItem (meals st)) (Order.items order);
                 trackedTimeline := timeline order |}, st)
    end).

(** The routes of the file, in the order of their declaration. *)
Inductive Handler :=
| PostOrder | GetOrders | GetOrder | PutOrderCancel | PostOrderRate
| GetTracking.

Definition routes : list (Express.Route Handler) :=
  [ {| Express.method := Express.POST; Express.path := [];
       Express.handler := PostOrder |};
    {| Express.method := Express.GET; Express.path := [];
       Express.handler := GetOrders |};
    {| Express.method := Express.GET; Express.path := [Express.Param "id"];
       Express.handler := GetOrder |};
    {| Express.method := Express.PUT;
       Express.path := [Express.Param "id"; Express.Literal "cancel"];
       Express.handler := PutOrderCancel |};
    {| Express.method := Express.POST;
       Express.path := [Express.Param "id"; Express.Literal "rate"];
       Express.handler := PostOrderRate |};
    {| Express.method := Express.GET;
       Express.path := [Express.Literal "tracking"; Express.Param "orderNumber"];
       Express.handler := GetTracking |} ].

End OrdersRoute.

(* ================================================================== *)
(** * The bookings router *)

Module BookingsRoute.

Record ServiceRequest := {
  name : option string;
  price : option Number
}.

Record Request := {
  healthProfessionalId : string;
  appointmentDate : string;
  appointmentTime : string;
  duration : option Number;
  consultationType : string;
  service : option ServiceRequest;
  symptoms : option (list string);
  medicalHistory : option string;
  currentMedications : option (list string);
  allergies : option (list string);
  specialInstructions : option string;
  isUrgent : option bool
}.

(** [/^([01]?[0-9]|2[0-3]):[0-5][0-9]$/]. *)
Definition matchesTime (s : string) : bool :=
  let minutes (m1 m2 : ascii) :=
    isDigit m1 && (digitVal m1 <=? 5) && isDigit m2 in
  match list_ascii_of_string s with
  | [h; c; m1; m2] => isDigit h && isChar c ":" && minutes m1 m2
  | [h1; h2; c; m1; m2] =>
      ((isDigit h1 && (digitVal h1 <=? 1) && isDigit h2)
       || (isChar h1 "2" && isDigit h2 && (digitVal h2 <=? 3)))
      && isChar c ":" && minutes m1 m2
  | _ => false
  end.

Definition orElse {A : Type} (v : option A) (d : A) : A :=
  match v with
  | Some a => a
  | None => d
  end.

(** The validation chain of [POST /api/bookings]; the checks on the kind
    of a value (string, array, boolean) are those of the types. *)
Definition validateCreate (H : Host) (req : Request) : list string :=
  (check (ObjectId.isMongoId (healthProfessionalId req))
     "Invalid health professional ID"
   ++ check (isISO8601 H (appointmentDate req)) "Invalid appointment date"
   ++ check (matchesTime (appointmentTime req)) "Invalid appointment time"
   ++ checkOptional (duration req) (isInt 15%float (Some 180%float))
        "Duration must be between 15 and 180 minutes"
   ++ check (inList (consultationType req) ["in_person"; "online"; "home_visit"])
        "Invalid consultation type"
   ++ checkOptional (match service req with
                     | Some sv => price sv
                     | None => None
                     end) (isFloat 0%float None) "Invalid value")%list.

(** The sanitizers of the chain: [trim()] on three optional strings. *)
Definition sanitizeCreate (req : Request) : Request := {|
  healthProfessionalId := healthProfessionalId req;
  appointmentDate := appointmentDate req;
  appointmentTime := appointmentTime req;
  duration := duration req;
  consultationType := consultationType req;
  service := option_map (fun sv => {| name := option_map trim (name sv);
                                      price := price sv |}) (service req);
  symptoms := symptoms req;
  medicalHistory := option_map trim (medicalHistory req);
  currentMedications := currentMedications req;
  allergies := allergies req;
  specialInstructions := option_map trim (specialInstructions req);
  isUrgent := isUrgent req
|}.

(** The cast of a string to the [Date] of the schema; a string that gives
    no valid date is a [CastError]. *)
Definition castDate (H : Host) (path value : string) : Step Z :=
  match Date_parse H value with
  | InvalidDate => Raise (CastError path)
  | TimeValue t => Next t
  end.

(** The filter of the conflict query: professional, date, time string
    and [status: { $in: ['pending', 'confirmed'] }]. *)
Definition conflictFilter (professional : ObjectId.t) (date : Z)
           (time : string) (b : Booking.t) : bool :=
  ObjectId.eqb (Booking.healthProfessional b) professional
  && (Booking.appointmentDate b =? date)
  && String.eqb (Booking.appointmentTime b) time
  && inList (Booking.statusName (Booking.status b)) ["pending"; "confirmed"].

(** [Booking.findOne({...})] of the conflict check. *)
Definition findConflicting (H : Host) (req : Request) (coll : list Booking.t)
  : Step (option Booking.t) :=
  date <- castDate H "appointmentDate" (appointmentDate req) ;;
  Next (find (conflictFilter (ObjectId.cast (healthProfessionalId req)) date
                (appointmentTime req)) coll).

(** [service?.price || healthProfessional.consultationFee]. *)
Definition calculateAmount (service : option ServiceRequest)
           (healthProfessional : HealthProfessional.t) : Number :=
  match service with
  | Some sv =>
      match price sv with
      | Some p =>
          if truthy p then p
          else HealthProfessional.consultationFee healthProfessional
      | None => HealthProfessional.consultationFee healthProfessional
      end
  | None => HealthProfessional.consultationFee healthProfessional
  end.

(** [new Booking({...})] with the defaults of the schema. *)
Definition newBooking (env : Env) (user : ObjectId.t) (req : Request)
           (date : Z) (duration : Number) (isUrgent : bool) (amount : Number)
  : Booking.t := {|
  Booking._id := freshId env;
  Booking.user := user;
  Booking.healthProfessional := ObjectId.cast (healthProfessionalId req);
  Booking.bookingNumber := None;
  Booking.appointmentDate := date;
  Booking.appointmentTime := appointmentTime req;
  Booking.duration := duration;
  Booking.service :=
    option_map (fun sv => {| Booking.serviceName := name sv;
                             Booking.serviceDescription := None;
                             Booking.servicePrice := price sv;
                             Booking.serviceDuration := None |}) (service req);
  Booking.consultationType := consultationType req;
  Booking.location := "clinic";
  Booking.address := None;
  Booking.symptoms := orElse (symptoms req) [];
  Booking.medicalHistory := medicalHistory req;
  Booking.currentMedications := orElse (currentMedications req) [];
  Booking.allergies := orElse (allergies req) [];
  Booking.emergencyContact := None;
  Booking.specialInstructions := specialInstructions req;
  Booking.isUrgent := isUrgent;
  Booking.status := Booking.pending;
  Booking.paymentStatus := payment_pending;
  Booking.paymentMethod := "mpesa";
  Booking.amount := amount;
  Booking.currency := "KES";
  Booking.paymentDetails := None;
  Booking.cancellationReason := None;
  Booking.cancellationDate := None;
  Booking.cancellationBy := Some Booking.user_party;
  Booking.notes := {| Booking.professionalNote := None; Booking.userNote := None |};
  Booking.followUp := {| Booking.required := false;
                         Booking.followUpDate := None;
                         Booking.followUpReason := None |};
  Booking.rating := None;
  Booking.notifications := [];
  Booking.createdBy := user;
  Booking.createdAt := None;
  Booking.updatedAt := None
|}.

Definition notFound : Response :=
  failure 404 "Health professional not found or not available".

Definition notInFuture : Response :=
  failure 400 "Appointment date and time must be in the future".

Definition notAvailable : Response :=
  failure 400 "Health professional is not available at this time".

Definition alreadyBooked : Response :=
  failure 400 "This time slot is already booked".

(** [HealthProfessional.findById(id)]. *)
Definition findById (id : string) (coll : list HealthProfessional.t)
  : option HealthProfessional.t :=
  find (fun p => ObjectId.eqb (HealthProfessional._id p) (ObjectId.cast id)) coll.

(** [POST /api/bookings]. *)
Definition createBooking (H : Host) (env : Env) (user : ObjectId.t)
           (req : Request) (st : Store) : Response * Store :=
  tryCatch st (
    let errors := validateCreate H req in
    if negb (isNil errors) then Return (validationErrors errors) else
    let req := sanitizeCreate req in
    let duration := orElse (duration req) 30%float in
    let isUrgent := orElse (isUrgent req) false in
    match findById (healthProfessionalId req) (professionals st) with
    | None => Return notFound
    | Some healthProfessional =>
        if negb (HealthProfessional.isActive healthProfessional)
        then Return notFound else
        let appointmentDateTime :=
          Date_parse H (appointmentDate req ++ "T" ++ appointmentTime req) in
        if date_leb appointmentDateTime (TimeValue (now env))
        then Return notInFuture else
        dayOfWeek <- await (toLocaleDateString H appointmentDateTime "en-US"
                              {| weekday := Some "lowercase" |}) ;;
        let isAvailable :=
          HealthProfessional.isAvailable H healthProfessional dayOfWeek
            (appointmentTime req) in
        if negb isAvailable then Return notAvailable else
        conflictingBooking <- findConflicting H req (bookings st) ;;
        match conflictingBooking with
        | Some _ => Return alreadyBooked
        | None =>
            let amount := calculateAmount (service req) healthProfessional in
            date <- castDate H "appointmentDate" (appointmentDate req) ;;
            let booking :=
              newBooking env user req date duration isUrgent amount in
            saved <- await (Booking.saveNew H env booking (bookings st)) ;;
            let '(booking, coll) := saved in
            Next ({| status := 201; success := true;
                     message := "Booking created successfully";
                     data := BookingData (Booking.getSummary booking) |},
                  set_bookings coll st)
        end
    end).

(** The lookup of the cancel and rate handlers:
    [Booking.findOne({ _id: id, user: req.user.id })]. *)
Definition findOwned (id : string) (user : ObjectId.t) (coll : list Booking.t)
  : option Booking.t :=
  find (fun b => ObjectId.eqb (Booking._id b) (ObjectId.cast id)
                 && ObjectId.eqb (Booking.user b) user) coll.

Definition cannotCancel : Response :=
  failure 400 "Booking cannot be cancelled at this stage".

(** [PUT /api/bookings/:id/cancel]; the chain trims a reason that is
    given. *)
Definition cancelBooking (env : Env) (user : ObjectId.t) (id : string)
           (reason : option string) (st : Store) : Response * Store :=
  tryCatch st (
    let errors := check (ObjectId.isMongoId id) "Invalid booking ID" in
    if negb (isNil errors) then Return (validationErrors errors) else
    let reason := option_map trim reason in
    match findOwned id user (bookings st) with
    | None => Return (failure 404 "Booking not found")
    | Some booking =>
        if negb (Booking.canBeCancelled env booking) then Return cannotCancel
        else
        let '(booking, coll) :=
          Booking.cancelBooking env booking reason Booking.user_party
            (bookings st) in
        Next ({| status := 200; success := true;
                 message := "Booking cancelled successfully";
                 data := BookingData (Booking.getSummary booking) |},
              set_bookings coll st)
    end).

(** [POST /api/bookings/:id/rate]. *)
Definition rateBooking (env : Env) (user : ObjectId.t) (id : string)
           (professionalRating serviceRating overallRating : Number)
           (comment : option string) (st : Store) : Response * Store :=
  tryCatch st (
    let inRange := isFloat 1%float (Some 5%float) in
    let errors :=
      (check (ObjectId.isMongoId id) "Invalid booking ID"
       ++ check (inRange professionalRating)
            "Professional rating must be between 1 and 5"
       ++ check (inRange serviceRating) "Service rating must be between 1 and 5"
       ++ check (inRange overallRating) "Overall rating must be between 1 and 5")%list in
    if negb (isNil errors) then Return (validationErrors errors) else
    let comment := option_map trim comment in
    match findOwned id user (bookings st) with
    | None => Return (failure 404 "Booking not found")
    | Some booking =>
        if negb (String.eqb (Booking.statusName (Booking.status booking))
                   "completed")
        then Return (failure 400 "Booking must be completed before rating")
        else
        let '(booking, coll) :=
          Booking.addRating env booking professionalRating serviceRating
            overallRating comment (bookings st) in
        Next ({| status := 200; success := true;
                 message := "Rating submitted successfully";
                 data := BookingRatingData (Booking.rating booking) |},
              set_bookings coll st)
    end).

(** The validation chain of [GET /api/bookings/:id]. *)
Definition validateGet (id : string) : list string :=
  check (ObjectId.isMongoId id) "Invalid booking ID".

(** The routes of the file, in the order of their declaration. *)
Inductive Handler :=
| PostBooking | GetBookings | GetBooking | PutBookingCancel | PostBookingRate
| GetUpcoming.

Definition routes : list (Express.Route Handler) :=
  [ {| Express.method := Express.POST; Express.path := [];
       Express.handler := PostBooking |};
    {| Express.method := Express.GET; Express.path := [];
       Express.handler := GetBookings |};
    {| Express.method := Express.GET; Express.path := [Express.Param "id"];
       Express.handler := GetBooking |};
    {| Express.method := Express.PUT;
       Express.path := [Express.Param "id"; Express.Literal "cancel"];
       Express.handler := PutBookingCancel |};
    {| Express.method := Express.POST;
       Express.path := [Express.Param "id"; Express.Literal "rate"];
       Express.handler := PostBookingRate |};
    {| Express.method := Express.GET; Express.path := [Express.Literal "upcoming"];
       Express.handler := GetUpcoming |} ].

End BookingsRoute.

(* ================================================================== *)
(** * The vocabulary of the specification *)

Module Spec.

(** The window of an entry holds the requested time, both bounds
    included, the three times being read on the same day. *)
Definition withinWindow (H : Host) (a : Availability.t) (time : string) : Prop :=
  exists s r e,
    Date_parse H ("2000-01-01 " ++ Availability.startTime a) = TimeValue s
    /\ Date_parse H ("2000-01-01 " ++ time) = TimeValue r
    /\ Date_parse H ("2000-01-01 " ++ Availability.endTime a) = TimeValue e
    /\ s <= r <= e.

(** The availability resolver in the words of the specification: some
    entry is for the day, is open and its window holds the time. *)
Definition available (H : Host) (p : HealthProfessional.t) (day time : string)
  : Prop :=
  exists a, In a (HealthProfessional.availability p)
            /\ Availability.day a = day
            /\ Availability.isAvailable a = true
            /\ withinWindow H a time.

(** The first entry of the list that is for the day and open. *)
Definition firstOpen (l : list Availability.t) (day : string)
           (a : Availability.t) : Prop :=
  exists before after,
    l = (before ++ a :: after)%list
    /\ (forall x, In x before ->
                  ~ (Availability.day x = day
                     /\ Availability.isAvailable x = true))
    /\ Availability.day a = day
    /\ Availability.isAvailable a = true.

(** The conflict of a stored booking with a request: same professional,
    same date, same time string, status pending or confirmed. *)
Definition conflicts (H : Host) (req : BookingsRoute.Request) (b : Booking.t)
  : Prop :=
  Booking.healthProfessional b
  = ObjectId.cast (BookingsRoute.healthProfessionalId req)
  /\ Date_parse H (BookingsRoute.appointmentDate req)
     = TimeValue (Booking.appointmentDate b)
  /\ Booking.appointmentTime b = BookingsRoute.appointmentTime req
  /\ (Booking.status b = Booking.pending
      \/ Booking.status b = Booking.confirmed).

(** What the cancellation fields of a booking say about its status. *)
Definition cancellationRecorded (b : Booking.t) : Prop :=
  Booking.cancellationBy b <> None
  /\ (Booking.status b = Booking.cancelled ->
      Booking.cancellationDate b <> None)
  /\ (Booking.status b <> Booking.cancelled ->
      Booking.cancellationReason b = None
      /\ Booking.cancellationDate b = None).

(** The acceptance condition of an order in the words of the
    specification: as many active meals are found as the request has
    distinct item entries, two entries being the same when they name the
    same meal. *)
Definition accepted (req : OrdersRoute.Request) (st : Store) : Prop :=
  List.length (OrdersRoute.findMeals
                 (map OrdersRoute.mealId (OrdersRoute.items req)) (meals st))
  = List.length (nodup string_dec
                   (map OrdersRoute.mealId (OrdersRoute.items req))).

(** One request served by the bookings router. *)
Inductive step (H : Host) : Store -> Store -> Prop :=
| step_create env user req st :
    step H st (snd (BookingsRoute.createBooking H env user req st))
| step_cancel env user id reason st :
    step H st (snd (BookingsRoute.cancelBooking env user id reason st))
| step_rate env user id r1 r2 r3 comment st :
    step H st (snd (BookingsRoute.rateBooking env user id r1 r2 r3 comment st)).

(** The stores the router reaches from one without bookings. *)
Inductive reachable (H : Host) : Store -> Prop :=
| reach_empty st : bookings st = [] -> reachable H st
| reach_step st st' : reachable H st -> step H st st' -> reachable H st'.

End Spec.

(* ================================================================== *)
(** * The two routers together *)

Module Api.

(** One request served by the orders router or the bookings router. *)
Inductive step (H : Host) : Store -> Store -> Prop :=
| step_createOrder env user req st :
    step H st (snd (OrdersRoute.createOrder H env user req st))
| step_cancelOrder env user id reason st :
    step H st (snd (OrdersRoute.cancelOrder env user id reason st))
| step_rateOrder env user id r1 r2 r3 comment st :
    step H st (snd (OrdersRoute.rateOrder env user id r1 r2 r3 comment st))
| step_trackOrder user orderNumber st :
    step H st (snd (OrdersRoute.trackOrder user orderNumber st))
| step_createBooking env user req st :
    step H st (snd (BookingsRoute.createBooking H env user req st))
| step_cancelBooking env user id reason st :
    step H st (snd (BookingsRoute.cancelBooking env user id reason st))
| step_rateBooking env user id r1 r2 r3 comment st :
    step H st (snd (BookingsRoute.rateBooking env user id r1 r2 r3 comment st)).

(** The stores the two routers reach from one without orders and bookings
    (the seed script empties both collections). *)
Inductive reachable (H : Host) : Store -> Prop :=
| reach_seeded st : orders st = [] -> bookings st = [] -> reachable H st
| reach_step st st' : reachable H st -> step H st st' -> reachable H st'.

(** Every stored document has the number of its [pre('save')] hook, and no
    two documents of a collection share an [_id] or a number. *)
Definition distinct (st : Store) : Prop :=
  NoDup (map Order._id (orders st))
  /\ NoDup (map Order.orderNumber (orders st))
  /\ (forall o, In o (orders st) -> Order.orderNumber o <> None)
  /\ NoDup (map Booking._id (bookings st))
  /\ NoDup (map Booking.bookingNumber (bookings st))
  /\ (forall b, In b (bookings st) -> Booking.bookingNumber b <> None).

(** The states a document is in when only the two routers have written
    it. *)
Definition untouched (st : Store) : Prop :=
  (forall o, In o (orders st) ->
     (Order.orderStatus o = Order.pending
      \/ Order.orderStatus o = Order.cancelled)
     /\ Order.rating o = None)
  /\ (forall b, In b (bookings st) ->
        (Booking.status b = Booking.pending
         \/ Booking.status b = Booking.cancelled)
        /\ Booking.rating b = None).

(** The effect of a request on the store, handler by handler: nothing, or
    a stored document replaced by an update of it. *)
Inductive Effect (st st' : Store) : Prop :=
| Nothing : st' = st -> Effect st st'
| OrderCancelled o o' :
    st' = set_orders (Order.replace o' (orders st)) st ->
    In o (orders st) ->
    Order._id o' = Order._id o -> Order.orderNumber o' = Order.orderNumber o ->
    Order.orderStatus o' = Order.cancelled -> Order.rating o' = Order.rating o ->
    Effect st st'
| OrderRated o o' :
    st' = set_orders (Order.replace o' (orders st)) st ->
    In o (orders st) -> Order.orderStatus o = Order.delivered ->
    Order._id o' = Order._id o -> Order.orderNumber o' = Order.orderNumber o ->
    Effect st st'
| BookingCancelled b b' :
    st' = set_bookings (Booking.replace b' (bookings st)) st ->
    In b (bookings st) ->
    Booking._id b' = Booking._id b ->
    Booking.bookingNumber b' = Booking.bookingNumber b ->
    Booking.status b' = Booking.cancelled -> Booking.rating b' = Booking.rating b ->
    Effect st st'
| BookingRated b b' :
    st' = set_bookings (Booking.replace b' (bookings st)) st ->
    In b (bookings st) -> Booking.status b = Booking.completed ->
    Booking._id b' = Booking._id b ->
    Booking.bookingNumber b' = Booking.bookingNumber b ->
    Effect st st'.

End Api.

(* ================================================================== *)
(** * Concrete documents and requests *)

Module Scenario.

Definition userId : ObjectId.t := "64b7f0c2a1d3e4f5a6b7c801".
Definition mealA : ObjectId.t := "64b7f0c2a1d3e4f5a6b7c8a1".
Definition mealB : ObjectId.t := "64b7f0c2a1d3e4f5a6b7c8b2".
Definition mealC : ObjectId.t := "64b7f0c2a1d3e4f5a6b7c8c3".
Definition doctorId : ObjectId.t := "64b7f0c2a1d3e4f5a6b7c8d4".
Definition bookingId : ObjectId.t := "64b7f0c2a1d3e4f5a6b7c8e5".
Definition orderId : ObjectId.t := "64b7f0c2a1d3e4f5a6b7c8f6".
Definition newId : ObjectId.t := "64b7f0c2a1d3e4f5a6b7c9a7".

(** 2030-01-01T09:00 in Nairobi. *)
Definition env : Env := {|
  now := 1893477600000;
  random1000 := 42;
  freshId := newId
|}.

Definition ugali : Meal.t :=
  {| Meal._id := mealA; Meal.name := "Ugali"; Meal.price := 150%float;
     Meal.isActive := true |}.

Definition nyamaChoma : Meal.t :=
  {| Meal._id := mealB; Meal.name := "Nyama Choma"; Meal.price := 450%float;
     Meal.isActive := true |}.

Definition retired : Meal.t :=
  {| Meal._id := mealC; Meal.name := "Githeri"; Meal.price := 120%float;
     Meal.isActive := false |}.

Definition address : Order.Address :=
  {| Order.street := "Kisumu Road 12"; Order.city := "Maseno";
     Order.county := "Kisumu"; Order.postalCode := None;
     Order.coordinates := None; Order.instructions := None |}.

Definition contact : Order.Contact :=
  {| Order.contactName := "Akinyi"; Order.phone := "+254700000001";
     Order.email := None |}.

Definition orderFor (items : list OrdersRoute.ItemRequest)
  : OrdersRoute.Request :=
  {| OrdersRoute.items := items;
     OrdersRoute.deliveryAddress := address;
     OrdersRoute.contactInfo := contact;
     OrdersRoute.paymentMethod := "mpesa";
     OrdersRoute.orderInstructions := None;
     OrdersRoute.allergies := [];
     OrdersRoute.dietaryRestrictions := [] |}.

Definition line (id : string) (n : Number) : OrdersRoute.ItemRequest :=
  {| OrdersRoute.mealId := id; OrdersRoute.quantity := n;
     OrdersRoute.specialInstructions := None |}.

(** Two of meal A at 150 and one of meal B at 450. *)
Definition twoItems : OrdersRoute.Request :=
  orderFor [line mealA 2%float; line mealB 1%float].

Definition withRetired : OrdersRoute.Request :=
  orderFor [line mealA 2%float; line mealC 1%float].

Definition kitchen : Store :=
  {| meals := [ugali; nyamaChoma; retired]; orders := [];
     professionals := []; bookings := [] |}.

Definition weekdayHours (day : string) : Availability.t :=
  {| Availability.day := day; Availability.startTime := "08:00";
     Availability.endTime := "17:00"; Availability.isAvailable := true |}.

Definition hours (day startTime endTime : string) : Availability.t :=
  {| Availability.day := day; Availability.startTime := startTime;
     Availability.endTime := endTime; Availability.isAvailable := true |}.

Definition practitioner (availability : list Availability.t) (isActive : bool)
  : HealthProfessional.t :=
  {| HealthProfessional._id := doctorId;
     HealthProfessional.user := userId;
     HealthProfessional.specialty := "general_practitioner";
     HealthProfessional.consultationFee := 1500%float;
     HealthProfessional.availability := availability;
     HealthProfessional.isActive := isActive |}.

(** Monday to Friday from 08:00 to 17:00, as in the seed data. *)
Definition doctor : HealthProfessional.t :=
  practitioner (map weekdayHours
                  ["monday"; "tuesday"; "wednesday"; "thursday"; "friday"])
               true.

(** The same professional, no longer active. *)
Definition inactiveDoctor : HealthProfessional.t :=
  practitioner (map weekdayHours
                  ["monday"; "tuesday"; "wednesday"; "thursday"; "friday"])
               false.

(** Mondays only, morning and afternoon in two entries. *)
Definition splitShift : HealthProfessional.t :=
  practitioner [hours "monday" "08:00" "12:00"; hours "monday" "14:00" "17:00"]
               true.

Definition mondayOnly : HealthProfessional.t :=
  practitioner [weekdayHours "monday"] true.

(** A consultation on Monday 2030-01-14. *)
Definition visit (time : string) (service : option BookingsRoute.ServiceRequest)
  : BookingsRoute.Request :=
  {| BookingsRoute.healthProfessionalId := doctorId;
     BookingsRoute.appointmentDate := "2030-01-14";
     BookingsRoute.appointmentTime := time;
     BookingsRoute.duration := None;
     BookingsRoute.consultationType := "in_person";
     BookingsRoute.service := service;
     BookingsRoute.symptoms := None;
     BookingsRoute.medicalHistory := None;
     BookingsRoute.currentMedications := None;
     BookingsRoute.allergies := None;
     BookingsRoute.specialInstructions := None;
     BookingsRoute.isUrgent := None |}.

(** The same Monday, the date sent as the ISO timestamp of its midnight. *)
Definition timestamped : BookingsRoute.Request :=
  {| BookingsRoute.healthProfessionalId := doctorId;
     BookingsRoute.appointmentDate := "2030-01-14T00:00:00.000Z";
     BookingsRoute.appointmentTime := "09:30";
     BookingsRoute.duration := None;
     BookingsRoute.consultationType := "in_person";
     BookingsRoute.service := None;
     BookingsRoute.symptoms := None;
     BookingsRoute.medicalHistory := None;
     BookingsRoute.currentMedications := None;
     BookingsRoute.allergies := None;
     BookingsRoute.specialInstructions := None;
     BookingsRoute.isUrgent := None |}.

(** The same request for a day that is over: 2029-12-31. *)
Definition lateVisit : BookingsRoute.Request :=
  {| BookingsRoute.healthProfessionalId := doctorId;
     BookingsRoute.appointmentDate := "2029-12-31";
     BookingsRoute.appointmentTime := "09:30";
     BookingsRoute.duration := None;
     BookingsRoute.consultationType := "in_person";
     BookingsRoute.service := None;
     BookingsRoute.symptoms := None;
     BookingsRoute.medicalHistory := None;
     BookingsRoute.currentMedications := None;
     BookingsRoute.allergies := None;
     BookingsRoute.specialInstructions := None;
     BookingsRoute.isUrgent := None |}.

(** The day that is over again, the hour written with one digit. *)
Definition earlyVisit : BookingsRoute.Request :=
  {| BookingsRoute.healthProfessionalId := doctorId;
     BookingsRoute.appointmentDate := "2029-12-31";
     BookingsRoute.appointmentTime := "9:30";
     BookingsRoute.duration := None;
     BookingsRoute.consultationType := "in_person";
     BookingsRoute.service := None;
     BookingsRoute.symptoms := None;
     BookingsRoute.medicalHistory := None;
     BookingsRoute.currentMedications := None;
     BookingsRoute.allergies := None;
     BookingsRoute.specialInstructions := None;
     BookingsRoute.isUrgent := None |}.

Definition vaccination : BookingsRoute.ServiceRequest :=
  {| BookingsRoute.name := Some "Vaccination";
     BookingsRoute.price := Some 800%float |}.

(** A service offered for nothing. *)
Definition free : BookingsRoute.ServiceRequest :=
  {| BookingsRoute.name := Some "Screening";
     BookingsRoute.price := Some 0%float |}.

(** A service named without a price. *)
Definition unpriced : BookingsRoute.ServiceRequest :=
  {| BookingsRoute.name := Some "General Consultation";
     BookingsRoute.price := None |}.

(** A stored, pending booking of that Monday at 09:30, with the defaults
    the schema gives a new document. *)
Definition appointment : Booking.t :=
  Booking.set_createdAt (Some 1893400000000)
    (Booking.set_updatedAt (Some 1893400000000)
       (Booking.set_bookingNumber (Some "BK291231007")
          (BookingsRoute.newBooking
             {| now := 1893400000000; random1000 := 7; freshId := bookingId |}
             userId (visit "09:30" None) 1894579200000 30%float false
             1500%float))).

Definition clinic (p : HealthProfessional.t) (bookings : list Booking.t)
  : Store :=
  {| meals := []; orders := []; professionals := [p]; bookings := bookings |}.

(** Noon of Sunday 2030-01-13 in UTC: twelve hours before the stored date
    of [appointment]. *)
Definition eve : Env := {|
  now := 1894536000000;
  random1000 := 99;
  freshId := newId
|}.

(** A stored, pending order of the user for the lines of [twoItems], with
    the snapshots and totals of the meals of [kitchen], numbered and
    stamped at the time of [env], its delivery estimated 45 minutes
    later. *)
Definition placed : Order.t :=
  Order.set_deliveryTime
    {| Order.estimated := Some (now env + 45 * msPerMinute);
       Order.actual := None |}
    (Order.set_updatedAt (Some (now env))
       (Order.set_createdAt (Some (now env))
          (Order.set_orderNumber (Some "MH300101042")
             (OrdersRoute.newOrder env userId twoItems
                [ {| Order.meal := mealA; Order.quantity := 2%float;
                     Order.price := 150%float; Order.totalPrice := 300%float;
                     Order.itemInstructions := None |};
                  {| Order.meal := mealB; Order.quantity := 1%float;
                     Order.price := 450%float; Order.totalPrice := 450%float;
                     Order.itemInstructions := None |} ]
                750%float 200%float 120%float 1070%float)))).

(** The store of [kitchen] with that order in it. *)
Definition shop : Store := set_orders [placed] kitchen.

(** The same meal in two entries. *)
Definition sameMealTwice : OrdersRoute.Request :=
  orderFor [line mealA 1%float; line mealA 1%float].

(** A stored, pending booking of that Monday at 01:00. *)
Definition smallHours : Booking.t :=
  Booking.set_createdAt (Some 1893400000000)
    (Booking.set_updatedAt (Some 1893400000000)
       (Booking.set_bookingNumber (Some "BK291231008")
          (BookingsRoute.newBooking
             {| now := 1893400000000; random1000 := 8; freshId := bookingId |}
             userId (visit "01:00" None) 1894579200000 30%float false
             1500%float))).

(** 02:00 of Sunday 2030-01-13 in Nairobi: 23 hours before 01:00 of that
    Monday there, and 25 hours before its midnight in UTC. *)
Definition nightBefore : Env := {|
  now := 1894489200000;
  random1000 := 5;
  freshId := newId
|}.

(** Ten minutes later. *)
Definition later : Env := {|
  now := now env + 10 * msPerMinute;
  random1000 := 7;
  freshId := orderId
|}.

(** Another user. *)
Definition otherId : ObjectId.t := "64b7f0c2a1d3e4f5a6b7c802".

(** The stored booking once the consultation has taken place. *)
Definition completedVisit : Booking.t :=
  Booking.set_status Booking.completed appointment.

(** The store of [shop] once its order has been delivered. *)
Definition deliveredShop : Store :=
  match orders shop with
  | [o] =>
      match Order.updateStatus later o Order.delivered
              (Some "Your order has been delivered") (orders shop) with
      | Normal (_, coll) => set_orders coll shop
      | Throw _ => shop
      end
  | _ => shop
  end.

(** A 24-hour clock in the time zone of Nairobi: [HH:mm:ss]. *)
Definition clock (t : Z) : Completion string :=
  let ms := (t + nairobi) mod msPerDay in
  let two n := padStart 2 "0" (decimal n) in
  Normal (two (ms / msPerHour) ++ ":"
          ++ two (ms mod msPerHour / msPerMinute) ++ ":"
          ++ two (ms mod msPerMinute / 1000)).

End Scenario.

(* ================================================================== *)
(** * Properties *)

Unset Implicit Arguments.

Import OrdersRoute.

(** ** Generic facts *)

Lemma toLowerAscii_idem (c : ascii) : toLowerAscii (toLowerAscii c) = toLowerAscii c.
Proof. destruct c as [[] [] [] [] [] [] [] []]; reflexivity. Qed.

Lemma toLowerCase_idem (s : string) : toLowerCase (toLowerCase s) = toLowerCase s.
Proof.
  induction s as [|c r IH]; simpl.
  - reflexivity.
  - now rewrite toLowerAscii_idem, IH.
Qed.

Lemma cast_cast (s : string) : ObjectId.cast (ObjectId.cast s) = ObjectId.cast s.
Proof. apply toLowerCase_idem. Qed.

Lemma ObjectId_eqb_eq (a b : ObjectId.t) : ObjectId.eqb a b = true <-> a = b.
Proof. apply String.eqb_eq. Qed.

Lemma mapM_Forall2 {A B : Type} (f : A -> Step B) (l : list A) (out : list B) :
  mapM f l = Next out -> Forall2 (fun a b => f a = Next b) l out.
Proof.
  revert out. induction l as [|a l IH]; simpl; intros out E.
  - injection E as <-. constructor.
  - destruct (f a) as [b| |] eqn:Fa; simpl in E; try discriminate.
    destruct (mapM f l) as [bs| |] eqn:Fl; simpl in E; try discriminate.
    injection E as <-. constructor; auto.
Qed.

(** ** Order totals *)

Lemma orderItems_no_reply meals l r :
  mapM (orderItem meals) l <> Return r.
Proof.
  induction l as [|item l IH]; simpl; [discriminate|].
  unfold orderItem at 1. destruct (find _ meals); simpl; [|discriminate].
  destruct (mapM (orderItem meals) l); simpl; congruence.
Qed.

Lemma found_meal_id (ids : list string) (coll : list Meal.t) (m : Meal.t) :
  In m (findMeals ids coll) ->
  In m coll /\ Meal.isActive m = true
  /\ exists id, In id ids /\ Meal._id m = ObjectId.cast id.
Proof.
  unfold findMeals. intros Hin. apply filter_In in Hin as [Hin Hp].
  apply andb_true_iff in Hp as [Hex Hact].
  apply existsb_exists in Hex as (id & Hid & Heq).
  apply ObjectId_eqb_eq in Heq. eauto.
Qed.

(** A line built by [orderItem]: the price is the price of a stored,
    active meal with the identifier of the line. *)
Lemma orderItem_snapshot ids coll item line :
  orderItem (findMeals ids coll) item = Next line ->
  Order.quantity line = quantity item
  /\ Order.totalPrice line = (Order.price line * Order.quantity line)%float
  /\ exists m, In m coll /\ Meal._id m = Order.meal line
               /\ Meal.isActive m = true /\ Order.price line = Meal.price m.
Proof.
  unfold orderItem.
  destruct (find _ _) as [m|] eqn:F; [|discriminate].
  intros E. injection E as <-. simpl.
  apply find_some in F as [Hin Heq]. apply String.eqb_eq in Heq.
  apply found_meal_id in Hin as (Hin & Hact & id & _ & Hid).
  repeat split. exists m. repeat split; auto.
  unfold ObjectId.toString in Heq. rewrite <- Heq. rewrite Hid.
  rewrite cast_cast. reflexivity.
Qed.

Lemma orderItems_snapshot ids coll (l : list ItemRequest) (lines : list Order.Item) :
  Forall2 (fun item line => orderItem (findMeals ids coll) item = Next line)
          l lines ->
  map Order.quantity lines = map quantity l
  /\ Forall (fun line =>
               Order.totalPrice line
               = (Order.price line * Order.quantity line)%float
               /\ exists m, In m coll /\ Meal._id m = Order.meal line
                            /\ Meal.isActive m = true
                            /\ Order.price line = Meal.price m) lines.
Proof.
  induction 1 as [|item line l lines Hi _ [IHq IHs]]; simpl.
  - split; [reflexivity | constructor].
  - apply orderItem_snapshot in Hi as (Hq & Ht & Hm). split.
    + now rewrite Hq, IHq.
    + constructor; auto.
Qed.

Lemma subtotal_of_lines (l : list Order.Item) :
  Forall (fun line =>
            Order.totalPrice line = (Order.price line * Order.quantity line)%float) l ->
  forall acc,
    fold_left (fun sum item => (sum + Order.totalPrice item)%float) l acc
    = fold_left (fun sum item =>
                   (sum + Order.price item * Order.quantity item)%float) l acc.
Proof.
  induction 1 as [|line l Hl _ IH]; simpl; intros acc.
  - reflexivity.
  - rewrite Hl. apply IH.
Qed.

(** The order the handler has built when it reaches [save()]. *)
Lemma buildOrder_built env user req st o :
  buildOrder env user req st = Next o ->
  exists orderItems,
    validateCreate req = []
    /\ List.length (findMeals (map mealId (items req)) (meals st))
       = List.length (items req)
    /\ mapM (orderItem (findMeals (map mealId (items req)) (meals st)))
            (items req) = Next orderItems
    /\ let subtotal := calculateSubtotal orderItems in
       let deliveryFee :=
         if PrimFloat.ltb 1000 subtotal then 0%float else 200%float in
       let tax := (subtotal * 0.16)%float in
       let total := (subtotal + deliveryFee + tax)%float in
       o = newOrder env user req orderItems subtotal deliveryFee tax total.
Proof.
  unfold buildOrder. intros E.
  destruct (validateCreate req) as [|e errs] eqn:V; simpl in E; [|discriminate].
  destruct (List.length _ =? List.length _)%nat eqn:L; simpl in E;
    [|discriminate].
  apply Nat.eqb_eq in L.
  destruct (mapM _ _) as [orderItems|r|] eqn:M; simpl in E; try discriminate.
  injection E as <-. exists orderItems. auto.
Qed.

(** The order the handler builds comes without its number. *)
Lemma buildOrder_unnumbered env user req st o :
  buildOrder env user req st = Next o -> Order.orderNumber o = None.
Proof.
  intros E. destruct (buildOrder_built env user req st o E)
    as (lines & _ & _ & _ & ->). reflexivity.
Qed.

Lemma saveNew_unnumbered H env o coll :
  Order.orderNumber o = None ->
  Order.saveNew H env o coll = Throw (ValidationError "orderNumber").
Proof. intros E. unfold Order.saveNew. now rewrite E. Qed.

(** The answers of the create handler: the answer the handler gives before
    it has built the order, or the 500 response; the store stays as it
    is. *)
Lemma createOrder_run H env user req st :
  createOrder H env user req st
  = (match buildOrder env user req st with
     | Return r => r
     | _ => serverError
     end, st).
Proof.
  unfold createOrder.
  destruct (buildOrder env user req st) as [o|r|e] eqn:B; simpl;
    try reflexivity.
  now rewrite (saveNew_unnumbered H env o (orders st)
                 (buildOrder_unnumbered env user req st o B)).
Qed.

Lemma buildOrder_reply env user req st r :
  buildOrder env user req st = Return r -> status r = 400.
Proof.
  unfold buildOrder.
  destruct (isNil (validateCreate req)); simpl; [|now intros [= <-]].
  destruct (List.length _ =? List.length _)%nat; simpl; [|now intros [= <-]].
  destruct (mapM _ _) as [lines|r'|e] eqn:M; simpl; try discriminate.
  now apply orderItems_no_reply in M.
Qed.

Lemma createOrder_never_created H env user req st :
  status (fst (createOrder H env user req st)) <> 201
  /\ success (fst (createOrder H env user req st)) = false
  /\ snd (createOrder H env user req st) = st.
Proof.
  rewrite createOrder_run. simpl.
  destruct (buildOrder env user req st) as [o|r|e] eqn:B; simpl.
  - repeat split. discriminate.
  - pose proof B as S. apply buildOrder_reply in S. rewrite S.
    revert B. unfold buildOrder.
    destruct (isNil (validateCreate req)); simpl.
    + destruct (List.length _ =? List.length _)%nat; simpl.
      * destruct (mapM _ _) as [lines|r'|e'] eqn:M; simpl; try discriminate.
        now apply orderItems_no_reply in M.
      * intros [= <-]. repeat split. discriminate.
    + intros [= <-]. repeat split. discriminate.
  - repeat split. discriminate.
Qed.

(** C1. The create handler computes the totals of the pricing formula and
    does not persist them.  The order it hands to [save()] has, line by
    line, the quantity of the request and the price of the stored active
    meal; its subtotal is the sum of unit price snapshot times quantity,
    its delivery fee is 0 when the subtotal exceeds 1000 and 200 otherwise,
    its tax is the subtotal times 0.16 and its total is subtotal plus
    delivery fee plus tax.  But the order comes without the order number
    the schema requires, which only the [pre('save')] hook would set: the
    validation that precedes the hook refuses it, and the request is
    answered 500 with nothing stored.  No request to the handler is
    answered 201, on any host.  Two of a meal priced 150 and one of a meal
    priced 450: the order built has 750, 200, 120 and 1070, and the store
    is left without it. *)
Theorem order_totals_not_persisted :
  (forall env user req st o,
      buildOrder env user req st = Next o ->
      (map Order.quantity (Order.items o) = map quantity (items req)
       /\ Forall (fun line =>
                    exists m, In m (meals st)
                              /\ Meal._id m = Order.meal line
                              /\ Meal.isActive m = true
                              /\ Order.price line = Meal.price m)
                 (Order.items o)
       /\ Order.subtotal o
          = fold_left (fun sum line =>
                         (sum + Order.price line * Order.quantity line)%float)
                      (Order.items o) 0%float
       /\ Order.deliveryFee o
          = (if PrimFloat.ltb 1000 (Order.subtotal o) then 0 else 200)%float
       /\ Order.tax o = (Order.subtotal o * 0.16)%float
       /\ Order.total o
          = (Order.subtotal o + Order.deliveryFee o + Order.tax o)%float)
      /\ Order.orderNumber o = None
      /\ forall H,
           Order.saveNew H env o (orders st)
           = Throw (ValidationError "orderNumber")
           /\ createOrder H env user req st = (serverError, st))
  /\ (forall H env user req st,
        status (fst (createOrder H env user req st)) <> 201
        /\ snd (createOrder H env user req st) = st)
  /\ (exists o,
        buildOrder Scenario.env Scenario.userId Scenario.twoItems
          Scenario.kitchen = Next o
        /\ map Order.totalPrice (Order.items o) = [300; 450]%float
        /\ Order.subtotal o = 750%float
        /\ Order.deliveryFee o = 200%float
        /\ Order.tax o = 120%float
        /\ Order.total o = 1070%float
        /\ createOrder node Scenario.env Scenario.userId Scenario.twoItems
             Scenario.kitchen
           = (serverError, Scenario.kitchen)
        /\ orders Scenario.kitchen = []).
Proof.
  split; [|split].
  - intros env user req st o B.
    pose proof (buildOrder_unnumbered env user req st o B) as Hnum.
    split; [|split; [exact Hnum|]].
    + destruct (buildOrder_built env user req st o B)
        as (lines & _ & _ & M & ->).
      apply mapM_Forall2 in M. simpl.
      destruct (orderItems_snapshot _ _ _ _ M) as [Hq Hs].
      split; [exact Hq|]. split.
      { eapply Forall_impl; [|exact Hs]. simpl. intros line [_ Hm]. exact Hm. }
      split; [|repeat split].
      unfold calculateSubtotal. apply subtotal_of_lines.
      eapply Forall_impl; [|exact Hs]. simpl. intros line [Ht _]. exact Ht.
    + intros H. split; [now apply saveNew_unnumbered|].
      rewrite createOrder_run. now rewrite B.
  - intros H env user req st.
    destruct (createOrder_never_created H env user req st) as (S & _ & F).
    now split.
  - eexists. vm_compute. repeat split.
Qed.

(** ** Rejection of an order *)

Section OrderRejection.

Variable H : Host.

(** The meals the query returns have distinct identifiers, those of the
    collection being distinct. *)
Lemma found_ids_distinct (ids : list string) (coll : list Meal.t) :
  NoDup (map Meal._id coll) -> NoDup (map Meal._id (findMeals ids coll)).
Proof.
  unfold findMeals. induction coll as [|m coll IH]; simpl; intros N.
  - constructor.
  - apply NoDup_cons_iff in N as [Hfresh N].
    destruct (existsb _ ids && Meal.isActive m); simpl; [|now apply IH].
    apply NoDup_cons; [|now apply IH].
    intros Hin. apply Hfresh.
    apply in_map_iff in Hin as (x & Hx & Hin).
    apply filter_In in Hin as [Hin _].
    apply in_map_iff. exists x. now split.
Qed.

Lemma found_ids_wanted (l : list ItemRequest) (coll : list Meal.t) :
  incl (map Meal._id (findMeals (map mealId l) coll)) (wanted l).
Proof.
  intros x Hx. apply in_map_iff in Hx as (m & <- & Hin).
  apply found_meal_id in Hin as (_ & _ & id & Hid & ->).
  apply in_map_iff in Hid as (item & <- & Hitem).
  unfold wanted. apply in_map_iff. eauto.
Qed.

(** One line without a stored, active meal and the query returns fewer
    meals than there are lines. *)
Lemma found_fewer (l : list ItemRequest) (coll : list Meal.t) (item : ItemRequest) :
  NoDup (map Meal._id coll) ->
  In item l ->
  (forall m, In m coll -> Meal._id m = ObjectId.cast (mealId item) ->
             Meal.isActive m = false) ->
  (List.length (findMeals (map mealId l) coll) < List.length l)%nat.
Proof.
  intros N Hitem Hbad.
  set (bad := ObjectId.cast (mealId item)).
  assert (Hlt : (List.length (remove string_dec bad (wanted l))
                 < List.length (wanted l))%nat).
  { apply remove_length_lt. unfold wanted. apply in_map_iff.
    exists item. split; [reflexivity | assumption]. }
  assert (Hle : (List.length (map Meal._id (findMeals (map mealId l) coll))
                 <= List.length (remove string_dec bad (wanted l)))%nat).
  { apply NoDup_incl_length.
    - now apply found_ids_distinct.
    - intros x Hx. apply in_in_remove.
      + intros ->. apply in_map_iff in Hx as (m & Hid & Hin).
        apply found_meal_id in Hin as (Hin & Hact & _).
        rewrite (Hbad m Hin Hid) in Hact. discriminate.
      + exact (found_ids_wanted l coll x Hx). }
  unfold wanted in *. rewrite !length_map in *. lia.
Qed.

(** As many meals found as lines, all identifiers in lower case: every
    line finds its meal. *)
Lemma all_found (l : list ItemRequest) (coll : list Meal.t) :
  NoDup (map Meal._id coll) ->
  List.length (findMeals (map mealId l) coll) = List.length l ->
  Forall (fun item => ObjectId.cast (mealId item) = mealId item) l ->
  exists lines, mapM (orderItem (findMeals (map mealId l) coll)) l = Next lines.
Proof.
  intros N L Hcanon.
  set (found := findMeals (map mealId l) coll) in *.
  assert (Hall : incl (wanted l) (map Meal._id found)).
  { apply NoDup_length_incl.
    - unfold found. now apply found_ids_distinct.
    - unfold wanted. rewrite !length_map. lia.
    - apply found_ids_wanted. }
  assert (Hsub : forall l0, incl l0 l ->
            exists lines, mapM (orderItem found) l0 = Next lines).
  { induction l0 as [|item l0 IH]; intros Hincl; simpl.
    - eauto.
    - assert (Hin : In item l) by (apply Hincl; now left).
      destruct IH as [lines IH]; [intros x Hx; apply Hincl; now right|].
      unfold orderItem at 1.
      destruct (find _ found) as [m|] eqn:F.
      + simpl. rewrite IH. simpl. eauto.
      + exfalso.
        assert (Hw : In (ObjectId.cast (mealId item)) (map Meal._id found)).
        { apply Hall. unfold wanted. apply in_map_iff. eauto. }
        apply in_map_iff in Hw as (m & Hid & Hm).
        pose proof (find_none _ _ F m Hm) as Hf. simpl in Hf.
        rewrite Forall_forall in Hcanon. rewrite (Hcanon item Hin) in Hid.
        unfold ObjectId.toString in Hf. rewrite Hid, String.eqb_refl in Hf.
        discriminate. }
  apply Hsub. apply incl_refl.
Qed.

(** A stored, active meal with the identifier of the line. *)
Lemma served_dec (coll : list Meal.t) (item : ItemRequest) :
  (exists m, In m coll /\ Meal._id m = ObjectId.cast (mealId item)
             /\ Meal.isActive m = true)
  \/ (forall m, In m coll -> Meal._id m = ObjectId.cast (mealId item) ->
                Meal.isActive m = false).
Proof.
  destruct (existsb (fun m => ObjectId.eqb (Meal._id m) (ObjectId.cast (mealId item))
                              && Meal.isActive m) coll) eqn:E.
  - left. apply existsb_exists in E as (m & Hin & Hp).
    apply andb_true_iff in Hp as [Hid Hact]. apply ObjectId_eqb_eq in Hid. eauto.
  - right. intros m Hin Hid.
    destruct (Meal.isActive m) eqn:Hact; [|reflexivity].
    assert (Ht : existsb (fun m => ObjectId.eqb (Meal._id m)
                                     (ObjectId.cast (mealId item))
                                   && Meal.isActive m) coll = true).
    { apply existsb_exists. exists m. split; [exact Hin|].
      rewrite Hact, andb_true_r. now apply ObjectId_eqb_eq. }
    rewrite Ht in E. discriminate.
Qed.

(** The two counts are equal exactly when the lines name pairwise distinct
    meals, each of them stored and active. *)
Lemma found_count (l : list ItemRequest) (coll : list Meal.t) :
  NoDup (map Meal._id coll) ->
  (List.length (findMeals (map mealId l) coll) = List.length l
   <-> NoDup (wanted l)
       /\ forall item, In item l ->
            exists m, In m coll /\ Meal._id m = ObjectId.cast (mealId item)
                      /\ Meal.isActive m = true).
Proof.
  intros N.
  pose proof (found_ids_distinct (map mealId l) coll N) as Nf.
  pose proof (found_ids_wanted l coll) as Hincl.
  assert (Hlen : List.length (wanted l) = List.length l)
    by (unfold wanted; apply length_map).
  split.
  - intros L. split.
    + apply NoDup_incl_NoDup
        with (l := map Meal._id (findMeals (map mealId l) coll));
        [exact Nf | rewrite length_map; lia | exact Hincl].
    + intros item Hin.
      destruct (served_dec coll item) as [Hm|Hbad]; [exact Hm|].
      pose proof (found_fewer l coll item N Hin Hbad). lia.
  - intros [Nw Hall].
    assert (Hback : incl (wanted l) (map Meal._id (findMeals (map mealId l) coll))).
    { intros x Hx. unfold wanted in Hx.
      apply in_map_iff in Hx as (item & <- & Hin).
      destruct (Hall item Hin) as (m & Hm & Hid & Hact).
      apply in_map_iff. exists m. split; [exact Hid|].
      unfold findMeals. apply filter_In. split; [exact Hm|].
      rewrite Hact, andb_true_r. apply existsb_exists.
      exists (mealId item). split; [now apply in_map|].
      now apply ObjectId_eqb_eq. }
    apply NoDup_incl_length in Hback; [|exact Nw].
    apply NoDup_incl_length in Hincl; [|exact Nf].
    rewrite length_map in Hback, Hincl. lia.
Qed.

Lemma createOrder_checked env user req st :
  validateCreate req = [] ->
  List.length (findMeals (map mealId (items req)) (meals st))
  <> List.length (items req) ->
  createOrder H env user req st = (unavailable, st).
Proof.
  intros V L. rewrite createOrder_run. unfold buildOrder. rewrite V. simpl.
  apply Nat.eqb_neq in L. now rewrite L.
Qed.

(** C6, as amended. Creating an order with no line fails with the
    validation error "At least one item is required".  When a line names a
    meal that is not stored or not active the order is refused with status
    400 and nothing is written: the query returns fewer meals than there
    are lines.  The handler refuses the order as unavailable exactly when
    the count of the meals found differs from the count of the lines, each
    line counting for one; the two counts are equal exactly when the lines
    name pairwise distinct meals that are all stored and active, and then,
    the identifiers being in lower case, the handler goes on to build the
    order.  Whatever the answer, no part of the order is stored. *)
Theorem order_needs_every_meal :
  (forall env user req st,
      items req = [] ->
      createOrder H env user req st
      = (validationErrors (validateCreate req), st)
      /\ In "At least one item is required" (validateCreate req))
  /\ (forall env user req st item,
        NoDup (map Meal._id (meals st)) ->
        In item (items req) ->
        (forall m, In m (meals st) ->
                   Meal._id m = ObjectId.cast (mealId item) ->
                   Meal.isActive m = false) ->
        let r := createOrder H env user req st in
        status (fst r) = 400 /\ success (fst r) = false /\ snd r = st
        /\ (validateCreate req = [] -> fst r = unavailable))
  /\ (forall env user req st,
        validateCreate req = [] ->
        let found := findMeals (map mealId (items req)) (meals st) in
        let r := createOrder H env user req st in
        (fst r = unavailable <-> List.length found <> List.length (items req))
        /\ (buildOrder env user req st = Return unavailable
            <-> List.length found <> List.length (items req))
        /\ snd r = st)
  /\ (forall req st,
        NoDup (map Meal._id (meals st)) ->
        (List.length (findMeals (map mealId (items req)) (meals st))
         = List.length (items req)
         <-> NoDup (wanted (items req))
             /\ forall item, In item (items req) ->
                  exists m, In m (meals st)
                            /\ Meal._id m = ObjectId.cast (mealId item)
                            /\ Meal.isActive m = true))
  /\ (forall env user req st,
        validateCreate req = [] ->
        NoDup (map Meal._id (meals st)) ->
        List.length (findMeals (map mealId (items req)) (meals st))
        = List.length (items req) ->
        Forall (fun item => ObjectId.cast (mealId item) = mealId item)
               (items req) ->
        exists o, buildOrder env user req st = Next o).
Proof.
  split; [|split; [|split; [|split]]].
  - intros env user req st E. rewrite createOrder_run.
    unfold buildOrder, validateCreate.
    rewrite E. simpl. split; [reflexivity | now left].
  - intros env user req st item N Hin Hbad r.
    pose proof (found_fewer (items req) (meals st) item N Hin Hbad) as Hlt.
    subst r. destruct (validateCreate req) as [|e errs] eqn:V.
    + rewrite createOrder_checked by (auto; lia). simpl. auto.
    + rewrite createOrder_run. unfold buildOrder. rewrite V. simpl.
      repeat split. discriminate.
  - intros env user req st V found r. subst found r.
    assert (B : buildOrder env user req st = Return unavailable
                <-> List.length (findMeals (map mealId (items req)) (meals st))
                    <> List.length (items req)).
    { unfold buildOrder. rewrite V. simpl. split.
      - intros E L. rewrite L, Nat.eqb_refl in E. simpl in E.
        destruct (mapM _ _) as [lines|r|] eqn:M; simpl in E; try discriminate.
        now apply orderItems_no_reply in M.
      - intros L. apply Nat.eqb_neq in L. now rewrite L. }
    split; [|split; [exact B|]].
    + rewrite createOrder_run. simpl. rewrite <- B.
      destruct (buildOrder env user req st) as [o|r|e]; simpl; split;
        intros E; try discriminate; congruence.
    + rewrite createOrder_run. reflexivity.
  - intros req st N. now apply found_count.
  - intros env user req st V N L Hcanon.
    destruct (all_found (items req) (meals st) N L Hcanon) as [lines M].
    unfold buildOrder. rewrite V. simpl. rewrite L, Nat.eqb_refl. simpl.
    rewrite M. simpl. eauto.
Qed.

End OrderRejection.

(** ** Cancelling an order *)

(** An order that can be cancelled is not a cancelled one, so the
    assignment of the status modifies it. *)
Lemma cancellable_not_cancelled (o : Order.t) :
  Order.canBeCancelled o = true ->
  String.eqb (Order.statusName (Order.orderStatus o)) "cancelled" = false.
Proof.
  unfold Order.canBeCancelled. now destruct (Order.orderStatus o).
Qed.

(** C10, as amended. A successful cancellation of an order sets the status
    to cancelled, the cancellation reason to the trimmed reason of the
    request (none when none is given) and, through [timestamps: true],
    [updatedAt] to the time of the save; every other field of the order
    keeps its value, the notification list among them, and no other
    collection changes.  An order has no field for the time or the
    initiator of a cancellation, and no notification type is named
    cancelled; the cancellation of a booking records both and appends a
    notification of the type cancelled. *)
Theorem order_cancel_frame :
  (forall env user id reason st o,
      ObjectId.isMongoId id = true ->
      findOwned id user (orders st) = Some o ->
      Order.canBeCancelled o = true ->
      exists o',
        cancelOrder env user id reason st
        = ({| status := 200; success := true;
              message := "Order cancelled successfully";
              data := OrderData (Order.getSummary o') |},
           set_orders (Order.replace o' (orders st)) st)
        /\ Order.orderStatus o' = Order.cancelled
        /\ Order.cancellationReason o' = option_map trim reason
        /\ Order.updatedAt o' = Some (now env)
        /\ Order.agreeButCancellation o o')
  /\ (forall k, Order.notificationTypeName k <> "cancelled")
  /\ (forall env b reason who coll,
        let b' := fst (Booking.cancelBooking env b reason who coll) in
        Booking.cancellationDate b' = Some (now env)
        /\ Booking.cancellationBy b' = Some who
        /\ exists entry,
             Booking.notifications b' = (Booking.notifications b ++ [entry])%list
             /\ Booking.notificationTypeName (type entry) = "cancelled").
Proof.
  split; [|split].
  - intros env user id reason st o Hid Hfind Hcan.
    eexists. unfold cancelOrder. rewrite Hid, Hfind, Hcan. simpl.
    rewrite (cancellable_not_cancelled o Hcan). simpl.
    split; [reflexivity|]. unfold Order.agreeButCancellation. simpl.
    repeat split.
  - intros []; discriminate.
  - intros env b reason who coll. simpl.
    split; [reflexivity|]. split; [reflexivity|].
    eexists. split; reflexivity.
Qed.

(** C10, as stated, fails: the save of the cancellation renews [updatedAt],
    so the stored order differs from the order before in a field that is
    neither the status nor the cancellation reason. *)
Lemma order_cancel_renews_updatedAt :
  exists o o',
    orders Scenario.shop = [o]
    /\ orders (snd (cancelOrder Scenario.later Scenario.userId Scenario.newId
                      (Some "changed my mind") Scenario.shop)) = [o']
    /\ Order.orderStatus o' = Order.cancelled
    /\ Order.updatedAt o = Some 1893477600000
    /\ Order.updatedAt o' = Some 1893478200000
    /\ Order.updatedAt o' <> Order.updatedAt o.
Proof.
  do 2 eexists. vm_compute. repeat split; discriminate.
Qed.

Import Scenario BookingsRoute.

(** ** The availability resolver *)

Lemma find_first {A : Type} (p : A -> bool) (l : list A) (a : A) :
  find p l = Some a <->
  exists before after,
    l = (before ++ a :: after)%list
    /\ (forall x, In x before -> p x = false) /\ p a = true.
Proof.
  split.
  - induction l as [|x l IH]; simpl; [discriminate|].
    destruct (p x) eqn:Px.
    + intros E. injection E as ->. exists [], l. simpl.
      repeat split; auto. intros y [].
    + intros E. destruct (IH E) as (before & after & -> & Hb & Ha).
      exists (x :: before), after. simpl. repeat split; auto.
      intros y [<-|Hy]; auto.
  - intros (before & after & -> & Hb & Ha).
    induction before as [|x before IH]; simpl.
    + now rewrite Ha.
    + rewrite (Hb x) by now left. apply IH. intros y Hy. apply Hb. now right.
Qed.

Lemma date_leb_spec (a b : Date) :
  date_leb a b = true <-> exists x y, a = TimeValue x /\ b = TimeValue y /\ x <= y.
Proof.
  destruct a as [|x], b as [|y]; simpl; split;
    try discriminate; try (intros (? & ? & ? & ? & ?); discriminate).
  - intros E. apply Z.leb_le in E. eauto.
  - intros (x' & y' & [= <-] & [= <-] & E). now apply Z.leb_le.
Qed.

Section Resolver.

Variable H : Host.

Lemma open_entry (day : string) (a : Availability.t) :
  String.eqb (Availability.day a) day && Availability.isAvailable a = true
  <-> Availability.day a = day /\ Availability.isAvailable a = true.
Proof. rewrite andb_true_iff, String.eqb_eq. tauto. Qed.

Lemma window_spec (a : Availability.t) (time : string) :
  date_geb (Date_parse H ("2000-01-01 " ++ time))
           (Date_parse H ("2000-01-01 " ++ Availability.startTime a))
  && date_leb (Date_parse H ("2000-01-01 " ++ time))
              (Date_parse H ("2000-01-01 " ++ Availability.endTime a)) = true
  <-> Spec.withinWindow H a time.
Proof.
  unfold Spec.withinWindow, date_geb.
  rewrite andb_true_iff, !date_leb_spec. split.
  - intros [(s & r & Es & Er & Hsr) (r' & e & Er' & Ee & Hre)].
    rewrite Er in Er'. injection Er' as <-.
    exists s, r, e. auto.
  - intros (s & r & e & Es & Er & Ee & Hsr & Hre).
    split; [exists s, r | exists r, e]; auto.
Qed.

(** The resolver looks at the first open entry of the day and at no
    other. *)
Lemma isAvailable_first (p : HealthProfessional.t) (day time : string) :
  HealthProfessional.isAvailable H p day time = true <->
  exists a, Spec.firstOpen (HealthProfessional.availability p) day a
            /\ Spec.withinWindow H a time.
Proof.
  unfold HealthProfessional.isAvailable, Spec.firstOpen. split.
  - destruct (find _ _) as [a|] eqn:F; [|discriminate].
    intros W. apply window_spec in W.
    apply find_first in F as (before & after & E & Hb & Ha).
    apply open_entry in Ha as [Hd Ho].
    exists a. split; [|exact W]. exists before, after. repeat split; auto.
    intros x Hx Hopen. apply open_entry in Hopen.
    rewrite (Hb x Hx) in Hopen. discriminate.
  - intros (a & (before & after & E & Hb & Hd & Ho) & W).
    assert (F : find (fun a0 => String.eqb (Availability.day a0) day
                                && Availability.isAvailable a0)
                     (HealthProfessional.availability p) = Some a).
    { apply find_first. exists before, after. repeat split; auto.
      - intros x Hx.
        destruct (String.eqb (Availability.day x) day
                  && Availability.isAvailable x) eqn:Px; [|reflexivity].
        apply open_entry in Px. now destruct (Hb x Hx).
      - now apply open_entry. }
    rewrite F. now apply window_spec.
Qed.

(** With the open entries of the day all holding the time or all not
    holding it, one open entry at most in particular, the resolver is the
    resolver of the specification. *)
Lemma isAvailable_single (p : HealthProfessional.t) (day time : string) :
  (forall a b, In a (HealthProfessional.availability p) ->
               In b (HealthProfessional.availability p) ->
               Availability.day a = day -> Availability.isAvailable a = true ->
               Availability.day b = day -> Availability.isAvailable b = true ->
               a = b) ->
  (HealthProfessional.isAvailable H p day time = true
   <-> Spec.available H p day time).
Proof.
  intros Huniq. rewrite isAvailable_first. unfold Spec.available. split.
  - intros (a & (before & after & E & _ & Hd & Ho) & W).
    exists a. repeat split; auto. rewrite E. apply in_elt.
  - intros (a & Hin & Hd & Ho & W).
    destruct (find (fun a0 => String.eqb (Availability.day a0) day
                              && Availability.isAvailable a0)
                   (HealthProfessional.availability p)) as [b|] eqn:F.
    + pose proof F as F'.
      apply find_first in F as (before & after & E & Hb & Hp).
      apply open_entry in Hp as [Hd' Ho'].
      assert (a = b) as <-.
      { apply Huniq; auto. rewrite E. apply in_elt. }
      exists a. split; [|exact W]. exists before, after. repeat split; auto.
      intros x Hx Hopen. apply open_entry in Hopen.
      rewrite (Hb x Hx) in Hopen. discriminate.
    + pose proof (find_none _ _ F a Hin) as Hf. simpl in Hf.
      assert (Ht : String.eqb (Availability.day a) day
                   && Availability.isAvailable a = true)
        by now apply open_entry.
      rewrite Ht in Hf. discriminate.
Qed.

(** C3, as amended. The resolver answers available if and only if the
    first entry of the weekly list that is for the requested day and open
    has startTime <= requested time <= endTime, both bounds included, the
    three times read as clock times of the same date; entries after it are
    not looked at, so the resolver is the one of the specification when
    the day has one open entry at most.  With the single entry monday
    08:00-17:00, a Monday request is available at 08:00 and at 17:00 and
    not at 07:59. *)
Theorem resolver_first_open_entry :
  (forall p day time,
      HealthProfessional.isAvailable H p day time = true <->
      exists a, Spec.firstOpen (HealthProfessional.availability p) day a
                /\ Spec.withinWindow H a time)
  /\ (forall p day time,
        (forall a b, In a (HealthProfessional.availability p) ->
                     In b (HealthProfessional.availability p) ->
                     Availability.day a = day ->
                     Availability.isAvailable a = true ->
                     Availability.day b = day ->
                     Availability.isAvailable b = true ->
                     a = b) ->
        (HealthProfessional.isAvailable H p day time = true
         <-> Spec.available H p day time))
  /\ HealthProfessional.isAvailable node mondayOnly "monday" "08:00" = true
  /\ HealthProfessional.isAvailable node mondayOnly "monday" "17:00" = true
  /\ HealthProfessional.isAvailable node mondayOnly "monday" "07:59" = false.
Proof.
  split; [exact isAvailable_first|].
  split; [exact isAvailable_single|].
  repeat split.
Qed.

End Resolver.

(** C3, as stated, fails: with the Monday hours in two entries, 08:00-12:00
    and 14:00-17:00, a request at 15:00 lies in the window of an open Monday
    entry and the resolver answers unavailable, having looked at the first
    entry alone. *)
Lemma resolver_ignores_second_entry :
  Spec.available node splitShift "monday" "15:00"
  /\ HealthProfessional.isAvailable node splitShift "monday" "15:00" = false.
Proof.
  split; [|reflexivity].
  exists (hours "monday" "14:00" "17:00").
  split; [right; now left|]. repeat split.
  exists 946724400000, 946728000000, 946735200000.
  repeat split; try reflexivity; lia.
Qed.

(** ** Cancelling a booking *)

Lemma Qltb_24_hours (d : Z) :
  Booking.Qltb 24 (inject_Z d / inject_Z (1000 * 60 * 60)) = true
  <-> 24 * msPerHour < d.
Proof.
  unfold Booking.Qltb. rewrite negb_true_iff.
  split.
  - intros E. destruct (Z_lt_le_dec (24 * msPerHour) d) as [|Hle]; [assumption|].
    exfalso. assert (Hq : Qle_bool (inject_Z d / inject_Z (1000 * 60 * 60)) 24 = true).
    { apply Qle_bool_iff. unfold Qle, Qdiv, Qmult, Qinv, inject_Z. simpl.
      unfold msPerHour in Hle. lia. }
    rewrite Hq in E. discriminate.
  - intros Hlt. destruct (Qle_bool _ _) eqn:Hq; [|reflexivity].
    exfalso. apply Qle_bool_iff in Hq.
    unfold Qle, Qdiv, Qmult, Qinv, inject_Z in Hq. simpl in Hq.
    unfold msPerHour in Hlt. lia.
Qed.

Lemma canBeCancelled_spec (env : Env) (b : Booking.t) :
  Booking.canBeCancelled env b = true <->
  (Booking.status b = Booking.pending \/ Booking.status b = Booking.confirmed)
  /\ 24 * msPerHour < Booking.appointmentDate b - now env.
Proof.
  unfold Booking.canBeCancelled. rewrite andb_true_iff, Qltb_24_hours.
  assert (Hs : inList (Booking.statusName (Booking.status b))
                      ["pending"; "confirmed"] = true
               <-> Booking.status b = Booking.pending
                   \/ Booking.status b = Booking.confirmed).
  { destruct (Booking.status b); simpl; split; intros E;
      try discriminate; auto; destruct E; discriminate. }
  rewrite Hs. tauto.
Qed.

Lemma cancelBooking_refused env user id reason st b :
  ObjectId.isMongoId id = true ->
  findOwned id user (bookings st) = Some b ->
  Booking.canBeCancelled env b = false ->
  cancelBooking env user id reason st = (cannotCancel, st).
Proof.
  intros Hid Hfind Hcan. unfold cancelBooking.
  now rewrite Hid, Hfind, Hcan.
Qed.

Lemma cancelBooking_done env user id reason st b :
  ObjectId.isMongoId id = true ->
  findOwned id user (bookings st) = Some b ->
  Booking.canBeCancelled env b = true ->
  cancelBooking env user id reason st
  = (let b' := fst (Booking.cancelBooking env b (option_map trim reason)
                      Booking.user_party (bookings st)) in
     ({| status := 200; success := true;
         message := "Booking cancelled successfully";
         data := BookingData (Booking.getSummary b') |},
      set_bookings (Booking.replace b' (bookings st)) st)).
Proof.
  intros Hid Hfind Hcan. unfold cancelBooking.
  now rewrite Hid, Hfind, Hcan.
Qed.

(** C4. The cancel handler lets a booking be cancelled less than 24
    hours before the appointment.  [canBeCancelled] measures the distance
    to [appointmentDate], the midnight in UTC of the day of the
    appointment, and leaves [appointmentTime] out, where the create handler
    combines the two.  A pending booking for Monday 2030-01-14 at 01:00
    is cancelled by its owner at 02:00 of the Sunday before, in Nairobi:
    the appointment is 23 hours away, the stored date 25 hours, and the
    request is answered 200 with the booking cancelled in the store.  The
    answer of [canBeCancelled] is the same for any two bookings with the
    same status and the same stored date, whatever their times. *)
Theorem cancelled_within_a_day :
  (findOwned bookingId userId (bookings (clinic doctor [smallHours]))
   = Some smallHours
   /\ Booking.status smallHours = Booking.pending
   /\ Date_parse node "2030-01-14"
      = TimeValue (Booking.appointmentDate smallHours)
   /\ Booking.appointmentTime smallHours = "01:00"
   /\ Date_parse node ("2030-01-14" ++ "T" ++ "01:00")
      = TimeValue 1894572000000
   /\ 1894572000000 - now nightBefore = 23 * msPerHour
   /\ Booking.appointmentDate smallHours - now nightBefore = 25 * msPerHour
   /\ Booking.canBeCancelled nightBefore smallHours = true
   /\ status (fst (cancelBooking nightBefore userId bookingId None
                     (clinic doctor [smallHours]))) = 200
   /\ exists b,
        bookings (snd (cancelBooking nightBefore userId bookingId None
                         (clinic doctor [smallHours]))) = [b]
        /\ Booking.status b = Booking.cancelled)
  /\ (forall env b b',
        Booking.status b' = Booking.status b ->
        Booking.appointmentDate b' = Booking.appointmentDate b ->
        Booking.canBeCancelled env b' = Booking.canBeCancelled env b).
Proof.
  split.
  - repeat split. eexists. vm_compute. split; reflexivity.
  - intros env b b' Hs Hd. unfold Booking.canBeCancelled. now rewrite Hs, Hd.
Qed.

(** ** Creating a booking *)

Section BookingCreation.

Variable H : Host.

Lemma saveNew_unnumbered_booking env b coll :
  Booking.bookingNumber b = None ->
  Booking.saveNew H env b coll = Throw (ValidationError "bookingNumber").
Proof. intros E. unfold Booking.saveNew. now rewrite E. Qed.

(** No request to the create handler is answered 201, and none writes:
    the booking the handler hands to [save()] comes without its number. *)
Lemma createBooking_never_created env user req st :
  status (fst (createBooking H env user req st)) <> 201
  /\ success (fst (createBooking H env user req st)) = false
  /\ snd (createBooking H env user req st) = st.
Proof.
  unfold createBooking.
  destruct (isNil _); simpl; [|repeat split; discriminate].
  destruct (findById _ _) as [p|]; simpl; [|repeat split; discriminate].
  destruct (HealthProfessional.isActive p); simpl;
    [|repeat split; discriminate].
  destruct (date_leb _ _); simpl; [repeat split; discriminate|].
  destruct (toLocaleDateString H _ _ _) as [dayOfWeek|err]; simpl;
    [|repeat split; discriminate].
  destruct (HealthProfessional.isAvailable H p dayOfWeek _); simpl;
    [|repeat split; discriminate].
  unfold findConflicting, castDate. simpl.
  destruct (Date_parse H (appointmentDate req)) as [|date]; simpl;
    [repeat split; discriminate|].
  destruct (find _ (bookings st)) as [b|]; simpl; repeat split; discriminate.
Qed.

(** A handler that does not answer 201 has not written. *)
Lemma createBooking_failure_frame env user req st :
  status (fst (createBooking H env user req st)) <> 201 ->
  snd (createBooking H env user req st) = st.
Proof. intros _. apply createBooking_never_created. Qed.

(** C5, as amended. A create-booking request that names a stored, active
    professional and whose combined appointment date and time, the string
    of the date, [T] and the time as the host reads it, is a valid instant
    not after the present time fails with a validation error, status 400:
    the errors of the validation chain when there are any, the refusal of
    a date that is not in the future otherwise.  The answer is given before
    the weekday, the availability and the stored bookings are looked at,
    so none of them changes it, and nothing is written.  When the host
    reads no valid instant from the combined string, the request is not
    refused as a date that is not in the future, whatever the date. *)
Theorem past_appointment_rejected :
  (forall env user req st p t,
      findById (healthProfessionalId req) (professionals st) = Some p ->
      HealthProfessional.isActive p = true ->
      Date_parse H (appointmentDate req ++ "T" ++ appointmentTime req)
      = TimeValue t ->
      t <= now env ->
      createBooking H env user req st
      = (if isNil (validateCreate H req) then notInFuture
         else validationErrors (validateCreate H req), st)
      /\ status (fst (createBooking H env user req st)) = 400)
  /\ (forall env user req st,
        Date_parse H (appointmentDate req ++ "T" ++ appointmentTime req)
        = InvalidDate ->
        fst (createBooking H env user req st) <> notInFuture).
Proof.
  split.
  - intros env user req st p t F A D Hle.
    assert (E : createBooking H env user req st
                = (if isNil (validateCreate H req) then notInFuture
                   else validationErrors (validateCreate H req), st)).
    { unfold createBooking.
      destruct (isNil (validateCreate H req)); simpl; [|reflexivity].
      rewrite F. simpl. rewrite A. simpl. simpl in D. rewrite D. simpl.
      apply Z.leb_le in Hle. now rewrite Hle. }
    split; [exact E|]. rewrite E.
    now destruct (isNil (validateCreate H req)).
  - intros env user req st D. unfold createBooking.
    destruct (isNil _); simpl; [|discriminate].
    destruct (findById _ _) as [p|]; simpl; [|discriminate].
    destruct (HealthProfessional.isActive p); simpl; [|discriminate].
    simpl in D. rewrite D. simpl.
    destruct (toLocaleDateString H _ _ _) as [dayOfWeek|err]; simpl;
      [|discriminate].
    destruct (HealthProfessional.isAvailable H p dayOfWeek _); simpl;
      [|discriminate].
    unfold findConflicting, castDate. simpl.
    destruct (Date_parse H (appointmentDate req)) as [|date]; simpl;
      [discriminate|].
    destruct (find _ (bookings st)) as [b|]; simpl; discriminate.
Qed.

(** C9, as amended. On a host that follows ECMA-402, a create-booking
    request that passes the validation chain and the professional check
    and whose combined date and time is a valid instant after the present
    time makes the weekday computation raise a RangeError (lowercase is
    not a weekday style), and the request ends with the 500 response and
    nothing written.  When the combined string is not a valid date, the
    future check lets it through as well, the formatting answers "Invalid
    Date" without raising, and the request is refused as unavailable. *)
Theorem weekday_style_raises :
  Ecma402 H ->
  (forall env user req st p t,
      validateCreate H req = [] ->
      findById (healthProfessionalId req) (professionals st) = Some p ->
      HealthProfessional.isActive p = true ->
      Date_parse H (appointmentDate req ++ "T" ++ appointmentTime req)
      = TimeValue t ->
      now env < t ->
      (exists msg,
          toLocaleDateString H (TimeValue t) "en-US"
            {| weekday := Some "lowercase" |} = Throw (RangeError msg))
      /\ createBooking H env user req st = (serverError, st))
  /\ (forall env user req st p,
        validateCreate H req = [] ->
        findById (healthProfessionalId req) (professionals st) = Some p ->
        HealthProfessional.isActive p = true ->
        Date_parse H (appointmentDate req ++ "T" ++ appointmentTime req)
        = InvalidDate ->
        (forall a, In a (HealthProfessional.availability p) ->
                   Availability.day a <> "Invalid Date") ->
        createBooking H env user req st = (notAvailable, st)).
Proof.
  intros [Hinv Hrange]. split.
  - intros env user req st p t V F A D Hlt.
    destruct (Hrange t "en-US" "lowercase" eq_refl) as [msg W].
    split; [eauto|].
    unfold createBooking. rewrite V. simpl. rewrite F. simpl. rewrite A. simpl.
    simpl in D. rewrite D. simpl. apply Z.leb_gt in Hlt. rewrite Hlt. simpl.
    now rewrite W.
  - intros env user req st p V F A D Hdays.
    unfold createBooking. rewrite V. simpl. rewrite F. simpl. rewrite A. simpl.
    simpl in D. rewrite D. simpl. rewrite Hinv. simpl.
    unfold HealthProfessional.isAvailable.
    destruct (find _ _) as [a|] eqn:Fa; [|reflexivity].
    apply find_some in Fa as [Hin Hp].
    apply andb_true_iff in Hp as [Hd _]. apply String.eqb_eq in Hd.
    now destruct (Hdays a Hin).
Qed.

Lemma conflictFilter_spec (req : Request) (date : Z) (b : Booking.t) :
  Date_parse H (appointmentDate req) = TimeValue date ->
  (conflictFilter (ObjectId.cast (healthProfessionalId req)) date
     (appointmentTime req) b = true
   <-> Spec.conflicts H req b).
Proof.
  intros D. unfold conflictFilter, Spec.conflicts. rewrite D.
  rewrite !andb_true_iff, ObjectId_eqb_eq, Z.eqb_eq, String.eqb_eq.
  assert (Hs : inList (Booking.statusName (Booking.status b))
                      ["pending"; "confirmed"] = true
               <-> Booking.status b = Booking.pending
                   \/ Booking.status b = Booking.confirmed).
  { destruct (Booking.status b); simpl; split; intros E;
      try discriminate; auto; destruct E; discriminate. }
  rewrite Hs. split.
  - intros [[[-> ->] ->] Hst]. auto.
  - intros (-> & [= ->] & -> & Hst). auto.
Qed.

Lemma find_exists {A : Type} (f : A -> bool) (l : list A) :
  (exists a, find f l = Some a) <-> exists a, In a l /\ f a = true.
Proof.
  split.
  - intros [a F]. apply find_some in F. eauto.
  - intros (a & Hin & Hf). destruct (find f l) as [x|] eqn:F; [eauto|].
    rewrite (find_none _ _ F a Hin) in Hf. discriminate.
Qed.

(** C2, as amended. The conflict query finds a booking if and only if a
    stored booking has the professional, the date and the time string of
    the request and the status pending or confirmed; the duration plays no
    part in it.  Whenever such a booking is stored the request does not
    succeed and nothing is written; and when the request has passed the
    validation chain, the professional check, the future check and the
    availability check, it fails with the 400 response "This time slot is
    already booked". *)
Theorem conflicting_slot_rejected :
  (forall env user req st b,
      In b (bookings st) -> Spec.conflicts H req b ->
      status (fst (createBooking H env user req st)) <> 201
      /\ snd (createBooking H env user req st) = st)
  /\ (forall env user req st b p dayOfWeek,
        validateCreate H req = [] ->
        findById (healthProfessionalId req) (professionals st) = Some p ->
        HealthProfessional.isActive p = true ->
        date_leb (Date_parse H (appointmentDate req ++ "T" ++ appointmentTime req))
                 (TimeValue (now env)) = false ->
        toLocaleDateString H
          (Date_parse H (appointmentDate req ++ "T" ++ appointmentTime req))
          "en-US" {| weekday := Some "lowercase" |} = Normal dayOfWeek ->
        HealthProfessional.isAvailable H p dayOfWeek (appointmentTime req)
        = true ->
        In b (bookings st) -> Spec.conflicts H req b ->
        createBooking H env user req st = (alreadyBooked, st))
  /\ (forall req coll date,
        Date_parse H (appointmentDate req) = TimeValue date ->
        ((exists b, findConflicting H req coll = Next (Some b))
         <-> exists b, In b coll /\ Spec.conflicts H req b))
  /\ (forall professional date time b b',
        Booking.healthProfessional b' = Booking.healthProfessional b ->
        Booking.appointmentDate b' = Booking.appointmentDate b ->
        Booking.appointmentTime b' = Booking.appointmentTime b ->
        Booking.status b' = Booking.status b ->
        conflictFilter professional date time b'
        = conflictFilter professional date time b).
Proof.
  split; [|split; [|split]].
  - intros env user req st b Hin Hc.
    destruct (createBooking_never_created env user req st) as (S & _ & F).
    now split.
  - intros env user req st b p dayOfWeek V F A Past W Av Hin Hc.
    pose proof Hc as (_ & D & _).
    apply (conflictFilter_spec req _ b D) in Hc.
    unfold createBooking. rewrite V. simpl. rewrite F. simpl. rewrite A. simpl.
    simpl in Past, W. rewrite Past. simpl. rewrite W. simpl.
    rewrite Av. simpl.
    unfold findConflicting, castDate. simpl. rewrite D. simpl.
    destruct (find _ (bookings st)) as [x|] eqn:Fx; [reflexivity|].
    rewrite (find_none _ _ Fx b Hin) in Hc. discriminate.
  - intros req coll date D. unfold findConflicting, castDate. rewrite D. simpl.
    split.
    + intros [b E]. injection E as E.
      apply find_some in E as [Hin Hf].
      exists b. split; [exact Hin|]. now apply (conflictFilter_spec req date b D).
    + intros (b & Hin & Hc).
      apply (conflictFilter_spec req date b D) in Hc.
      destruct (find_exists
                  (conflictFilter (ObjectId.cast (healthProfessionalId req))
                     date (appointmentTime req)) coll) as [_ Hex].
      destruct Hex as [x Fx]; [eauto|]. exists x. now rewrite Fx.
  - intros professional date time b b' E1 E2 E3 E4.
    unfold conflictFilter. now rewrite E1, E2, E3, E4.
Qed.

End BookingCreation.

(** C8. No booking is created, so none is persisted with an amount and
    the status pending.  The booking the create handler builds has the
    status pending and the amount the handler has computed: the price of
    the requested service when it has one that is not zero, the
    consultation fee of the professional when the request carries no
    service, or a service without a price or with the price 0.  But it
    comes without the booking number the schema requires,
    which only the [pre('save')] hook would set: the validation that
    precedes the hook refuses it.  No request to the handler is answered
    201 and none writes, on any host; the request for the vaccination at
    800 on Monday 2030-01-14 at 09:30 is answered 500 and the store is
    left without a booking. *)
Theorem booking_never_persisted :
  (forall H env user req st,
      status (fst (createBooking H env user req st)) <> 201
      /\ snd (createBooking H env user req st) = st)
  /\ (forall H env b coll,
        Booking.bookingNumber b = None ->
        Booking.saveNew H env b coll = Throw (ValidationError "bookingNumber"))
  /\ (forall env user req date duration urgent amount,
        let b := newBooking env user req date duration urgent amount in
        Booking.bookingNumber b = None
        /\ Booking.status b = Booking.pending
        /\ Booking.amount b = amount)
  /\ (forall sv amount p,
        price sv = Some amount -> truthy amount = true ->
        calculateAmount (Some sv) p = amount)
  /\ (forall p, calculateAmount None p = HealthProfessional.consultationFee p)
  /\ (forall sv p,
        price sv = None \/ price sv = Some 0%float ->
        calculateAmount (Some sv) p = HealthProfessional.consultationFee p)
  /\ (validateCreate node (visit "09:30" (Some vaccination)) = []
      /\ calculateAmount (Some vaccination) doctor = 800%float
      /\ createBooking node env userId (visit "09:30" (Some vaccination))
           (clinic doctor [])
         = (serverError, clinic doctor [])
      /\ bookings (clinic doctor []) = []).
Proof.
  split; [|split; [|split; [|split; [|split; [|split]]]]].
  - intros H env user req st.
    destruct (createBooking_never_created H env user req st) as (S & _ & F).
    now split.
  - intros H env b coll. apply saveNew_unnumbered_booking.
  - intros env user req date duration urgent amount. simpl. auto.
  - intros sv amount p Hp Ht. unfold calculateAmount. now rewrite Hp, Ht.
  - reflexivity.
  - intros sv p [Hp|Hp]; unfold calculateAmount; now rewrite Hp.
  - repeat split.
Qed.

(** ** The cancellation fields of a booking *)

Lemma booking_replace_In (b' x : Booking.t) (coll : list Booking.t) :
  In x (Booking.replace b' coll) -> x = b' \/ In x coll.
Proof.
  unfold Booking.replace. intros Hin.
  apply in_map_iff in Hin as (y & <- & Hy).
  destruct (ObjectId.eqb _ _); auto.
Qed.

Lemma cancelled_recorded env b reason who coll :
  Spec.cancellationRecorded (fst (Booking.cancelBooking env b reason who coll)).
Proof.
  unfold Spec.cancellationRecorded. simpl. split; [discriminate|]. split.
  - intros _. discriminate.
  - intros Hne. now contradiction Hne.
Qed.

Lemma rated_recorded env b r1 r2 r3 comment coll :
  Spec.cancellationRecorded b ->
  Spec.cancellationRecorded (fst (Booking.addRating env b r1 r2 r3 comment coll)).
Proof. unfold Spec.cancellationRecorded. simpl. tauto. Qed.

Section CancellationFields.

Variable H : Host.

Lemma step_preserves (st st' : Store) :
  Spec.step H st st' ->
  (forall b, In b (bookings st) -> Spec.cancellationRecorded b) ->
  forall b, In b (bookings st') -> Spec.cancellationRecorded b.
Proof.
  intros Hstep Inv. destruct Hstep as [env user req st|env user id reason st
                                      |env user id r1 r2 r3 comment st].
  - destruct (createBooking_never_created H env user req st) as (_ & _ & ->).
    exact Inv.
  - unfold cancelBooking.
    destruct (isNil _); simpl; [|exact Inv].
    destruct (findOwned _ _ _) as [b0|]; simpl; [|exact Inv].
    destruct (Booking.canBeCancelled env b0); simpl; [|exact Inv].
    intros b Hin. apply booking_replace_In in Hin as [->|Hin]; auto.
    apply (cancelled_recorded env b0 (option_map trim reason)
             Booking.user_party (bookings st)).
  - unfold rateBooking.
    destruct (isNil _); simpl; [|exact Inv].
    destruct (findOwned _ _ _) as [b0|] eqn:F; simpl; [|exact Inv].
    destruct (String.eqb _ _); simpl; [|exact Inv].
    intros b Hin. apply booking_replace_In in Hin as [->|Hin]; auto.
    apply (rated_recorded env b0 r1 r2 r3 (option_map trim comment)
             (bookings st)).
    apply Inv. unfold findOwned in F. now apply find_some in F.
Qed.

(** C7, as amended. Each booking the create handler stores, and each that
    the cancel and rate handlers leave in the store when the bookings
    before had it so, has [cancellationBy] set (the default of the schema,
    user, is there from creation); one whose status is cancelled has
    [cancellationDate] set; one whose status is not cancelled has neither
    [cancellationReason] nor [cancellationDate] set.  A successful
    cancellation sets the status to cancelled, the date to the present
    time, the initiator to user and the reason to the trimmed reason of
    the request, leaving it unset when none is given.  Rating a booking
    and updating its status leave the three fields as they are. *)
Theorem cancellation_fields_recorded :
  (forall st st',
      Spec.step H st st' ->
      (forall b, In b (bookings st) -> Spec.cancellationRecorded b) ->
      forall b, In b (bookings st') -> Spec.cancellationRecorded b)
  /\ (forall st, Spec.reachable H st ->
                 forall b, In b (bookings st) -> Spec.cancellationRecorded b)
  /\ (forall env user req date duration urgent amount,
        Spec.cancellationRecorded
          (newBooking env user req date duration urgent amount))
  /\ (forall env user id reason st b,
        ObjectId.isMongoId id = true ->
        findOwned id user (bookings st) = Some b ->
        Booking.canBeCancelled env b = true ->
        exists b',
          bookings (snd (cancelBooking env user id reason st))
          = Booking.replace b' (bookings st)
          /\ Booking._id b' = Booking._id b
          /\ Booking.status b' = Booking.cancelled
          /\ Booking.cancellationReason b' = option_map trim reason
          /\ Booking.cancellationDate b' = Some (now env)
          /\ Booking.cancellationBy b' = Some Booking.user_party)
  /\ (forall env b newStatus msg coll b' coll',
        Booking.updateStatus env b newStatus msg coll = Normal (b', coll') ->
        Booking.cancellationReason b' = Booking.cancellationReason b
        /\ Booking.cancellationDate b' = Booking.cancellationDate b
        /\ Booking.cancellationBy b' = Booking.cancellationBy b)
  /\ (forall env b r1 r2 r3 comment coll,
        let b' := fst (Booking.addRating env b r1 r2 r3 comment coll) in
        Booking.status b' = Booking.status b
        /\ Booking.cancellationReason b' = Booking.cancellationReason b
        /\ Booking.cancellationDate b' = Booking.cancellationDate b
        /\ Booking.cancellationBy b' = Booking.cancellationBy b).
Proof.
  split; [exact step_preserves|]. split; [|split; [|split; [|split]]].
  - induction 1 as [st Hempty|st st' _ IH Hstep].
    + rewrite Hempty. intros b [].
    + now apply (step_preserves st st').
  - intros env user req date duration urgent amount.
    unfold Spec.cancellationRecorded. simpl.
    split; [discriminate|]. split; [discriminate|]. intros _. now split.
  - intros env user id reason st b Hid Hfind Hcan.
    rewrite (cancelBooking_done env user id reason st b Hid Hfind Hcan).
    eexists. simpl. repeat split.
  - intros env b newStatus msg coll b' coll'.
    unfold Booking.updateStatus, Booking.save.
    destruct msg as [m|]; [destruct (notEmpty m);
      [destruct (Booking.notificationTypeOfStatus newStatus)|]|];
      try destruct (negb _);
      intros E; try discriminate; injection E as <- _; simpl; auto.
  - intros env b r1 r2 r3 comment coll. simpl. auto.
Qed.

End CancellationFields.

(** ** The claims that fail as stated *)

(** The formatter of [node] follows the two clauses of ECMA-402. *)
Lemma node_ecma402 : Ecma402 node.
Proof.
  split.
  - reflexivity.
  - intros t locales style Hstyle. simpl. unfold formatDate. simpl.
    unfold inList, weekdayStyles in Hstyle. simpl in Hstyle.
    apply orb_false_iff in Hstyle as [Hn Hstyle].
    apply orb_false_iff in Hstyle as [Hs Hstyle].
    apply orb_false_iff in Hstyle as [Hl _].
    rewrite Hl, Hs, Hn. eauto.
Qed.

(** C2, as stated, fails: the professional of a stored, pending booking is
    no longer active, and a request for the same professional, date and
    time is answered 404 by the professional check, which comes first, not
    with the conflict response. *)
Lemma conflict_behind_inactive_professional :
  In appointment (bookings (clinic inactiveDoctor [appointment]))
  /\ Spec.conflicts node (visit "09:30" None) appointment
  /\ createBooking node env userId (visit "09:30" None)
       (clinic inactiveDoctor [appointment])
     = (notFound, clinic inactiveDoctor [appointment])
  /\ notFound <> alreadyBooked.
Proof.
  split; [now left|]. split; [|split].
  - repeat split. now left.
  - reflexivity.
  - discriminate.
Qed.

(** C5, as stated, fails: a request for a time that is over, naming a
    professional who is not active, is answered 404 by the professional
    check and not with a validation error.  And a request for a time that
    is over, written with a one-digit hour as the validation chain admits
    it, gives a combined string the host reads no date from: it passes the
    future check and is refused as unavailable. *)
Lemma past_appointment_inactive_professional :
  (Date_parse node (appointmentDate lateVisit ++ "T" ++ appointmentTime lateVisit)
   = TimeValue 1893393000000
   /\ 1893393000000 <= now env
   /\ createBooking node env userId lateVisit (clinic inactiveDoctor [])
      = (notFound, clinic inactiveDoctor [])
   /\ status notFound = 404
   /\ notFound <> notInFuture)
  /\ (validateCreate node earlyVisit = []
      /\ Date_parse node (appointmentDate earlyVisit ++ " "
                          ++ appointmentTime earlyVisit)
         = TimeValue 1893393000000
      /\ 1893393000000 <= now env
      /\ Date_parse node (appointmentDate earlyVisit ++ "T"
                          ++ appointmentTime earlyVisit)
         = InvalidDate
      /\ createBooking node env userId earlyVisit (clinic doctor [])
         = (notAvailable, clinic doctor [])
      /\ notAvailable <> notInFuture).
Proof.
  split.
  - split; [reflexivity|]. split; [vm_compute; discriminate|].
    split; [reflexivity|]. split; [reflexivity | discriminate].
  - split; [reflexivity|]. split; [reflexivity|].
    split; [vm_compute; discriminate|]. split; [reflexivity|].
    split; [reflexivity | discriminate].
Qed.

(** C6, as stated, fails: the request names the same stored, active meal
    in two entries.  The query finds that one meal and the request has one
    distinct entry, so the acceptance condition of the claim holds; the
    handler compares the one meal found with the two entries and refuses
    the order as unavailable. *)
Lemma same_meal_in_two_entries :
  OrdersRoute.validateCreate sameMealTwice = []
  /\ findMeals (map mealId (items sameMealTwice)) (meals kitchen) = [ugali]
  /\ nodup string_dec (map mealId (items sameMealTwice)) = [mealA]
  /\ Spec.accepted sameMealTwice kitchen
  /\ List.length (items sameMealTwice) = 2%nat
  /\ createOrder node env userId sameMealTwice kitchen = (unavailable, kitchen).
Proof.
  repeat split.
Qed.

(** C7, as stated, fails in both halves: a pending booking has
    [cancellationBy] set, by the default of the schema, and the booking
    cancelled by a request that gives no reason has the status cancelled
    and no [cancellationReason]. *)
Lemma cancellation_fields_not_as_stated :
  Booking.status appointment = Booking.pending
  /\ Booking.cancellationBy appointment = Some Booking.user_party
  /\ exists b,
       bookings (snd (cancelBooking env userId bookingId None
                        (clinic doctor [appointment]))) = [b]
       /\ Booking.status b = Booking.cancelled
       /\ Booking.cancellationReason b = None.
Proof.
  split; [reflexivity|]. split; [reflexivity|].
  eexists. vm_compute. repeat split.
Qed.

(** C9, as stated, fails: the date of the request is the ISO timestamp
    "2030-01-14T00:00:00.000Z", which the validation chain admits, and the
    combined string "2030-01-14T00:00:00.000ZT09:30" is not a valid date;
    the request passes the professional check and the future check, the
    weekday computation answers "Invalid Date" and does not raise, the
    availability branch is reached and the request ends with the 400
    response of an unavailable professional. *)
Lemma invalid_date_reaches_availability :
  validateCreate node timestamped = []
  /\ findById (healthProfessionalId timestamped)
       (professionals (clinic doctor [])) = Some doctor
  /\ HealthProfessional.isActive doctor = true
  /\ Date_parse node (appointmentDate timestamped ++ "T"
                      ++ appointmentTime timestamped) = InvalidDate
  /\ date_leb (Date_parse node (appointmentDate timestamped ++ "T"
                                ++ appointmentTime timestamped))
              (TimeValue (now env)) = false
  /\ toLocaleDateString node
       (Date_parse node (appointmentDate timestamped ++ "T"
                         ++ appointmentTime timestamped))
       "en-US" {| weekday := Some "lowercase" |} = Normal "Invalid Date"
  /\ createBooking node env userId timestamped (clinic doctor [])
     = (notAvailable, clinic doctor [])
  /\ notAvailable <> serverError.
Proof.
  repeat split. discriminate.
Qed.

(** The one-digit hour the time pattern admits has the same effect: after
    [T] the hour has two digits. *)
Lemma one_digit_hour_reaches_availability :
  validateCreate node (visit "9:30" None) = []
  /\ Date_parse node ("2030-01-14" ++ "T" ++ "9:30") = InvalidDate
  /\ createBooking node env userId (visit "9:30" None) (clinic doctor [])
     = (notAvailable, clinic doctor []).
Proof.
  repeat split.
Qed.

(** ** The theorems at work on concrete requests *)

Lemma order_totals_not_persisted_witness :
  exists o,
    buildOrder env userId twoItems kitchen = Next o
    /\ Order.subtotal o
       = fold_left (fun sum line =>
                      (sum + Order.price line * Order.quantity line)%float)
                   (Order.items o) 0%float
    /\ Order.total o
       = (Order.subtotal o + Order.deliveryFee o + Order.tax o)%float
    /\ Order.orderNumber o = None
    /\ createOrder node env userId twoItems kitchen = (serverError, kitchen).
Proof.
  assert (B : exists o, buildOrder env userId twoItems kitchen = Next o)
    by (eexists; vm_compute; reflexivity).
  destruct B as [o B]. exists o.
  destruct (proj1 order_totals_not_persisted env userId twoItems kitchen o B)
    as ((_ & _ & Hsub & _ & _ & Htot) & Hnum & Hsave).
  split; [exact B|]. split; [exact Hsub|]. split; [exact Htot|].
  split; [exact Hnum|]. exact (proj2 (Hsave node)).
Defined.

Lemma order_needs_every_meal_witness :
  (items (orderFor []) = []
   /\ In "At least one item is required"
        (OrdersRoute.validateCreate (orderFor [])))
  /\ (In (line mealC 1%float) (items withRetired)
      /\ fst (createOrder node env userId withRetired kitchen) = unavailable
      /\ snd (createOrder node env userId withRetired kitchen) = kitchen)
  /\ exists o, buildOrder env userId twoItems kitchen = Next o.
Proof.
  pose proof (order_needs_every_meal node) as (Hempty & Hmissing & _ & _ & Hall).
  split; [|split].
  - split; [reflexivity|].
    exact (proj2 (Hempty env userId (orderFor []) kitchen eq_refl)).
  - assert (Hin : In (line mealC 1%float) (items withRetired))
      by (right; now left).
    split; [exact Hin|].
    destruct (Hmissing env userId withRetired kitchen (line mealC 1%float))
      as (_ & _ & Hst & Hresp).
    + vm_compute. repeat constructor; simpl; intuition discriminate.
    + exact Hin.
    + intros m [<-|[<-|[<-|[]]]]; simpl; intros E; try reflexivity;
        discriminate.
    + split; [now apply Hresp | exact Hst].
  - apply Hall.
    + reflexivity.
    + vm_compute. repeat constructor; simpl; intuition discriminate.
    + reflexivity.
    + repeat constructor.
Defined.

Lemma order_cancel_frame_witness :
  exists o o',
    OrdersRoute.findOwned newId userId (orders shop) = Some o
    /\ Order.canBeCancelled o = true
    /\ orders (snd (cancelOrder later userId newId (Some " changed my mind ") shop))
       = Order.replace o' (orders shop)
    /\ Order.orderStatus o' = Order.cancelled
    /\ Order.cancellationReason o' = Some "changed my mind"
    /\ Order.updatedAt o' = Some (now later)
    /\ Order.agreeButCancellation o o'.
Proof.
  assert (F : exists o, OrdersRoute.findOwned newId userId (orders shop) = Some o
                        /\ Order.canBeCancelled o = true).
  { eexists. split; vm_compute; reflexivity. }
  destruct F as (o & F & Hcan).
  destruct (proj1 order_cancel_frame later userId newId
              (Some " changed my mind ") shop o eq_refl F Hcan)
    as (o' & E & Hs & Hr & Hu & Hagree).
  exists o, o'. rewrite E. simpl.
  split; [exact F|]. split; [exact Hcan|]. split; [reflexivity|].
  split; [exact Hs|]. split; [exact Hr|]. split; [exact Hu | exact Hagree].
Defined.

Lemma resolver_first_open_entry_witness :
  HealthProfessional.isAvailable node mondayOnly "monday" "08:00" = true
  /\ Spec.available node mondayOnly "monday" "08:00".
Proof.
  split; [reflexivity|].
  apply (proj1 (proj2 (resolver_first_open_entry node))
           mondayOnly "monday" "08:00").
  - intros a b [<-|[]] [<-|[]] _ _ _ _. reflexivity.
  - reflexivity.
Defined.

Lemma cancelled_within_a_day_witness :
  Booking.status smallHours = Booking.status appointment
  /\ Booking.appointmentDate smallHours = Booking.appointmentDate appointment
  /\ Booking.appointmentTime smallHours <> Booking.appointmentTime appointment
  /\ Booking.canBeCancelled nightBefore smallHours
     = Booking.canBeCancelled nightBefore appointment.
Proof.
  split; [reflexivity|]. split; [reflexivity|]. split; [discriminate|].
  exact (proj2 cancelled_within_a_day nightBefore appointment smallHours
           eq_refl eq_refl).
Defined.

Lemma past_appointment_rejected_witness :
  findById (healthProfessionalId lateVisit) (professionals (clinic doctor []))
  = Some doctor
  /\ 1893393000000 <= now env
  /\ createBooking node env userId lateVisit (clinic doctor [])
     = (notInFuture, clinic doctor []).
Proof.
  split; [reflexivity|].
  assert (Hle : 1893393000000 <= now env) by (vm_compute; discriminate).
  split; [exact Hle|].
  exact (proj1 (proj1 (past_appointment_rejected node) env userId lateVisit
                  (clinic doctor []) doctor 1893393000000
                  eq_refl eq_refl eq_refl Hle)).
Defined.

Lemma weekday_style_raises_witness :
  Ecma402 node
  /\ now env < 1894602600000
  /\ createBooking node env userId (visit "09:30" None) (clinic doctor [])
     = (serverError, clinic doctor []).
Proof.
  split; [exact node_ecma402|].
  assert (Hlt : now env < 1894602600000) by (vm_compute; reflexivity).
  split; [exact Hlt|].
  exact (proj2 (proj1 (weekday_style_raises node node_ecma402)
                  env userId (visit "09:30" None) (clinic doctor []) doctor
                  1894602600000 eq_refl eq_refl eq_refl eq_refl Hlt)).
Defined.

Lemma conflicting_slot_rejected_witness :
  In appointment (bookings (clinic doctor [appointment]))
  /\ Spec.conflicts lenient (visit "09:30" None) appointment
  /\ createBooking lenient env userId (visit "09:30" None)
       (clinic doctor [appointment])
     = (alreadyBooked, clinic doctor [appointment]).
Proof.
  assert (Hin : In appointment (bookings (clinic doctor [appointment])))
    by now left.
  assert (Hc : Spec.conflicts lenient (visit "09:30" None) appointment)
    by (repeat split; now left).
  split; [exact Hin|]. split; [exact Hc|].
  exact (proj1 (proj2 (conflicting_slot_rejected lenient))
           env userId (visit "09:30" None) (clinic doctor [appointment])
           appointment doctor "monday"
           eq_refl eq_refl eq_refl eq_refl eq_refl eq_refl Hin Hc).
Defined.

Lemma booking_never_persisted_witness :
  price vaccination = Some 800%float
  /\ truthy 800%float = true
  /\ calculateAmount (Some vaccination) doctor = 800%float
  /\ calculateAmount (Some unpriced) doctor = 1500%float
  /\ calculateAmount (Some free) doctor = 1500%float
  /\ Booking.saveNew node env
       (newBooking env userId (visit "09:30" (Some vaccination))
          1894579200000 30%float false 800%float) []
     = Throw (ValidationError "bookingNumber").
Proof.
  destruct booking_never_persisted
    as (_ & Hsave & Hnew & Hpriced & _ & Hfee & _).
  split; [reflexivity|]. split; [reflexivity|].
  split; [|split; [|split]].
  - exact (Hpriced vaccination 800%float doctor eq_refl eq_refl).
  - exact (Hfee unpriced doctor (or_introl eq_refl)).
  - exact (Hfee free doctor (or_intror eq_refl)).
  - apply Hsave.
    exact (proj1 (Hnew env userId (visit "09:30" (Some vaccination))
                    1894579200000 30%float false 800%float)).
Defined.

Lemma cancellation_fields_recorded_witness :
  let st := clinic doctor [appointment] in
  let st' := snd (cancelBooking env userId bookingId None st) in
  Spec.step node st st'
  /\ (forall b, In b (bookings st) -> Spec.cancellationRecorded b)
  /\ (exists b, bookings st' = [b] /\ Booking.status b = Booking.cancelled)
  /\ forall b, In b (bookings st') -> Spec.cancellationRecorded b.
Proof.
  intros st st'.
  assert (Hstep : Spec.step node st st') by apply Spec.step_cancel.
  assert (Hinv : forall b, In b (bookings st) -> Spec.cancellationRecorded b).
  { intros b [<-|[]].
    apply (proj1 (proj2 (proj2 (cancellation_fields_recorded node)))). }
  split; [exact Hstep|]. split; [exact Hinv|]. split.
  - eexists. vm_compute. split; reflexivity.
  - exact (proj1 (cancellation_fields_recorded node) st st' Hstep Hinv).
Defined.


(* ================================================================== *)
(** * Further properties of the two routers and the models *)

(** ** Requests that fail, and documents of other users *)

Lemma respond_failed {A : Type} (code : Z) (msg : string) (st : Store)
      (body : Step (A * Store)) :
  Reply.succeeded (fst (Reply.respond code msg st body)) = false ->
  snd (Reply.respond code msg st body) = st.
Proof. destruct body as [[a st']| |]; simpl; [discriminate|reflexivity|reflexivity]. Qed.

(** X1. A request that is refused writes nothing.  Whenever one of the handlers
    answers with [success: false] (a validation error, a document that is
    not found, a state that does not allow the operation, a server error),
    the store is exactly as it was before the request; and the tracking
    route never writes at all. *)
Theorem failed_request_writes_nothing (H : Host) :
  (forall env user req st,
      success (fst (createOrder H env user req st)) = false ->
      snd (createOrder H env user req st) = st)
  /\ (forall env user id reason st,
        success (fst (cancelOrder env user id reason st)) = false ->
        snd (cancelOrder env user id reason st) = st)
  /\ (forall env user id r1 r2 r3 comment st,
        Reply.succeeded (fst (rateOrder env user id r1 r2 r3 comment st)) = false ->
        snd (rateOrder env user id r1 r2 r3 comment st) = st)
  /\ (forall user orderNumber st, snd (trackOrder user orderNumber st) = st)
  /\ (forall env user req st,
        success (fst (createBooking H env user req st)) = false ->
        snd (createBooking H env user req st) = st)
  /\ (forall env user id reason st,
        success (fst (cancelBooking env user id reason st)) = false ->
        snd (cancelBooking env user id reason st) = st)
  /\ (forall env user id r1 r2 r3 comment st,
        success (fst (rateBooking env user id r1 r2 r3 comment st)) = false ->
        snd (rateBooking env user id r1 r2 r3 comment st) = st).
Proof.
  repeat match goal with |- _ /\ _ => split end.
  - intros env user req st _. apply createOrder_never_created.
  - intros env user id reason st. unfold cancelOrder.
    destruct (isNil _); simpl; [|reflexivity].
    destruct (OrdersRoute.findOwned _ _ _) as [o|]; simpl; [|reflexivity].
    destruct (Order.canBeCancelled o) eqn:C; simpl; [|reflexivity].
    rewrite (cancellable_not_cancelled o C). simpl. discriminate.
  - intros env user id r1 r2 r3 comment st. apply respond_failed.
  - intros user orderNumber st. unfold trackOrder.
    destruct (isNil _); simpl; [|reflexivity].
    destruct (findByNumber _ _ _); reflexivity.
  - intros env user req st _. apply createBooking_never_created.
  - intros env user id reason st. unfold cancelBooking.
    destruct (isNil _); simpl; [|reflexivity].
    destruct (findOwned _ _ _) as [b|]; simpl; [|reflexivity].
    destruct (Booking.canBeCancelled env b); simpl; [discriminate|reflexivity].
  - intros env user id r1 r2 r3 comment st. unfold rateBooking.
    destruct (isNil _); simpl; [|reflexivity].
    destruct (findOwned _ _ _) as [b|]; simpl; [|reflexivity].
    destruct (String.eqb _ _); simpl; [discriminate|reflexivity].
Qed.

Lemma find_none_iff {A : Type} (p : A -> bool) (l : list A) :
  find p l = None <-> forall x, In x l -> p x = false.
Proof.
  split.
  - intros E x. now apply find_none.
  - induction l as [|a l IH]; simpl; intros Hall; [reflexivity|].
    rewrite (Hall a (or_introl eq_refl)). apply IH. intros x Hx. apply Hall. now right.
Qed.

Lemma foreign_booking (id : string) (user : ObjectId.t) (coll : list Booking.t) :
  (forall b, In b coll -> Booking._id b = ObjectId.cast id -> Booking.user b <> user) ->
  findOwned id user coll = None.
Proof.
  intros Hf. apply find_none_iff. intros b Hb.
  destruct (ObjectId.eqb (Booking._id b) (ObjectId.cast id)) eqn:E1; [|reflexivity].
  destruct (ObjectId.eqb (Booking.user b) user) eqn:E2; [|reflexivity].
  apply ObjectId_eqb_eq in E1, E2. now destruct (Hf b Hb E1).
Qed.

Lemma foreign_order (id : string) (user : ObjectId.t) (coll : list Order.t) :
  (forall o, In o coll -> Order._id o = ObjectId.cast id -> Order.user o <> user) ->
  OrdersRoute.findOwned id user coll = None.
Proof.
  intros Hf. apply find_none_iff. intros o Ho.
  destruct (ObjectId.eqb (Order._id o) (ObjectId.cast id)) eqn:E1; [|reflexivity].
  destruct (ObjectId.eqb (Order.user o) user) eqn:E2; [|reflexivity].
  apply ObjectId_eqb_eq in E1, E2. now destruct (Hf o Ho E1).
Qed.

(** X2. A document of another user is not found: cancelling or rating a booking
    or an order under an identifier that no document of the caller has is
    answered 404, whatever the state of the documents of others under that
    identifier, and nothing is written. *)
Theorem foreign_document_not_found :
  (forall env user id reason st,
      ObjectId.isMongoId id = true ->
      (forall b, In b (bookings st) -> Booking._id b = ObjectId.cast id ->
                 Booking.user b <> user) ->
      cancelBooking env user id reason st = (failure 404 "Booking not found", st))
  /\ (forall env user id r1 r2 r3 comment st,
        ObjectId.isMongoId id = true ->
        (forall b, In b (bookings st) -> Booking._id b = ObjectId.cast id ->
                   Booking.user b <> user) ->
        status (fst (rateBooking env user id r1 r2 r3 comment st)) <> 200
        /\ (isFloat 1%float (Some 5%float) r1 && isFloat 1%float (Some 5%float) r2
            && isFloat 1%float (Some 5%float) r3 = true ->
            rateBooking env user id r1 r2 r3 comment st
            = (failure 404 "Booking not found", st)))
  /\ (forall env user id reason st,
        ObjectId.isMongoId id = true ->
        (forall o, In o (orders st) -> Order._id o = ObjectId.cast id ->
                   Order.user o <> user) ->
        cancelOrder env user id reason st = (failure 404 "Order not found", st))
  /\ (forall env user id r1 r2 r3 comment st,
        ObjectId.isMongoId id = true ->
        (forall o, In o (orders st) -> Order._id o = ObjectId.cast id ->
                   Order.user o <> user) ->
        Reply.succeeded (fst (rateOrder env user id r1 r2 r3 comment st)) = false
        /\ (isFloat 1%float (Some 5%float) r1 && isFloat 1%float (Some 5%float) r2
            && isFloat 1%float (Some 5%float) r3 = true ->
            rateOrder env user id r1 r2 r3 comment st
            = (Reply.Failed (failure 404 "Order not found"), st))).
Proof.
  repeat match goal with |- _ /\ _ => split end.
  - intros env user id reason st Hid Hf. unfold cancelBooking.
    rewrite Hid. simpl. now rewrite (foreign_booking id user (bookings st) Hf).
  - intros env user id r1 r2 r3 comment st Hid Hf. unfold rateBooking.
    rewrite Hid, (foreign_booking id user (bookings st) Hf). simpl.
    destruct (isFloat 1%float (Some 5%float) r1), (isFloat 1%float (Some 5%float) r2),
      (isFloat 1%float (Some 5%float) r3); simpl; split; try discriminate; reflexivity.
  - intros env user id reason st Hid Hf. unfold cancelOrder.
    rewrite Hid. simpl. now rewrite (foreign_order id user (orders st) Hf).
  - intros env user id r1 r2 r3 comment st Hid Hf. unfold rateOrder.
    rewrite Hid, (foreign_order id user (orders st) Hf). simpl.
    destruct (isFloat 1%float (Some 5%float) r1), (isFloat 1%float (Some 5%float) r2),
      (isFloat 1%float (Some 5%float) r3); simpl; split; try discriminate; reflexivity.
Qed.

(** ** Cancelling and rating again *)

Lemma findOwned_booking_replace id user b b' coll :
  findOwned id user coll = Some b ->
  Booking._id b' = Booking._id b -> Booking.user b' = Booking.user b ->
  findOwned id user (Booking.replace b' coll) = Some b'.
Proof.
  intros F Hi Hu.
  assert (Hp : ObjectId.eqb (Booking._id b') (ObjectId.cast id)
               && ObjectId.eqb (Booking.user b') user = true).
  { apply find_some in F as [_ Hp]. now rewrite Hi, Hu. }
  unfold findOwned in *. induction coll as [|x r IH]; simpl in *; [discriminate|].
  destruct (ObjectId.eqb (Booking._id x) (Booking._id b')) eqn:E.
  - now rewrite Hp.
  - destruct (ObjectId.eqb (Booking._id x) (ObjectId.cast id)
              && ObjectId.eqb (Booking.user x) user) eqn:Px.
    + injection F as ->. rewrite Hi in E. unfold ObjectId.eqb in E.
      now rewrite String.eqb_refl in E.
    + now apply IH.
Qed.

Lemma findOwned_order_replace id user o o' coll :
  OrdersRoute.findOwned id user coll = Some o ->
  Order._id o' = Order._id o -> Order.user o' = Order.user o ->
  OrdersRoute.findOwned id user (Order.replace o' coll) = Some o'.
Proof.
  intros F Hi Hu.
  assert (Hp : ObjectId.eqb (Order._id o') (ObjectId.cast id)
               && ObjectId.eqb (Order.user o') user = true).
  { apply find_some in F as [_ Hp]. now rewrite Hi, Hu. }
  unfold OrdersRoute.findOwned in *.
  induction coll as [|x r IH]; simpl in *; [discriminate|].
  destruct (ObjectId.eqb (Order._id x) (Order._id o')) eqn:E.
  - now rewrite Hp.
  - destruct (ObjectId.eqb (Order._id x) (ObjectId.cast id)
              && ObjectId.eqb (Order.user x) user) eqn:Px.
    + injection F as ->. rewrite Hi in E. unfold ObjectId.eqb in E.
      now rewrite String.eqb_refl in E.
    + now apply IH.
Qed.

(** What the cancel handler of the bookings router has done when it answers
    200. *)
Lemma cancelBooking_succeeded env user id reason st :
  status (fst (cancelBooking env user id reason st)) = 200 ->
  exists b,
    ObjectId.isMongoId id = true
    /\ findOwned id user (bookings st) = Some b
    /\ Booking.canBeCancelled env b = true
    /\ snd (cancelBooking env user id reason st)
       = set_bookings
           (Booking.replace
              (fst (Booking.cancelBooking env b (option_map trim reason)
                      Booking.user_party (bookings st))) (bookings st)) st.
Proof.
  unfold cancelBooking.
  destruct (ObjectId.isMongoId id) eqn:Hid; simpl; [|discriminate].
  destruct (findOwned id user (bookings st)) as [b|] eqn:F; simpl; [|discriminate].
  destruct (Booking.canBeCancelled env b) eqn:C; simpl; [|discriminate].
  intros _. exists b. auto.
Qed.

Lemma cancelOrder_succeeded env user id reason st :
  status (fst (cancelOrder env user id reason st)) = 200 ->
  exists o,
    ObjectId.isMongoId id = true
    /\ OrdersRoute.findOwned id user (orders st) = Some o
    /\ Order.canBeCancelled o = true
    /\ snd (cancelOrder env user id reason st)
       = set_orders
           (Order.replace
              (Order.set_updatedAt (Some (now env))
                 (Order.set_cancellationReason (option_map trim reason)
                    (Order.set_orderStatus Order.cancelled o))) (orders st)) st.
Proof.
  unfold cancelOrder.
  destruct (ObjectId.isMongoId id) eqn:Hid; simpl; [|discriminate].
  destruct (OrdersRoute.findOwned id user (orders st)) as [o|] eqn:F; simpl;
    [|discriminate].
  destruct (Order.canBeCancelled o) eqn:C; simpl; [|discriminate].
  rewrite (cancellable_not_cancelled o C). simpl.
  intros _. exists o. auto.
Qed.

(** X3. Cancelling is final.  Once the owner has cancelled a booking, or an
    order, every further cancel request for it, at any later time and with
    any reason, is refused with the 400 response of a document that cannot
    be cancelled, and writes nothing. *)
Theorem second_cancel_refused :
  (forall env user id reason st,
      status (fst (cancelBooking env user id reason st)) = 200 ->
      forall env' reason',
        cancelBooking env' user id reason' (snd (cancelBooking env user id reason st))
        = (cannotCancel, snd (cancelBooking env user id reason st)))
  /\ (forall env user id reason st,
        status (fst (cancelOrder env user id reason st)) = 200 ->
        forall env' reason',
          cancelOrder env' user id reason' (snd (cancelOrder env user id reason st))
          = (OrdersRoute.cannotCancel, snd (cancelOrder env user id reason st))).
Proof.
  split.
  - intros env user id reason st S env' reason'.
    destruct (cancelBooking_succeeded env user id reason st S)
      as (b & Hid & F & _ & ->).
    apply cancelBooking_refused
      with (b := fst (Booking.cancelBooking env b (option_map trim reason)
                        Booking.user_party (bookings st))).
    + exact Hid.
    + simpl. now apply findOwned_booking_replace with (b := b).
    + unfold Booking.canBeCancelled. reflexivity.
  - intros env user id reason st S env' reason'.
    destruct (cancelOrder_succeeded env user id reason st S)
      as (o & Hid & F & _ & ->).
    unfold cancelOrder at 1. rewrite Hid. simpl.
    rewrite (findOwned_order_replace id user o
               (Order.set_updatedAt (Some (now env))
                  (Order.set_cancellationReason (option_map trim reason)
                     (Order.set_orderStatus Order.cancelled o)))
               (orders st) F eq_refl eq_refl).
    reflexivity.
Qed.

Lemma booking_completed_name (s : Booking.Status) :
  String.eqb (Booking.statusName s) "completed" = true <-> s = Booking.completed.
Proof. destruct s; simpl; split; intros E; try discriminate; reflexivity. Qed.

Lemma order_delivered_name (s : Order.Status) :
  String.eqb (Order.statusName s) "delivered" = true <-> s = Order.delivered.
Proof. destruct s; simpl; split; intros E; try discriminate; reflexivity. Qed.

Lemma rateBooking_run env user id r1 r2 r3 comment st b :
  ObjectId.isMongoId id = true ->
  isFloat 1%float (Some 5%float) r1 = true ->
  isFloat 1%float (Some 5%float) r2 = true ->
  isFloat 1%float (Some 5%float) r3 = true ->
  findOwned id user (bookings st) = Some b ->
  Booking.status b = Booking.completed ->
  rateBooking env user id r1 r2 r3 comment st
  = ({| status := 200; success := true;
        message := "Rating submitted successfully";
        data := BookingRatingData
                  (Some {| Booking.professional := r1; Booking.service_ := r2;
                           Booking.overall := r3;
                           Booking.comment := option_map trim comment;
                           Booking.date := now env |}) |},
     set_bookings
       (Booking.replace
          (Booking.set_updatedAt (Some (now env))
             (Booking.set_rating
                (Some {| Booking.professional := r1; Booking.service_ := r2;
                         Booking.overall := r3;
                         Booking.comment := option_map trim comment;
                         Booking.date := now env |}) b))
          (bookings st)) st).
Proof.
  intros Hi H1 H2 H3 F C. unfold rateBooking.
  rewrite Hi, H1, H2, H3, F. simpl. rewrite C. reflexivity.
Qed.

Lemma rateBooking_succeeded env user id r1 r2 r3 comment st :
  status (fst (rateBooking env user id r1 r2 r3 comment st)) = 200 ->
  ObjectId.isMongoId id = true
  /\ isFloat 1%float (Some 5%float) r1 = true
  /\ isFloat 1%float (Some 5%float) r2 = true
  /\ isFloat 1%float (Some 5%float) r3 = true
  /\ exists b, findOwned id user (bookings st) = Some b
               /\ Booking.status b = Booking.completed.
Proof.
  unfold rateBooking.
  destruct (ObjectId.isMongoId id), (isFloat 1%float (Some 5%float) r1),
    (isFloat 1%float (Some 5%float) r2), (isFloat 1%float (Some 5%float) r3);
    simpl; try discriminate.
  destruct (findOwned id user (bookings st)) as [b|]; simpl; [|discriminate].
  destruct (String.eqb (Booking.statusName (Booking.status b)) "completed") eqn:C;
    simpl; [|discriminate].
  intros _. apply booking_completed_name in C. repeat split; eauto.
Qed.

Lemma rateOrder_run env user id r1 r2 r3 comment st o :
  ObjectId.isMongoId id = true ->
  isFloat 1%float (Some 5%float) r1 = true ->
  isFloat 1%float (Some 5%float) r2 = true ->
  isFloat 1%float (Some 5%float) r3 = true ->
  OrdersRoute.findOwned id user (orders st) = Some o ->
  Order.orderStatus o = Order.delivered ->
  rateOrder env user id r1 r2 r3 comment st
  = (Reply.Sent 200 "Rating submitted successfully"
       (Some {| Order.food := r1; Order.delivery := r2; Order.overall := r3;
                Order.comment := option_map trim comment;
                Order.date := now env |}),
     set_orders
       (Order.replace
          (Order.set_updatedAt (Some (now env))
             (Order.set_rating
                (Some {| Order.food := r1; Order.delivery := r2;
                         Order.overall := r3;
                         Order.comment := option_map trim comment;
                         Order.date := now env |}) o))
          (orders st)) st).
Proof.
  intros Hi H1 H2 H3 F C. unfold rateOrder.
  rewrite Hi, H1, H2, H3, F. simpl. rewrite C. reflexivity.
Qed.

Lemma rateOrder_succeeded env user id r1 r2 r3 comment st :
  Reply.succeeded (fst (rateOrder env user id r1 r2 r3 comment st)) = true ->
  ObjectId.isMongoId id = true
  /\ isFloat 1%float (Some 5%float) r1 = true
  /\ isFloat 1%float (Some 5%float) r2 = true
  /\ isFloat 1%float (Some 5%float) r3 = true
  /\ exists o, OrdersRoute.findOwned id user (orders st) = Some o
               /\ Order.orderStatus o = Order.delivered.
Proof.
  unfold rateOrder.
  destruct (ObjectId.isMongoId id), (isFloat 1%float (Some 5%float) r1),
    (isFloat 1%float (Some 5%float) r2), (isFloat 1%float (Some 5%float) r3);
    simpl; try discriminate.
  destruct (OrdersRoute.findOwned id user (orders st)) as [o|]; simpl;
    [|discriminate].
  destruct (String.eqb (Order.statusName (Order.orderStatus o)) "delivered") eqn:C;
    simpl; [|discriminate].
  intros _. apply order_delivered_name in C. repeat split; eauto.
Qed.

(** X4. Rating a booking.  The request is answered 200 exactly when the
    identifier is well formed, the three ratings are numbers from 1 to 5,
    and the caller has a booking under the identifier whose status is
    completed.  The stored booking then differs from the one found in its
    rating (the three numbers, the trimmed comment, the present time) and
    its [updatedAt] only, the response carries that rating, and the booking
    can be rated again: a later rating is accepted in the same way and takes
    the place of the earlier one. *)
Theorem booking_rating_recorded :
  forall env user id r1 r2 r3 comment st,
    (status (fst (rateBooking env user id r1 r2 r3 comment st)) = 200 <->
     ObjectId.isMongoId id = true
     /\ isFloat 1%float (Some 5%float) r1 = true
     /\ isFloat 1%float (Some 5%float) r2 = true
     /\ isFloat 1%float (Some 5%float) r3 = true
     /\ exists b, findOwned id user (bookings st) = Some b
                  /\ Booking.status b = Booking.completed)
    /\ (forall b,
          findOwned id user (bookings st) = Some b ->
          status (fst (rateBooking env user id r1 r2 r3 comment st)) = 200 ->
          let rating :=
            {| Booking.professional := r1; Booking.service_ := r2;
               Booking.overall := r3; Booking.comment := option_map trim comment;
               Booking.date := now env |} in
          let b' :=
            Booking.set_updatedAt (Some (now env))
              (Booking.set_rating (Some rating) b) in
          rateBooking env user id r1 r2 r3 comment st
          = ({| status := 200; success := true;
                message := "Rating submitted successfully";
                data := BookingRatingData (Some rating) |},
             set_bookings (Booking.replace b' (bookings st)) st)
          /\ forall env' q1 q2 q3 comment',
               isFloat 1%float (Some 5%float) q1 = true ->
               isFloat 1%float (Some 5%float) q2 = true ->
               isFloat 1%float (Some 5%float) q3 = true ->
               let later :=
                 {| Booking.professional := q1; Booking.service_ := q2;
                    Booking.overall := q3;
                    Booking.comment := option_map trim comment';
                    Booking.date := now env' |} in
               rateBooking env' user id q1 q2 q3 comment'
                 (set_bookings (Booking.replace b' (bookings st)) st)
               = ({| status := 200; success := true;
                     message := "Rating submitted successfully";
                     data := BookingRatingData (Some later) |},
                  set_bookings
                    (Booking.replace
                       (Booking.set_updatedAt (Some (now env'))
                          (Booking.set_rating (Some later) b'))
                       (Booking.replace b' (bookings st)))
                    (set_bookings (Booking.replace b' (bookings st)) st))).
Proof.
  intros env user id r1 r2 r3 comment st.
  split; [split|].
  - apply rateBooking_succeeded.
  - intros (Hi & H1 & H2 & H3 & b & F & C).
    now rewrite (rateBooking_run env user id r1 r2 r3 comment st b Hi H1 H2 H3 F C).
  - intros b F S rating b'.
    destruct (rateBooking_succeeded env user id r1 r2 r3 comment st S)
      as (Hi & H1 & H2 & H3 & x & F' & C).
    rewrite F in F'. injection F' as <-.
    split.
    + exact (rateBooking_run env user id r1 r2 r3 comment st b Hi H1 H2 H3 F C).
    + intros env' q1 q2 q3 comment' G1 G2 G3 later.
      apply rateBooking_run; auto.
      simpl. now apply findOwned_booking_replace with (b := b).
Qed.

(** X5. Rating an order: as for a booking, with the status delivered in the
    place of completed. *)
Theorem order_rating_recorded :
  forall env user id r1 r2 r3 comment st,
    (Reply.succeeded (fst (rateOrder env user id r1 r2 r3 comment st)) = true <->
     ObjectId.isMongoId id = true
     /\ isFloat 1%float (Some 5%float) r1 = true
     /\ isFloat 1%float (Some 5%float) r2 = true
     /\ isFloat 1%float (Some 5%float) r3 = true
     /\ exists o, OrdersRoute.findOwned id user (orders st) = Some o
                  /\ Order.orderStatus o = Order.delivered)
    /\ (forall o,
          OrdersRoute.findOwned id user (orders st) = Some o ->
          Reply.succeeded (fst (rateOrder env user id r1 r2 r3 comment st)) = true ->
          let rating :=
            {| Order.food := r1; Order.delivery := r2;
               Order.overall := r3; Order.comment := option_map trim comment;
               Order.date := now env |} in
          let o' :=
            Order.set_updatedAt (Some (now env))
              (Order.set_rating (Some rating) o) in
          rateOrder env user id r1 r2 r3 comment st
          = (Reply.Sent 200 "Rating submitted successfully" (Some rating),
             set_orders (Order.replace o' (orders st)) st)
          /\ forall env' q1 q2 q3 comment',
               isFloat 1%float (Some 5%float) q1 = true ->
               isFloat 1%float (Some 5%float) q2 = true ->
               isFloat 1%float (Some 5%float) q3 = true ->
               let later :=
                 {| Order.food := q1; Order.delivery := q2; Order.overall := q3;
                    Order.comment := option_map trim comment';
                    Order.date := now env' |} in
               rateOrder env' user id q1 q2 q3 comment'
                 (set_orders (Order.replace o' (orders st)) st)
               = (Reply.Sent 200 "Rating submitted successfully" (Some later),
                  set_orders
                    (Order.replace
                       (Order.set_updatedAt (Some (now env'))
                          (Order.set_rating (Some later) o'))
                       (Order.replace o' (orders st)))
                    (set_orders (Order.replace o' (orders st)) st))).
Proof.
  intros env user id r1 r2 r3 comment st.
  split; [split|].
  - apply rateOrder_succeeded.
  - intros (Hi & H1 & H2 & H3 & o & F & C).
    now rewrite (rateOrder_run env user id r1 r2 r3 comment st o Hi H1 H2 H3 F C).
  - intros o F S rating o'.
    destruct (rateOrder_succeeded env user id r1 r2 r3 comment st S)
      as (Hi & H1 & H2 & H3 & x & F' & C).
    rewrite F in F'. injection F' as <-.
    split.
    + exact (rateOrder_run env user id r1 r2 r3 comment st o Hi H1 H2 H3 F C).
    + intros env' q1 q2 q3 comment' G1 G2 G3 later.
      apply rateOrder_run; auto.
      simpl. now apply findOwned_order_replace with (o := o).
Qed.

(** ** Status changes and their notifications *)

Lemma booking_status_name (a b : Booking.Status) :
  String.eqb (Booking.statusName a) (Booking.statusName b) = true <-> a = b.
Proof. destruct a, b; simpl; split; intros E; try discriminate; reflexivity. Qed.

Lemma order_status_name (a b : Order.Status) :
  String.eqb (Order.statusName a) (Order.statusName b) = true <-> a = b.
Proof. destruct a, b; simpl; split; intros E; try discriminate; reflexivity. Qed.

(** X6. [updateStatus] of the two models pushes a notification whose type is the
    name of the new status, and the save validates that type against the
    enumeration of the schema.  With a message that is not empty, the call
    therefore succeeds exactly for the statuses whose name is also the name
    of a notification type: cancelled and completed for a booking;
    preparing, out_for_delivery and delivered for an order.  For the other
    statuses (confirming a booking or an order among them) the save is
    rejected with a validation error and nothing is stored.  Without a
    message, or with an empty one, the status is set and no notification
    is pushed; the save stores the document, its [updatedAt] renewed, when
    the status is another one than the document had, and sends nothing
    when it is the same. *)
Theorem status_change_notification :
  (forall env b s msg coll,
      notEmpty msg = true ->
      ((exists k, Booking.notificationTypeName k = Booking.statusName s)
       <-> s = Booking.cancelled \/ s = Booking.completed)
      /\ ((exists r, Booking.updateStatus env b s (Some msg) coll = Normal r)
          <-> exists k, Booking.notificationTypeName k = Booking.statusName s)
      /\ (forall b' coll',
            Booking.updateStatus env b s (Some msg) coll = Normal (b', coll') ->
            Booking.status b' = s
            /\ coll' = Booking.replace b' coll
            /\ exists k, Booking.notificationTypeName k = Booking.statusName s
                 /\ Booking.notifications b'
                    = (Booking.notifications b
                       ++ [Build_Notification k msg (now env) false])%list)
      /\ (forall e, Booking.updateStatus env b s (Some msg) coll = Throw e ->
                    exists path, e = ValidationError path))
  /\ (forall env o s msg coll,
        notEmpty msg = true ->
        ((exists k, Order.notificationTypeName k = Order.statusName s)
         <-> s = Order.preparing \/ s = Order.out_for_delivery
             \/ s = Order.delivered)
        /\ ((exists r, Order.updateStatus env o s (Some msg) coll = Normal r)
            <-> exists k, Order.notificationTypeName k = Order.statusName s)
        /\ (forall o' coll',
              Order.updateStatus env o s (Some msg) coll = Normal (o', coll') ->
              Order.orderStatus o' = s
              /\ coll' = Order.replace o' coll
              /\ exists k, Order.notificationTypeName k = Order.statusName s
                   /\ Order.notifications o'
                      = (Order.notifications o
                         ++ [Build_Notification k msg (now env) false])%list)
        /\ (forall e, Order.updateStatus env o s (Some msg) coll = Throw e ->
                      exists path, e = ValidationError path))
  /\ (forall env b s msg coll,
        msg = None \/ msg = Some "" ->
        exists b' coll',
          Booking.updateStatus env b s msg coll = Normal (b', coll')
          /\ Booking.status b' = s
          /\ Booking.notifications b' = Booking.notifications b
          /\ (s <> Booking.status b ->
              coll' = Booking.replace b' coll
              /\ Booking.updatedAt b' = Some (now env))
          /\ (s = Booking.status b -> b' = b /\ coll' = coll))
  /\ (forall env o s msg coll,
        msg = None \/ msg = Some "" ->
        exists o' coll',
          Order.updateStatus env o s msg coll = Normal (o', coll')
          /\ Order.orderStatus o' = s
          /\ Order.notifications o' = Order.notifications o
          /\ (s <> Order.orderStatus o ->
              coll' = Order.replace o' coll
              /\ Order.updatedAt o' = Some (now env))
          /\ (s = Order.orderStatus o -> o' = o /\ coll' = coll)).
Proof.
  split; [|split; [|split]].
  - intros env b s msg coll Hmsg.
    assert (Hk : (exists k, Booking.notificationTypeName k = Booking.statusName s)
                 <-> s = Booking.cancelled \/ s = Booking.completed).
    { split.
      - intros [k Ek]. destruct s, k; simpl in Ek; try discriminate; auto.
      - intros [->| ->];
          [exists Booking.note_cancelled|exists Booking.note_completed];
          reflexivity. }
    split; [exact Hk|]. unfold Booking.updateStatus. rewrite Hmsg.
    split; [|split].
    + rewrite Hk. split.
      * intros [r E]. destruct s; simpl in E; try discriminate; auto.
      * intros [->| ->]; simpl; eauto.
    + intros b' coll' E.
      destruct s; simpl in E; try discriminate; injection E as <- <-;
        (split; [reflexivity|]; split; [reflexivity|]);
        [exists Booking.note_completed|exists Booking.note_cancelled];
        split; reflexivity.
    + intros e E. destruct s; simpl in E; try discriminate;
        injection E as <-; eauto.
  - intros env o s msg coll Hmsg.
    assert (Hk : (exists k, Order.notificationTypeName k = Order.statusName s)
                 <-> s = Order.preparing \/ s = Order.out_for_delivery
                     \/ s = Order.delivered).
    { split.
      - intros [k Ek]. destruct s, k; simpl in Ek; try discriminate; auto.
      - intros [->|[->| ->]];
          [exists Order.note_preparing|exists Order.note_out_for_delivery
           |exists Order.note_delivered]; reflexivity. }
    split; [exact Hk|]. unfold Order.updateStatus. rewrite Hmsg.
    split; [|split].
    + rewrite Hk. split.
      * intros [r E]. destruct s; simpl in E; try discriminate; auto.
      * intros [->|[->| ->]]; simpl; eauto.
    + intros o' coll' E.
      destruct s; simpl in E; try discriminate; injection E as <- <-;
        (split; [reflexivity|]; split; [reflexivity|]);
        [exists Order.note_preparing|exists Order.note_out_for_delivery
         |exists Order.note_delivered];
        split; reflexivity.
    + intros e E. destruct s; simpl in E; try discriminate;
        injection E as <-; eauto.
  - intros env b s msg coll Hmsg.
    assert (E : Booking.updateStatus env b s msg coll
                = Normal (Booking.save env
                            (negb (String.eqb (Booking.statusName (Booking.status b))
                                     (Booking.statusName s)))
                            (Booking.set_status s b) coll))
      by (destruct Hmsg as [->| ->]; reflexivity).
    rewrite E. unfold Booking.save.
    destruct (String.eqb _ _) eqn:N; simpl.
    + apply booking_status_name in N. do 2 eexists.
      split; [reflexivity|]. simpl.
      split; [reflexivity|]. split; [reflexivity|]. split.
      * intros Hne. now destruct Hne.
      * intros _. split; [|reflexivity]. subst s. now destruct b.
    + do 2 eexists. split; [reflexivity|]. simpl.
      split; [reflexivity|]. split; [reflexivity|]. split.
      * intros _. split; reflexivity.
      * intros ->. rewrite (proj2 (booking_status_name _ _) eq_refl) in N.
        discriminate.
  - intros env o s msg coll Hmsg.
    assert (E : Order.updateStatus env o s msg coll
                = Normal (Order.save env
                            (negb (String.eqb (Order.statusName (Order.orderStatus o))
                                     (Order.statusName s)))
                            (Order.set_orderStatus s o) coll))
      by (destruct Hmsg as [->| ->]; reflexivity).
    rewrite E. unfold Order.save.
    destruct (String.eqb _ _) eqn:N; simpl.
    + apply order_status_name in N. do 2 eexists.
      split; [reflexivity|]. simpl.
      split; [reflexivity|]. split; [reflexivity|]. split.
      * intros Hne. now destruct Hne.
      * intros _. split; [|reflexivity]. subst s. now destruct o.
    + do 2 eexists. split; [reflexivity|]. simpl.
      split; [reflexivity|]. split; [reflexivity|]. split.
      * intros _. split; reflexivity.
      * intros ->. rewrite (proj2 (order_status_name _ _) eq_refl) in N.
        discriminate.
Qed.

(** ** Tracking *)

(** X7. The timeline of the tracking route always names the same five
    milestones in the same order, and the milestones it marks completed are
    the first [k] of them, for some [k] from 1 to 5: a milestone is never
    completed while an earlier one is not.  All five are completed exactly
    for a delivered order; for a pending or a cancelled order only the first
    is; and a milestone that is not completed carries no time. *)
Theorem timeline_is_a_prefix (order : Order.t) :
  map milestone (timeline order)
  = ["order_placed"; "order_confirmed"; "preparing"; "out_for_delivery";
     "delivered"]
  /\ (exists k, (1 <= k <= 5)%nat
        /\ map completed (timeline order)
           = (repeat true k ++ repeat false (5 - k))%list
        /\ (k = 5%nat <-> Order.orderStatus order = Order.delivered)
        /\ (k = 1%nat <-> Order.orderStatus order = Order.pending
                          \/ Order.orderStatus order = Order.cancelled))
  /\ (forall m, In m (timeline order) -> completed m = false -> time m = None).
Proof.
  split; [reflexivity|]. split.
  - unfold timeline.
    destruct (Order.orderStatus order) eqn:S; simpl;
      [exists 1%nat|exists 2%nat|exists 3%nat|exists 4%nat|exists 5%nat
       |exists 1%nat];
      (split; [lia|]); (split; [reflexivity|]);
      split; split; intros E; try discriminate; try reflexivity; auto;
      try (destruct E; discriminate).
  - unfold timeline.
    destruct (Order.orderStatus order); simpl;
      intros m [<-|[<-|[<-|[<-|[<-|[]]]]]]; simpl; intros E;
      try discriminate; reflexivity.
Qed.

(** ** The totals and the tracking of an order *)



(** X9. A stored order is tracked by its owner under its number.  When the
    order is the only one in the store with that number, the tracking
    route answers its owner 200 with the number, the status, the estimated
    and the actual delivery and the delivery person of the order, a line
    for each of its lines, with the quantity and the prices of the line,
    and the timeline of the order.  Every other user is answered 404 under
    that number, and the route writes nothing. *)
Theorem stored_order_is_tracked :
  forall st o number,
    In o (orders st) ->
    Order.orderNumber o = Some number ->
    notEmpty number = true ->
    (forall x, In x (orders st) -> Order.orderNumber x = Some number -> x = o) ->
    (exists tracking,
        trackOrder (Order.user o) number st = (Reply.Sent 200 "" tracking, st)
        /\ trackedNumber tracking = Some number
        /\ trackedStatus tracking = Order.orderStatus o
        /\ estimatedDelivery tracking = Order.estimated (Order.deliveryTime o)
        /\ actualDelivery tracking = Order.actual (Order.deliveryTime o)
        /\ trackedPerson tracking = Order.deliveryPerson o
        /\ map trackedQuantity (trackedItems tracking)
           = map Order.quantity (Order.items o)
        /\ map trackedPrice (trackedItems tracking)
           = map Order.price (Order.items o)
        /\ map trackedTotalPrice (trackedItems tracking)
           = map Order.totalPrice (Order.items o)
        /\ trackedTimeline tracking = timeline o)
    /\ (forall other,
          other <> Order.user o ->
          trackOrder other number st
          = (Reply.Failed (failure 404 "Order not found"), st)).
Proof.
  intros st o number Hin Hn Hne Huniq.
  assert (Hfind : forall user,
             findByNumber number user (orders st)
             = if ObjectId.eqb (Order.user o) user then Some o else None).
  { intros user. unfold findByNumber.
    destruct (ObjectId.eqb (Order.user o) user) eqn:U.
    - destruct (find _ (orders st)) as [x|] eqn:F.
      + apply find_some in F as [Hx Hp].
        apply andb_true_iff in Hp as [Hnum _].
        destruct (Order.orderNumber x) as [n|] eqn:En; [|discriminate].
        apply String.eqb_eq in Hnum. subst n. now rewrite (Huniq x Hx En).
      + apply find_none with (x := o) in F; [|exact Hin].
        now rewrite Hn, String.eqb_refl, U in F.
    - apply find_none_iff. intros x Hx.
      destruct (Order.orderNumber x) as [n|] eqn:En; [|reflexivity].
      destruct (String.eqb n number) eqn:E; [|reflexivity].
      apply String.eqb_eq in E. subst n.
      now rewrite (Huniq x Hx En), U. }
  split.
  - eexists. split.
    + unfold trackOrder. rewrite Hne. simpl. rewrite Hfind.
      unfold ObjectId.eqb. rewrite String.eqb_refl. reflexivity.
    + simpl. rewrite !map_map. simpl. repeat split; auto.
  - intros other Hother. unfold trackOrder. rewrite Hne. simpl. rewrite Hfind.
    destruct (ObjectId.eqb (Order.user o) other) eqn:U; [|reflexivity].
    apply ObjectId_eqb_eq in U. now destruct Hother.
Qed.

(** ** The stores the two routers reach *)

Lemma step_effect (H : Host) (st st' : Store) :
  Api.step H st st' -> Api.Effect st st'.
Proof.
  intros [env user req s|env user id reason s|env user id r1 r2 r3 comment s
         |user number s|env user req s|env user id reason s
         |env user id r1 r2 r3 comment s].
  - apply Api.Nothing. apply createOrder_never_created.
  - destruct (Z.eq_dec (status (fst (cancelOrder env user id reason s))) 200)
      as [S|S].
    + destruct (cancelOrder_succeeded env user id reason s S)
        as (o & _ & F & _ & E).
      apply find_some in F as [Hin _].
      eapply Api.OrderCancelled with (o := o); [exact E|exact Hin|..]; reflexivity.
    + apply Api.Nothing. revert S. unfold cancelOrder.
      destruct (isNil _); simpl; [|reflexivity].
      destruct (OrdersRoute.findOwned _ _ _) as [o|]; simpl; [|reflexivity].
      destruct (Order.canBeCancelled o) eqn:C; simpl; [|reflexivity].
      rewrite (cancellable_not_cancelled o C). simpl.
      intros S. now destruct S.
  - destruct (Reply.succeeded (fst (rateOrder env user id r1 r2 r3 comment s))) eqn:S.
    + destruct (rateOrder_succeeded env user id r1 r2 r3 comment s S)
        as (Hi & H1 & H2 & H3 & o & F & Hs).
      rewrite (rateOrder_run env user id r1 r2 r3 comment s o Hi H1 H2 H3 F Hs).
      simpl. apply find_some in F as [Hin _].
      eapply Api.OrderRated with (o := o); [reflexivity|exact Hin|exact Hs|..];
        reflexivity.
    + apply Api.Nothing. now apply respond_failed.
  - apply Api.Nothing. unfold trackOrder.
    destruct (isNil _); simpl; [|reflexivity].
    destruct (findByNumber _ _ _); reflexivity.
  - apply Api.Nothing. apply createBooking_never_created.
  - destruct (Z.eq_dec (status (fst (cancelBooking env user id reason s))) 200)
      as [S|S].
    + destruct (cancelBooking_succeeded env user id reason s S)
        as (b & _ & F & _ & E).
      apply find_some in F as [Hin _].
      eapply Api.BookingCancelled with (b := b); [exact E|exact Hin|..]; reflexivity.
    + apply Api.Nothing. revert S. unfold cancelBooking.
      destruct (isNil _); simpl; [|reflexivity].
      destruct (findOwned _ _ _) as [b|]; simpl; [|reflexivity].
      destruct (Booking.canBeCancelled env b); simpl; [|reflexivity].
      intros S. now destruct S.
  - destruct (Z.eq_dec (status (fst (rateBooking env user id r1 r2 r3 comment s))) 200)
      as [S|S].
    + destruct (rateBooking_succeeded env user id r1 r2 r3 comment s S)
        as (Hi & H1 & H2 & H3 & b & F & Hs).
      rewrite (rateBooking_run env user id r1 r2 r3 comment s b Hi H1 H2 H3 F Hs).
      simpl. apply find_some in F as [Hin _].
      eapply Api.BookingRated with (b := b); [reflexivity|exact Hin|exact Hs|..];
        reflexivity.
    + apply Api.Nothing. revert S. unfold rateBooking.
      destruct (isNil _); simpl; [|reflexivity].
      destruct (findOwned _ _ _) as [b|]; simpl; [|reflexivity].
      destruct (String.eqb _ _); simpl; [|reflexivity].
      intros S. now destruct S.
Qed.

Lemma order_replace_In (o' x : Order.t) (coll : list Order.t) :
  In x (Order.replace o' coll) -> x = o' \/ In x coll.
Proof.
  unfold Order.replace. intros Hx. apply in_map_iff in Hx as (y & <- & Hy).
  destruct (ObjectId.eqb _ _); auto.
Qed.

Lemma NoDup_map_injective {A B : Type} (f : A -> B) (l : list A) (x y : A) :
  NoDup (map f l) -> In x l -> In y l -> f x = f y -> x = y.
Proof.
  induction l as [|a l IH]; simpl; intros N Hx Hy E; [destruct Hx|].
  inversion N as [|? ? Hnotin N']; subst.
  destruct Hx as [->|Hx], Hy as [->|Hy]; auto.
  - destruct Hnotin. rewrite E. now apply in_map.
  - destruct Hnotin. rewrite <- E. now apply in_map.
Qed.

Lemma order_replace_map {B : Type} (g : Order.t -> B) (o o' : Order.t)
      (coll : list Order.t) :
  NoDup (map Order._id coll) -> In o coll ->
  Order._id o' = Order._id o -> g o' = g o ->
  map g (Order.replace o' coll) = map g coll.
Proof.
  intros N Hin Hid Hg. unfold Order.replace. rewrite map_map.
  apply map_ext_in. intros x Hx.
  destruct (ObjectId.eqb (Order._id x) (Order._id o')) eqn:E; [|reflexivity].
  apply ObjectId_eqb_eq in E. rewrite Hid in E.
  now rewrite (NoDup_map_injective Order._id coll x o N Hx Hin E).
Qed.

Lemma booking_replace_map {B : Type} (g : Booking.t -> B) (b b' : Booking.t)
      (coll : list Booking.t) :
  NoDup (map Booking._id coll) -> In b coll ->
  Booking._id b' = Booking._id b -> g b' = g b ->
  map g (Booking.replace b' coll) = map g coll.
Proof.
  intros N Hin Hid Hg. unfold Booking.replace. rewrite map_map.
  apply map_ext_in. intros x Hx.
  destruct (ObjectId.eqb (Booking._id x) (Booking._id b')) eqn:E; [|reflexivity].
  apply ObjectId_eqb_eq in E. rewrite Hid in E.
  now rewrite (NoDup_map_injective Booking._id coll x b N Hx Hin E).
Qed.

Lemma effect_distinct (st st' : Store) :
  Api.Effect st st' -> Api.distinct st -> Api.distinct st'.
Proof.
  intros Eff (No & Nn & Ho & Nb & Nm & Hb).
  destruct Eff as [->|o o' -> Hin Hid Hnum _ _
                  |o o' -> Hin _ Hid Hnum
                  |b b' -> Hin Hid Hnum _ _
                  |b b' -> Hin _ Hid Hnum];
    unfold Api.distinct; simpl.
  - auto 10.
  - repeat split; auto.
    + now rewrite (order_replace_map Order._id o o' (orders st) No Hin Hid Hid).
    + now rewrite (order_replace_map Order.orderNumber o o' (orders st) No Hin Hid Hnum).
    + intros x Hx. apply order_replace_In in Hx as [->|Hx]; auto.
      rewrite Hnum. auto.
  - repeat split; auto.
    + now rewrite (order_replace_map Order._id o o' (orders st) No Hin Hid Hid).
    + now rewrite (order_replace_map Order.orderNumber o o' (orders st) No Hin Hid Hnum).
    + intros x Hx. apply order_replace_In in Hx as [->|Hx]; auto.
      rewrite Hnum. auto.
  - repeat split; auto.
    + now rewrite (booking_replace_map Booking._id b b' (bookings st) Nb Hin Hid Hid).
    + now rewrite (booking_replace_map Booking.bookingNumber b b' (bookings st)
                     Nb Hin Hid Hnum).
    + intros x Hx. apply booking_replace_In in Hx as [->|Hx]; auto.
      rewrite Hnum. auto.
  - repeat split; auto.
    + now rewrite (booking_replace_map Booking._id b b' (bookings st) Nb Hin Hid Hid).
    + now rewrite (booking_replace_map Booking.bookingNumber b b' (bookings st)
                     Nb Hin Hid Hnum).
    + intros x Hx. apply booking_replace_In in Hx as [->|Hx]; auto.
      rewrite Hnum. auto.
Qed.

Lemma effect_untouched (st st' : Store) :
  Api.Effect st st' -> Api.untouched st -> Api.untouched st'.
Proof.
  intros Eff [Uo Ub].
  destruct Eff as [->|o o' -> Hin _ _ Hs Hr
                  |o o' -> Hin Hs _ _
                  |b b' -> Hin _ _ Hs Hr
                  |b b' -> Hin Hs _ _];
    unfold Api.untouched; simpl.
  - auto.
  - split; [|exact Ub]. intros x Hx.
    apply order_replace_In in Hx as [->|Hx]; auto.
    split; [auto|]. rewrite Hr. now apply Uo.
  - destruct (Uo o Hin) as [[E|E] _]; congruence.
  - split; [exact Uo|]. intros x Hx.
    apply booking_replace_In in Hx as [->|Hx]; auto.
    split; [auto|]. rewrite Hr. now apply Ub.
  - destruct (Ub b Hin) as [[E|E] _]; congruence.
Qed.

(** X11. Identifiers and numbers stay distinct.  A request served by either
    router takes a store in which every order and every booking has its
    number and no two documents of a collection share an [_id] or a number
    to a store of the same kind; so every store the two routers reach from
    empty collections is of that kind. *)
Theorem documents_stay_distinct (H : Host) :
  (forall st st', Api.step H st st' -> Api.distinct st -> Api.distinct st')
  /\ (forall st, Api.reachable H st -> Api.distinct st).
Proof.
  assert (Step : forall st st', Api.step H st st' -> Api.distinct st ->
                                Api.distinct st').
  { intros st st' S. apply effect_distinct. now apply step_effect with (H := H). }
  split; [exact Step|].
  induction 1 as [st Eo Eb|st st' _ IH S].
  - unfold Api.distinct. rewrite Eo, Eb. simpl.
    repeat split; try constructor; intros x [].
  - exact (Step st st' S IH).
Qed.

(** X12. Nothing in the two routers completes a booking or delivers an order.
    In every store they reach from empty collections each order and each
    booking is pending or cancelled and has no rating; and on such a store
    the two rating routes never succeed, whatever the request: a booking has
    to be completed, and an order delivered, by writing to the database
    past the two routers before it can be rated. *)
Theorem routers_never_complete (H : Host) :
  (forall st, Api.reachable H st -> Api.untouched st)
  /\ (forall st, Api.untouched st ->
        forall env user id r1 r2 r3 comment,
          status (fst (rateBooking env user id r1 r2 r3 comment st)) <> 200
          /\ snd (rateBooking env user id r1 r2 r3 comment st) = st
          /\ Reply.succeeded (fst (rateOrder env user id r1 r2 r3 comment st)) = false
          /\ snd (rateOrder env user id r1 r2 r3 comment st) = st).
Proof.
  split.
  - induction 1 as [st Eo Eb|st st' _ IH S].
    + unfold Api.untouched. rewrite Eo, Eb. split; intros x [].
    + apply effect_untouched with (st := st); [|exact IH].
      now apply step_effect with (H := H).
  - intros st [Uo Ub] env user id r1 r2 r3 comment.
    assert (Hb : status (fst (rateBooking env user id r1 r2 r3 comment st)) <> 200).
    { intros S.
      destruct (rateBooking_succeeded env user id r1 r2 r3 comment st S)
        as (_ & _ & _ & _ & b & F & C).
      apply find_some in F as [Hin _].
      destruct (Ub b Hin) as [[E|E] _]; congruence. }
    assert (Ho : Reply.succeeded (fst (rateOrder env user id r1 r2 r3 comment st))
                 = false).
    { destruct (Reply.succeeded _) eqn:S; [|reflexivity].
      destruct (rateOrder_succeeded env user id r1 r2 r3 comment st S)
        as (_ & _ & _ & _ & o & F & C).
      apply find_some in F as [Hin _].
      destruct (Uo o Hin) as [[E|E] _]; congruence. }
    split; [exact Hb|]. split; [|split; [exact Ho|now apply respond_failed]].
    revert Hb. unfold rateBooking.
    destruct (isNil _); simpl; [|reflexivity].
    destruct (findOwned _ _ _) as [b|]; simpl; [|reflexivity].
    destruct (String.eqb _ _); simpl; [|reflexivity].
    intros S. now destruct S.
Qed.

(** X13. The two routers keep to their own collection.  A request never changes
    the meals or the health professionals, and never the orders and the
    bookings both; the documents of a collection keep their place and their
    [_id], and the only change of length is the one document a successful
    create appends. *)
Theorem routers_keep_to_their_collection (H : Host) :
  forall st st',
    Api.step H st st' ->
    meals st' = meals st
    /\ professionals st' = professionals st
    /\ (orders st' = orders st \/ bookings st' = bookings st)
    /\ (exists added, map Order._id (orders st')
                      = (map Order._id (orders st) ++ added)%list
                      /\ (List.length added <= 1)%nat)
    /\ (exists added, map Booking._id (bookings st')
                      = (map Booking._id (bookings st) ++ added)%list
                      /\ (List.length added <= 1)%nat).
Proof.
  intros st st' S. apply step_effect in S.
  assert (Ro : forall o coll, map Order._id (Order.replace o coll)
                              = map Order._id coll).
  { intros o coll. unfold Order.replace. rewrite map_map. apply map_ext.
    intros x. destruct (ObjectId.eqb _ _) eqn:E; [|reflexivity].
    apply ObjectId_eqb_eq in E. now symmetry. }
  assert (Rb : forall b coll, map Booking._id (Booking.replace b coll)
                              = map Booking._id coll).
  { intros b coll. unfold Booking.replace. rewrite map_map. apply map_ext.
    intros x. destruct (ObjectId.eqb _ _) eqn:E; [|reflexivity].
    apply ObjectId_eqb_eq in E. now symmetry. }
  assert (Same : forall {A : Type} (l : list A),
             exists added, l = (l ++ added)%list /\ (List.length added <= 1)%nat).
  { intros A l. exists []. rewrite app_nil_r. simpl. split; [reflexivity|lia]. }
  destruct S as [->|o o' -> _ _ _ _ _|o o' -> _ _ _ _
                |b b' -> _ _ _ _ _|b b' -> _ _ _ _]; simpl;
    (split; [reflexivity|]); (split; [reflexivity|]); (split; [auto|]);
    try rewrite Ro; try rewrite Rb; split; apply Same.
Qed.

(** ** The weekday of the present day and of the appointment *)

Lemma orders_step_frame (H : Host) :
  (forall env user req st,
      bookings (snd (createOrder H env user req st)) = bookings st
      /\ professionals (snd (createOrder H env user req st)) = professionals st)
  /\ (forall env user id reason st,
        bookings (snd (cancelOrder env user id reason st)) = bookings st
        /\ professionals (snd (cancelOrder env user id reason st))
           = professionals st)
  /\ (forall env user id r1 r2 r3 comment st,
        bookings (snd (rateOrder env user id r1 r2 r3 comment st)) = bookings st
        /\ professionals (snd (rateOrder env user id r1 r2 r3 comment st))
           = professionals st).
Proof.
  split; [|split].
  - intros env user req st.
    destruct (createOrder_never_created H env user req st) as (_ & _ & ->).
    auto.
  - intros env user id reason st. unfold cancelOrder.
    destruct (isNil _); simpl; [|auto].
    destruct (OrdersRoute.findOwned _ _ _) as [o|]; simpl; [|auto].
    destruct (Order.canBeCancelled o); simpl; auto.
    unfold Order.save. destruct (negb _ || _); simpl; auto.
  - intros env user id r1 r2 r3 comment st. unfold rateOrder.
    destruct (isNil _); simpl; [|auto].
    destruct (OrdersRoute.findOwned _ _ _) as [o|]; simpl; [|auto].
    destruct (String.eqb _ _); simpl; auto.
Qed.

(** X15. On a host that follows ECMA-402 the bookings router cannot create a
    booking.  With professionals whose availability names days of the
    schema's enumeration, every create request is answered with an error
    and writes nothing: a valid appointment instant makes the weekday
    computation raise (lowercase is no weekday style), an invalid one is
    rendered "Invalid Date", a day no professional is available on.  So the
    bookings collection, once empty, stays empty whatever requests the two
    routers serve, and no cancel or rate request for a booking ever
    succeeds. *)
Theorem no_booking_on_ecma402 (H : Host) :
  Ecma402 H ->
  (forall env user req st,
      (forall p a, In p (professionals st) ->
                   In a (HealthProfessional.availability p) ->
                   In (Availability.day a) HealthProfessional.days) ->
      status (fst (createBooking H env user req st)) <> 201
      /\ snd (createBooking H env user req st) = st)
  /\ (forall st,
        Api.reachable H st ->
        (forall p a, In p (professionals st) ->
                     In a (HealthProfessional.availability p) ->
                     In (Availability.day a) HealthProfessional.days) ->
        bookings st = []
        /\ forall env user id reason r1 r2 r3 comment,
             status (fst (cancelBooking env user id reason st)) <> 200
             /\ status (fst (rateBooking env user id r1 r2 r3 comment st)) <> 200).
Proof.
  intros [Hinv Hrange].
  assert (Create : forall env user req st,
             (forall p a, In p (professionals st) ->
                          In a (HealthProfessional.availability p) ->
                          In (Availability.day a) HealthProfessional.days) ->
             status (fst (createBooking H env user req st)) <> 201).
  { intros env user req st _. apply createBooking_never_created. }
  split.
  - intros env user req st Hdays. split; [now apply Create|].
    apply createBooking_failure_frame. now apply Create.
  - intros st R.
    assert (Empty : (forall p a, In p (professionals st) ->
                                 In a (HealthProfessional.availability p) ->
                                 In (Availability.day a) HealthProfessional.days) ->
                    bookings st = []).
    { induction R as [st Eo Eb|st st' R IH S]; [intros _; exact Eb|].
      destruct (orders_step_frame H) as (Fc & Fx & Fr).
      destruct S as [env user req s|env user id reason s
                    |env user id r1 r2 r3 comment s
                    |user number s|env user req s|env user id reason s
                    |env user id r1 r2 r3 comment s]; intros Hdays.
      - destruct (Fc env user req s) as [-> Ep]. rewrite Ep in Hdays. auto.
      - destruct (Fx env user id reason s) as [-> Ep]. rewrite Ep in Hdays. auto.
      - destruct (Fr env user id r1 r2 r3 comment s) as [-> Ep].
        rewrite Ep in Hdays. auto.
      - assert (Et : snd (trackOrder user number s) = s).
        { unfold trackOrder. destruct (isNil _); simpl; [|reflexivity].
          destruct (findByNumber _ _ _); reflexivity. }
        rewrite Et in *. auto.
      - assert (Ef : snd (createBooking H env user req s) = s)
          by apply createBooking_never_created.
        rewrite Ef in *. auto.
      - assert (Ef : snd (cancelBooking env user id reason s) = s
                     \/ exists coll, snd (cancelBooking env user id reason s)
                                     = set_bookings coll s
                                     /\ findOwned id user (bookings s) <> None).
        { unfold cancelBooking. destruct (isNil _); simpl; [|now left].
          destruct (findOwned _ _ _) as [b|]; simpl; [|now left].
          destruct (Booking.canBeCancelled env b); simpl; [|now left].
          right. eexists. split; [reflexivity|discriminate]. }
        destruct Ef as [Ef|(coll & Ef & Hf)].
        + rewrite Ef in *. auto.
        + rewrite Ef in Hdays. simpl in Hdays. rewrite (IH Hdays) in Hf.
          now destruct Hf.
      - assert (Ef : snd (rateBooking env user id r1 r2 r3 comment s) = s
                     \/ exists coll, snd (rateBooking env user id r1 r2 r3 comment s)
                                     = set_bookings coll s
                                     /\ findOwned id user (bookings s) <> None).
        { unfold rateBooking. destruct (isNil _); simpl; [|now left].
          destruct (findOwned _ _ _) as [b|]; simpl; [|now left].
          destruct (String.eqb _ _); simpl; [|now left].
          right. eexists. split; [reflexivity|discriminate]. }
        destruct Ef as [Ef|(coll & Ef & Hf)].
        + rewrite Ef in *. auto.
        + rewrite Ef in Hdays. simpl in Hdays. rewrite (IH Hdays) in Hf.
          now destruct Hf. }
    intros Hdays. split; [now apply Empty|].
    intros env user id reason r1 r2 r3 comment. split.
    + intros S. destruct (cancelBooking_succeeded env user id reason st S)
        as (b & _ & F & _). rewrite (Empty Hdays) in F. discriminate.
    + intros S. destruct (rateBooking_succeeded env user id r1 r2 r3 comment st S)
        as (_ & _ & _ & _ & b & F & _). rewrite (Empty Hdays) in F. discriminate.
Qed.

(** X16. On a host that follows ECMA-402, [getNextAvailableSlot] returns
    nothing: the weekday of the present day is asked for in the style
    lowercase, and the call raises a RangeError whatever the availability of
    the professional and whatever the time of day. *)
Theorem next_slot_raises (H : Host) :
  Ecma402 H ->
  forall toLocaleTimeString env p,
    exists msg,
      HealthProfessional.getNextAvailableSlot H toLocaleTimeString env p
      = Throw (RangeError msg).
Proof.
  intros [_ Hrange] clock env p.
  destruct (Hrange (now env) "en-US" "lowercase" eq_refl) as [msg W].
  exists msg. unfold HealthProfessional.getNextAvailableSlot. now rewrite W.
Qed.

(** X17. The availability of a professional on a day is an interval of the day:
    available at two times, the professional is available at every time
    between them (that the host reads as a time). *)
Theorem availability_is_an_interval (H : Host) :
  forall p day t1 t2 t x1 x2 x,
    HealthProfessional.isAvailable H p day t1 = true ->
    HealthProfessional.isAvailable H p day t2 = true ->
    Date_parse H ("2000-01-01 " ++ t1) = TimeValue x1 ->
    Date_parse H ("2000-01-01 " ++ t2) = TimeValue x2 ->
    Date_parse H ("2000-01-01 " ++ t) = TimeValue x ->
    x1 <= x <= x2 ->
    HealthProfessional.isAvailable H p day t = true.
Proof.
  intros p day t1 t2 t x1 x2 x. unfold HealthProfessional.isAvailable.
  destruct (find _ _) as [a|]; [|discriminate].
  intros A1 A2 P1 P2 P Hx. rewrite P1 in A1. rewrite P2 in A2. rewrite P.
  unfold date_geb, date_leb in *.
  destruct (Date_parse H ("2000-01-01 " ++ Availability.startTime a)) as [|s];
    [discriminate|].
  destruct (Date_parse H ("2000-01-01 " ++ Availability.endTime a)) as [|e];
    [now rewrite andb_false_r in A1|].
  apply andb_true_iff in A1 as [S1 E1]. apply andb_true_iff in A2 as [S2 E2].
  apply Z.leb_le in S1, E1, S2, E2. apply andb_true_iff.
  split; apply Z.leb_le; lia.
Qed.

(** ** The next available slot *)

Lemma indexOf_days (x : string) :
  -1 <= HealthProfessional.indexOf x HealthProfessional.days <= 6.
Proof.
  unfold HealthProfessional.days, HealthProfessional.indexOf.
  repeat match goal with
         | |- context [String.eqb ?a x] => destruct (String.eqb a x)
         end; simpl; lia.
Qed.

Lemma nextDaySlot_none (p : HealthProfessional.t) (c : Z) (steps : list Z) :
  HealthProfessional.nextDaySlot p c steps = None ->
  forall i, In i steps ->
    HealthProfessional.openEntry p
      (nth (Z.to_nat (Z.rem (c + i) 7)) HealthProfessional.days "") = None.
Proof.
  induction steps as [|j steps IH]; cbn [HealthProfessional.nextDaySlot];
    intros E i Hi; [destruct Hi|].
  destruct (HealthProfessional.openEntry p _) eqn:O; [discriminate|].
  destruct Hi as [<-|Hi]; [exact O|exact (IH E i Hi)].
Qed.

Lemma nextDaySlot_some (p : HealthProfessional.t) (c : Z) (steps : list Z)
      (slot : HealthProfessional.Slot) :
  HealthProfessional.nextDaySlot p c steps = Some slot ->
  exists a,
    HealthProfessional.openEntry p (HealthProfessional.slotDay slot) = Some a
    /\ HealthProfessional.slotTime slot = Availability.startTime a.
Proof.
  induction steps as [|j steps IH]; cbn [HealthProfessional.nextDaySlot];
    intros E; [discriminate|].
  destruct (HealthProfessional.openEntry p (nth _ _ _)) as [a|] eqn:O;
    [|exact (IH E)].
  injection E as <-. exists a. split; [exact O|reflexivity].
Qed.

Lemma every_day_is_tried (c : Z) (d : string) :
  -1 <= c <= 6 -> In d HealthProfessional.days ->
  exists i, In i [1; 2; 3; 4; 5; 6; 7]
            /\ nth (Z.to_nat (Z.rem (c + i) 7)) HealthProfessional.days "" = d.
Proof.
  intros Hc Hd.
  assert (B : forallb
                (fun c =>
                   forallb
                     (fun d =>
                        existsb
                          (fun i =>
                             String.eqb
                               (nth (Z.to_nat (Z.rem (c + i) 7))
                                    HealthProfessional.days "") d)
                          [1; 2; 3; 4; 5; 6; 7])
                     HealthProfessional.days)
                [-1; 0; 1; 2; 3; 4; 5; 6] = true) by reflexivity.
  rewrite forallb_forall in B.
  assert (Hin : In c [-1; 0; 1; 2; 3; 4; 5; 6]) by (simpl; lia).
  specialize (B c Hin). rewrite forallb_forall in B. specialize (B d Hd).
  apply existsb_exists in B as (i & Hi & E). apply String.eqb_eq in E. eauto.
Qed.

Lemma openEntry_first (p : HealthProfessional.t) (day : string)
      (a : Availability.t) :
  HealthProfessional.openEntry p day = Some a
  <-> Spec.firstOpen (HealthProfessional.availability p) day a.
Proof.
  unfold HealthProfessional.openEntry, Spec.firstOpen. rewrite find_first.
  split; intros (before & after & E & Hb & Ha); exists before, after;
    (split; [exact E|]).
  - apply open_entry in Ha as [Hd Ho]. repeat split; auto.
    intros x Hx Hopen. apply open_entry in Hopen.
    rewrite (Hb x Hx) in Hopen. discriminate.
  - destruct Ha as [Hd Ho]. split; [|now apply open_entry].
    intros x Hx.
    destruct (String.eqb (Availability.day x) day && Availability.isAvailable x)
      eqn:Px; [|reflexivity].
    apply open_entry in Px. now destruct (Hb x Hx).
Qed.

(** X18. What [getNextAvailableSlot] answers on a host on which it returns.  A
    slot it returns is on a day for which the professional has an open
    availability entry, and its time is the start of the first such entry
    of the list, or, for the present day, the present time when that is not
    before the start and is before the end of that first entry (the times
    compared as strings).  It returns null only when the professional has
    no open entry for any of the seven days of the week. *)
Theorem next_slot_is_open (H : Host) :
  forall toLocaleTimeString env p,
    (forall slot,
        HealthProfessional.getNextAvailableSlot H toLocaleTimeString env p
        = Normal (Some slot) ->
        exists a,
          Spec.firstOpen (HealthProfessional.availability p)
            (HealthProfessional.slotDay slot) a
          /\ HealthProfessional.openEntry p (HealthProfessional.slotDay slot)
             = Some a
          /\ (HealthProfessional.slotTime slot = Availability.startTime a
              \/ (toLocaleDateString H (TimeValue (now env)) "en-US"
                    {| weekday := Some "lowercase" |}
                  = Normal (HealthProfessional.slotDay slot)
                  /\ toLocaleTimeString (now env)
                     = Normal (HealthProfessional.slotTime slot)
                  /\ String.ltb (HealthProfessional.slotTime slot)
                       (Availability.startTime a) = false
                  /\ String.ltb (HealthProfessional.slotTime slot)
                       (Availability.endTime a) = true)))
    /\ (HealthProfessional.getNextAvailableSlot H toLocaleTimeString env p
        = Normal None ->
        forall a, In a (HealthProfessional.availability p) ->
                  In (Availability.day a) HealthProfessional.days ->
                  Availability.isAvailable a = false).
Proof.
  intros clock env p. unfold HealthProfessional.getNextAvailableSlot.
  destruct (toLocaleDateString H _ _ _) as [currentDay|e]; [|split; discriminate].
  destruct (clock (now env)) as [currentTime|e]; [|split; discriminate].
  assert (Inj : forall x y : option HealthProfessional.Slot,
             @Normal (option HealthProfessional.Slot) x = Normal y -> x = y).
  { intros x y Exy. now injection Exy. }
  split.
  - intros slot E.
    destruct (HealthProfessional.openEntry p currentDay) as [a|] eqn:O.
    + destruct (String.ltb currentTime (Availability.endTime a)) eqn:Lend.
      * apply Inj in E. injection E as <-.
        cbn [HealthProfessional.slotDay HealthProfessional.slotTime].
        exists a. split; [now apply openEntry_first|]. split; [exact O|].
        destruct (String.ltb currentTime (Availability.startTime a)) eqn:Lstart;
          auto.
      * apply Inj in E. apply nextDaySlot_some in E as (a' & O' & Ht).
        exists a'. split; [now apply openEntry_first|]. auto.
    + apply Inj in E. apply nextDaySlot_some in E as (a' & O' & Ht).
      exists a'. split; [now apply openEntry_first|]. auto.
  - intros E a Hin Hday.
    assert (N : HealthProfessional.nextDaySlot p
                  (HealthProfessional.indexOf currentDay HealthProfessional.days)
                  [1; 2; 3; 4; 5; 6; 7] = None).
    { destruct (HealthProfessional.openEntry p currentDay) as [a0|];
        [destruct (String.ltb currentTime (Availability.endTime a0))|];
        try discriminate; now apply Inj in E. }
    destruct (every_day_is_tried _ _ (indexOf_days currentDay) Hday)
      as (i & Hi & Hnth).
    pose proof (nextDaySlot_none p _ _ N i Hi) as O. rewrite Hnth in O.
    apply find_none with (x := a) in O; [|exact Hin].
    rewrite String.eqb_refl in O. exact O.
Qed.

(** ** Routes *)

Lemma length_toLowerCase (s : string) :
  String.length (toLowerCase s) = String.length s.
Proof. induction s as [|c r IH]; simpl; [reflexivity|now rewrite IH]. Qed.

(** A segment without a percent sign is decoded to itself. *)
Lemma decode_plain (s : string) :
  forallb_string (fun c => negb (Ascii.eqb c "%")) s = true ->
  Express.decodeURIComponent s = Some s.
Proof.
  unfold Express.decodeURIComponent.
  induction s as [|c r IH]; cbn [Express.decodeFrom forallb_string];
    [reflexivity|].
  intros E. apply andb_true_iff in E as [Hc Hr].
  apply negb_true_iff in Hc. rewrite Hc, (IH Hr). reflexivity.
Qed.

Lemma lower_percent (c : ascii) :
  Ascii.eqb (toLowerAscii c) "%" = Ascii.eqb c "%".
Proof. destruct c as [[] [] [] [] [] [] [] []]; reflexivity. Qed.

Lemma plain_toLowerCase (s : string) :
  forallb_string (fun c => negb (Ascii.eqb c "%")) (toLowerCase s)
  = forallb_string (fun c => negb (Ascii.eqb c "%")) s.
Proof.
  induction s as [|c r IH]; simpl; [reflexivity|].
  now rewrite lower_percent, IH.
Qed.

Lemma upcoming_is_an_id (segs : list string) (params : list (string * string)) :
  Express.matchPath [Express.Literal "upcoming"] segs = Some params ->
  exists s, segs = [s] /\ String.length s = 8%nat
            /\ Express.matchPath [Express.Param "id"] segs = Some [("id", s)]
            /\ Express.decodeParams [("id", s)] = Some [("id", s)].
Proof.
  destruct segs as [|s [|s2 rest]]; cbn [Express.matchPath]; try discriminate.
  2:{ destruct (String.eqb _ _); discriminate. }
  destruct (String.eqb (toLowerCase s) (toLowerCase "upcoming")) eqn:E;
    [|discriminate].
  intros _. apply String.eqb_eq in E.
  assert (Hlen : String.length s = 8%nat).
  { rewrite <- length_toLowerCase, E. reflexivity. }
  exists s. split; [reflexivity|]. split; [exact Hlen|]. split.
  - destruct s; [discriminate|reflexivity].
  - cbn [Express.decodeParams]. rewrite decode_plain; [reflexivity|].
    rewrite <- plain_toLowerCase, E. reflexivity.
Qed.

(** X19. The route [GET /upcoming] of the bookings router is declared after
    [GET /:id], so it is never reached: no request at all is served by its
    handler.  A request for the upcoming bookings (any path the route
    [/upcoming] matches) is served by the handler of [GET /:id] with the
    word taken for the identifier, and the validation chain of that route
    reports it as an invalid booking ID. *)
Theorem upcoming_route_is_shadowed :
  (forall m url h params,
      Express.serve BookingsRoute.routes m url = Some (h, params) ->
      h <> GetUpcoming)
  /\ (forall url segs,
        Express.segments url = Some segs ->
        Express.matchPath [Express.Literal "upcoming"] segs = Some [] ->
        exists id,
          Express.serve BookingsRoute.routes Express.GET url
          = Some (GetBooking, [("id", id)])
          /\ validateGet id = ["Invalid booking ID"]).
Proof.
  split.
  - intros m url h params. unfold Express.serve.
    destruct (Express.segments url) as [segs|]; [|discriminate].
    destruct (Express.matchPath [Express.Literal "upcoming"] segs)
      as [captures|] eqn:U.
    + destruct (upcoming_is_an_id _ _ U) as (s & -> & _ & M & D).
      unfold BookingsRoute.routes, Express.dispatch, Express.matchLayer.
      cbn [Express.method Express.path Express.handler].
      rewrite M, D. cbn [Express.matchPath].
      destruct m; cbn [Express.method_eqb];
        destruct (notEmpty s); cbn [option_map];
        destruct (String.eqb (toLowerCase s) (toLowerCase "upcoming"));
        cbn [Express.decodeParams];
        intros E; try discriminate;
        try (injection E as <- _; discriminate).
    + unfold BookingsRoute.routes, Express.dispatch, Express.matchLayer.
      cbn [Express.method Express.path Express.handler].
      rewrite U.
      repeat match goal with
             | |- context [Express.matchPath ?p segs] =>
                 destruct (Express.matchPath p segs) eqn:?
             | |- context [Express.decodeParams ?c] =>
                 destruct (Express.decodeParams c) eqn:?
             end;
        destruct m; cbn [Express.method_eqb];
        intros E; try discriminate;
        try (injection E as <- _; discriminate).
  - intros url segs Hsegs Hmatch. unfold Express.serve. rewrite Hsegs.
    destruct (upcoming_is_an_id _ _ Hmatch) as (s & -> & Hlen & M & D).
    exists s. split.
    + unfold BookingsRoute.routes, Express.dispatch, Express.matchLayer.
      cbn [Express.method Express.path Express.handler Express.method_eqb].
      rewrite M, D. reflexivity.
    + unfold validateGet, ObjectId.isMongoId. rewrite Hlen. reflexivity.
Qed.

Lemma splitSlash_plain (s : string) :
  forallb_string (fun c => negb (Ascii.eqb c "/")) s = true ->
  Express.splitSlash s = [s].
Proof.
  induction s as [|c r IH]; simpl; [reflexivity|].
  intros E. apply andb_true_iff in E as [Hc Hr].
  apply negb_true_iff in Hc. rewrite Hc, (IH Hr). reflexivity.
Qed.

(** X20. In the orders router every declared route is reached by some request,
    the tracking route among them: it has two segments and the route
    [GET /:id] declared before it only one.  A request for
    [/tracking/<number>], the number not empty and without a slash, is
    served by the tracking handler with the decoded number as its
    parameter: the number itself when it has no percent sign, [MH A] for
    [MH%20A]; when the number cannot be decoded no handler serves the
    request. *)
Theorem orders_routes_all_served :
  (forall r, In r OrdersRoute.routes ->
     exists url params,
       Express.serve OrdersRoute.routes (Express.method r) url
       = Some (Express.handler r, params))
  /\ (forall number,
        notEmpty number = true ->
        forallb_string (fun c => negb (Ascii.eqb c "/")) number = true ->
        Express.serve OrdersRoute.routes Express.GET ("/tracking/" ++ number)
        = match Express.decodeURIComponent number with
          | Some decoded => Some (GetTracking, [("orderNumber", decoded)])
          | None => None
          end)
  /\ (forall number,
        forallb_string (fun c => negb (Ascii.eqb c "%")) number = true ->
        Express.decodeURIComponent number = Some number)
  /\ Express.serve OrdersRoute.routes Express.GET "/tracking/MH%20A"
     = Some (GetTracking, [("orderNumber", "MH A")])
  /\ Express.serve OrdersRoute.routes Express.GET "/tracking/MH%2" = None.
Proof.
  split; [|split; [|split; [|split]]].
  - intros r [<-|[<-|[<-|[<-|[<-|[<-|[]]]]]]].
    + exists "/", []. reflexivity.
    + exists "/", []. reflexivity.
    + exists "/64b7f0c2a1d3e4f5a6b7c8f6", [("id", "64b7f0c2a1d3e4f5a6b7c8f6")].
      reflexivity.
    + exists "/64b7f0c2a1d3e4f5a6b7c8f6/cancel",
        [("id", "64b7f0c2a1d3e4f5a6b7c8f6")]. reflexivity.
    + exists "/64b7f0c2a1d3e4f5a6b7c8f6/rate",
        [("id", "64b7f0c2a1d3e4f5a6b7c8f6")]. reflexivity.
    + exists "/tracking/MH300101042", [("orderNumber", "MH300101042")].
      reflexivity.
  - intros number N Hplain. unfold Express.serve.
    assert (Hsegs : Express.segments ("/tracking/" ++ number)
                    = Some ["tracking"; number]).
    { simpl. rewrite (splitSlash_plain number Hplain).
      unfold Express.dropTrailingEmpty. simpl.
      destruct number; [discriminate|reflexivity]. }
    rewrite Hsegs. unfold OrdersRoute.routes, Express.dispatch, Express.matchLayer.
    cbn [Express.method Express.path Express.handler Express.method_eqb
         Express.matchPath].
    rewrite N.
    change (notEmpty "tracking") with true.
    destruct (String.eqb (toLowerCase number) (toLowerCase "cancel"));
      destruct (String.eqb (toLowerCase number) (toLowerCase "rate"));
      cbn [option_map];
      change (Express.decodeParams [("id", "tracking")])
        with (Some [("id", "tracking")]);
      cbn iota;
      change (String.eqb (toLowerCase "tracking") (toLowerCase "tracking"))
        with true;
      cbn [Express.decodeParams];
      destruct (Express.decodeURIComponent number); reflexivity.
  - exact decode_plain.
  - reflexivity.
  - reflexivity.
Qed.

(** ** The form of a reference number *)

Lemma length_append (a b : string) :
  String.length (a ++ b) = (String.length a + String.length b)%nat.
Proof. induction a as [|c a IH]; simpl; [reflexivity|now rewrite IH]. Qed.

Lemma forallb_string_append (p : ascii -> bool) (a b : string) :
  forallb_string p (a ++ b) = forallb_string p a && forallb_string p b.
Proof.
  induction a as [|c a IH]; simpl; [reflexivity|].
  now rewrite IH, andb_assoc.
Qed.

Lemma length_substring (s : string) (i n : nat) :
  (i + n <= String.length s)%nat -> String.length (substring i n s) = n.
Proof.
  revert i n. induction s as [|c s IH]; intros i n Hle; simpl in Hle.
  - assert (i = 0%nat /\ n = 0%nat) as [-> ->] by lia. reflexivity.
  - destruct i as [|i]; simpl.
    + destruct n as [|n]; simpl; [reflexivity|]. rewrite IH; [reflexivity|lia].
    + apply IH. lia.
Qed.

Lemma forallb_string_substring (p : ascii -> bool) (s : string) (i n : nat) :
  forallb_string p s = true -> forallb_string p (substring i n s) = true.
Proof.
  revert i n. induction s as [|c s IH]; intros i n E; simpl in E.
  - destruct i, n; reflexivity.
  - apply andb_true_iff in E as [Hc Hs]. destruct i as [|i]; simpl.
    + destruct n as [|n]; simpl; [reflexivity|]. rewrite Hc. now apply IH.
    + now apply IH.
Qed.

Lemma digits_of_uint (u : Decimal.uint) :
  forallb_string isDigit (NilEmpty.string_of_uint u) = true.
Proof. induction u; simpl; auto. Qed.

Lemma decimal_digits (n : Z) : forallb_string isDigit (decimal n) = true.
Proof.
  unfold decimal, NilZero.string_of_uint.
  destruct (N.to_uint (Z.to_N n)) eqn:E; try reflexivity;
    rewrite <- E; apply digits_of_uint.
Qed.

Lemma decimal_two_digits (n : Z) :
  10 <= n -> (2 <= String.length (decimal n))%nat.
Proof.
  intros Hn. unfold decimal.
  pose proof (DecimalN.Unsigned.of_to (Z.to_N n)) as E.
  destruct (N.to_uint (Z.to_N n)) as [|u|u|u|u|u|u|u|u|u|u];
    try (destruct u; simpl; try lia;
         assert (Hbig : (10 <= Z.to_N n)%N) by lia;
         rewrite <- E in Hbig; vm_compute in Hbig; now destruct Hbig).
  assert (Hbig : (10 <= Z.to_N n)%N) by lia.
  rewrite <- E in Hbig. vm_compute in Hbig. now destruct Hbig.
Qed.

(** The calendar date of a day number at or after the epoch: a year of at
    least two digits, a month from 1 to 12 and a day from 1 to 31. *)
Lemma civil_date_bounds (z : Z) :
  0 <= z ->
  10 <= fst (fst (civilFromDays z))
  /\ 1 <= snd (fst (civilFromDays z)) <= 12
  /\ 1 <= snd (civilFromDays z) <= 31.
Proof.
  intros Hz. unfold civilFromDays.
  assert (Hera : 4 <= (z + 719468) / 146097).
  { apply Z.div_le_lower_bound; lia. }
  pose proof (Z.mod_pos_bound (z + 719468) 146097 eq_refl) as Hdoe.
  rewrite Z.mod_eq in Hdoe by lia.
  replace (146097 * ((z + 719468) / 146097))
    with ((z + 719468) / 146097 * 146097) in Hdoe by lia.
  set (era := (z + 719468) / 146097) in *.
  set (doe := z + 719468 - era * 146097) in *.
  clearbody doe era. cbv zeta. cbn [fst snd].
  assert (B : forallb
                (fun a =>
                   forallb
                     (fun b =>
                        let doe := Z.of_nat a * 400 + Z.of_nat b in
                        let yoe :=
                          (doe - doe / 1460 + doe / 36524 - doe / 146096) / 365 in
                        let doy := doe - (365 * yoe + yoe / 4 - yoe / 100) in
                        let mp := (5 * doy + 2) / 153 in
                        let d := doy - (153 * mp + 2) / 5 + 1 in
                        let m := if mp <? 10 then mp + 3 else mp - 9 in
                        (146097 <=? doe)
                        || ((0 <=? yoe) && (1 <=? m) && (m <=? 12) && (1 <=? d)
                            && (d <=? 31)))
                     (seq 0 400))
                (seq 0 366) = true).
  { vm_compute. reflexivity. }
  rewrite forallb_forall in B.
  assert (Ha : In (Z.to_nat (doe / 400)) (seq 0 366)).
  { apply in_seq.
    assert (0 <= doe / 400 < 366).
    { split; [apply Z.div_pos; lia|apply Z.div_lt_upper_bound; lia]. }
    lia. }
  specialize (B _ Ha). rewrite forallb_forall in B.
  assert (Hb : In (Z.to_nat (doe mod 400)) (seq 0 400)).
  { apply in_seq. pose proof (Z.mod_pos_bound doe 400 eq_refl). lia. }
  specialize (B _ Hb). cbv zeta in B.
  assert (Edoe : Z.of_nat (Z.to_nat (doe / 400)) * 400
                 + Z.of_nat (Z.to_nat (doe mod 400)) = doe).
  { pose proof (Z.mod_pos_bound doe 400 eq_refl).
    assert (0 <= doe / 400) by (apply Z.div_pos; lia).
    rewrite !Z2Nat.id by lia. pose proof (Z.div_mod doe 400). lia. }
  rewrite Edoe in B.
  apply orb_true_iff in B as [B|B]; [apply Z.leb_le in B; lia|].
  repeat (apply andb_true_iff in B; destruct B as [B ?]).
  repeat match goal with
         | Hb : (_ <=? _) = true |- _ => apply Z.leb_le in Hb
         end.
  destruct (_ <=? 2); lia.
Qed.

(** X21. The number a new booking or order is given is the prefix followed by
    exactly nine decimal digits, for every present time at or after the
    epoch (in local time) and every random draw from 0 to 999: leading
    zeros are kept, so that all numbers of a prefix have the same length. *)
Theorem reference_number_format (H : Host) (prefix : string) (env : Env) :
  0 <= now env + LocalTZA H ->
  0 <= random1000 env < 1000 ->
  exists digits,
    referenceNumber H prefix env = prefix ++ digits
    /\ String.length digits = 9%nat
    /\ forallb_string isDigit digits = true.
Proof.
  intros Hnow Hrand. unfold referenceNumber.
  assert (Hday : 0 <= localDay (LocalTZA H) (now env)).
  { unfold localDay, msPerDay. apply Z.div_pos; lia. }
  pose proof (civil_date_bounds _ Hday) as (Hy & Hm & Hd).
  destruct (civilFromDays (localDay (LocalTZA H) (now env))) as [[y m] d].
  cbn [fst snd] in Hy, Hm, Hd.
  assert (Two : forall n, 1 <= n <= 31 ->
                  String.length (padStart 2 "0" (decimal n)) = 2%nat
                  /\ forallb_string isDigit (padStart 2 "0" (decimal n)) = true).
  { intros n Hn.
    assert (B : forallb
                  (fun n =>
                     (String.length (padStart 2 "0" (decimal n)) =? 2)%nat
                     && forallb_string isDigit (padStart 2 "0" (decimal n)))
                  (map Z.of_nat (seq 1 31)) = true) by (vm_compute; reflexivity).
    rewrite forallb_forall in B.
    assert (Hin : In n (map Z.of_nat (seq 1 31))).
    { apply in_map_iff. exists (Z.to_nat n). split; [lia|]. apply in_seq. lia. }
    specialize (B n Hin). apply andb_true_iff in B as [B1 B2].
    apply Nat.eqb_eq in B1. auto. }
  assert (Three : String.length (padStart 3 "0" (decimal (random1000 env))) = 3%nat
                  /\ forallb_string isDigit
                       (padStart 3 "0" (decimal (random1000 env))) = true).
  { assert (B : forallb
                  (fun n =>
                     (String.length (padStart 3 "0" (decimal n)) =? 3)%nat
                     && forallb_string isDigit (padStart 3 "0" (decimal n)))
                  (map Z.of_nat (seq 0 1000)) = true) by (vm_compute; reflexivity).
    rewrite forallb_forall in B.
    assert (Hin : In (random1000 env) (map Z.of_nat (seq 0 1000))).
    { apply in_map_iff. exists (Z.to_nat (random1000 env)). split; [lia|].
      apply in_seq. lia. }
    specialize (B _ Hin). apply andb_true_iff in B as [B1 B2].
    apply Nat.eqb_eq in B1. auto. }
  assert (Year : String.length (sliceLast 2 (decimal y)) = 2%nat
                 /\ forallb_string isDigit (sliceLast 2 (decimal y)) = true).
  { pose proof (decimal_two_digits y Hy) as Hlen. unfold sliceLast. split.
    - rewrite length_substring; lia.
    - apply forallb_string_substring, decimal_digits. }
  destruct (Two m ltac:(lia)) as [Lm Dm]. destruct (Two d Hd) as [Ld Dd].
  destruct Three as [Lr Dr]. destruct Year as [Ly Dy].
  eexists. split; [reflexivity|].
  rewrite !length_append, !forallb_string_append, Ly, Lm, Ld, Lr, Dy, Dm, Dd, Dr.
  split; reflexivity.
Qed.

(** ** What validation lets through *)

Lemma check_nil (ok : bool) (msg : string) : check ok msg = [] -> ok = true.
Proof. destruct ok; [reflexivity|discriminate]. Qed.

Lemma flat_map_check_nil {A : Type} (p : A -> bool) (msg : string) (l : list A) :
  flat_map (fun x => check (p x) msg) l = [] -> Forall (fun x => p x = true) l.
Proof.
  induction l as [|a l IH]; simpl; intros E; [constructor|].
  apply app_eq_nil in E as [Ea El]. constructor; [now apply check_nil in Ea|auto].
Qed.

(** X22. The order the create handler builds has passed the validation
    chain: it has at least one line, every line has a whole quantity of at
    least 1, the street, city, county, contact name and contact phone are
    not empty, and the payment method is one of the four of the schema. *)
Theorem built_order_is_validated :
  forall env user req st o,
    buildOrder env user req st = Next o ->
    Order.items o <> []
    /\ Forall (fun line => isInt 1%float None (Order.quantity line) = true)
         (Order.items o)
    /\ notEmpty (Order.street (Order.deliveryAddress o)) = true
    /\ notEmpty (Order.city (Order.deliveryAddress o)) = true
    /\ notEmpty (Order.county (Order.deliveryAddress o)) = true
    /\ notEmpty (Order.contactName (Order.contactInfo o)) = true
    /\ notEmpty (Order.phone (Order.contactInfo o)) = true
    /\ In (Order.paymentMethod o)
         ["mpesa"; "cash_on_delivery"; "bank_transfer"; "credit_card"].
Proof.
  intros env user req st o B.
  destruct (buildOrder_built env user req st o B) as (lines & V & _ & M & ->).
  apply mapM_Forall2 in M.
  unfold OrdersRoute.validateCreate in V.
  repeat match type of V with
         | (_ ++ _)%list = [] => apply app_eq_nil in V as [? V]
         end.
  repeat match goal with
         | Hc : check _ _ = [] |- _ => apply check_nil in Hc
         end.
  simpl.
  split.
  { intros ->. inversion M as [E0|]. rewrite <- E0 in *. discriminate. }
  split.
  { match goal with
    | Hf : flat_map (fun item => check (isInt _ _ (quantity item)) _) _ = [] |- _ =>
        apply flat_map_check_nil in Hf; rename Hf into Hquant
    end.
    clear - M Hquant. revert Hquant.
    induction M as [|item line l l' E _ IH]; intros Hquant; [constructor|].
    inversion Hquant as [|? ? Hhd Htl]; subst. constructor; [|exact (IH Htl)].
    destruct (orderItem_snapshot _ _ _ _ E) as [Hq _]. rewrite Hq. exact Hhd. }
  repeat (split; [assumption|]).
  unfold inList in V. apply existsb_exists in V as (x & Hx & Ex).
  apply String.eqb_eq in Ex. now subst x.
Qed.

(** ** The window of a cancellation *)

(** X24. What the cancel handler of the bookings router measures.  A
    cancellation request of the owner for a booking of theirs succeeds
    exactly when the status of the booking is pending or confirmed and the
    stored appointment date, the midnight in UTC of the day of the
    appointment, is more than 24 hours after the present time; with the
    stored date less than 24 hours away the request fails with the 400
    response of an invalid state whatever the status, and every failure
    leaves the store, the booking with it, as it was. *)
Theorem booking_cancel_window :
  forall env user id reason st b,
    ObjectId.isMongoId id = true ->
    findOwned id user (bookings st) = Some b ->
    let r := cancelBooking env user id reason st in
    (status (fst r) = 200 <->
     (Booking.status b = Booking.pending \/ Booking.status b = Booking.confirmed)
     /\ 24 * msPerHour < Booking.appointmentDate b - now env)
    /\ (Booking.appointmentDate b - now env < 24 * msPerHour ->
        r = (cannotCancel, st))
    /\ (status (fst r) <> 200 -> r = (cannotCancel, st)).
Proof.
  intros env user id reason st b Hid Hfind r. subst r.
  destruct (Booking.canBeCancelled env b) eqn:Hcan.
  - rewrite (cancelBooking_done env user id reason st b Hid Hfind Hcan).
    apply canBeCancelled_spec in Hcan. destruct Hcan as [Hs Hd].
    unfold msPerHour in *. simpl. repeat split; try tauto.
    all: intros Hlt; try lia; now contradiction Hlt.
  - rewrite (cancelBooking_refused env user id reason st b Hid Hfind Hcan). simpl.
    repeat split; try reflexivity; try discriminate.
    all: intros Hc; apply canBeCancelled_spec in Hc; congruence.
Qed.

(** ** Instances *)

Lemma failed_request_writes_nothing_witness :
  (success (fst (createOrder node env userId withRetired kitchen)) = false
   /\ snd (createOrder node env userId withRetired kitchen) = kitchen)
  /\ (success (fst (cancelBooking eve userId bookingId None
                      (clinic doctor [appointment]))) = false
      /\ snd (cancelBooking eve userId bookingId None (clinic doctor [appointment]))
         = clinic doctor [appointment])
  /\ (Reply.succeeded
        (fst (rateOrder later userId newId 5%float 5%float 5%float None shop))
      = false
      /\ snd (rateOrder later userId newId 5%float 5%float 5%float None shop) = shop).
Proof.
  destruct (failed_request_writes_nothing node)
    as (Hcreate & _ & Hrate & _ & _ & Hcancel & _).
  split; [|split].
  - split; [reflexivity|]. apply Hcreate. reflexivity.
  - split; [reflexivity|]. apply Hcancel. reflexivity.
  - split; [reflexivity|]. apply Hrate. reflexivity.
Defined.

Lemma foreign_document_not_found_witness :
  findOwned bookingId userId (bookings (clinic doctor [appointment]))
  = Some appointment
  /\ cancelBooking env otherId bookingId None (clinic doctor [appointment])
     = (failure 404 "Booking not found", clinic doctor [appointment])
  /\ cancelOrder later otherId newId None shop
     = (failure 404 "Order not found", shop).
Proof.
  destruct foreign_document_not_found as (Hb & _ & Ho & _).
  split; [reflexivity|]. split.
  - apply Hb; [reflexivity|]. intros b [<-|[]] _. discriminate.
  - apply Ho; [reflexivity|]. intros o Hin _. vm_compute in Hin.
    destruct Hin as [<-|[]]. vm_compute. discriminate.
Defined.

Lemma second_cancel_refused_witness :
  status (fst (cancelBooking env userId bookingId None
                 (clinic doctor [appointment]))) = 200
  /\ cancelBooking later userId bookingId (Some "once more")
       (snd (cancelBooking env userId bookingId None (clinic doctor [appointment])))
     = (cannotCancel,
        snd (cancelBooking env userId bookingId None (clinic doctor [appointment])))
  /\ status (fst (cancelOrder later userId newId None shop)) = 200
  /\ cancelOrder later userId newId None
       (snd (cancelOrder later userId newId None shop))
     = (OrdersRoute.cannotCancel, snd (cancelOrder later userId newId None shop)).
Proof.
  destruct second_cancel_refused as [Hb Ho].
  split; [reflexivity|]. split; [apply Hb; reflexivity|].
  split; [reflexivity|]. apply Ho. reflexivity.
Defined.

Lemma booking_rating_recorded_witness :
  let st := clinic doctor [completedVisit] in
  status (fst (rateBooking later userId bookingId 5%float 4%float 4.5%float
                 (Some " very kind ") st))
  = 200
  /\ exists b,
       bookings (snd (rateBooking later userId bookingId 5%float 4%float 4.5%float
                        (Some " very kind ") st)) = [b]
       /\ Booking.rating b
          = Some {| Booking.professional := 5%float; Booking.service_ := 4%float;
                    Booking.overall := 4.5%float; Booking.comment := Some "very kind";
                    Booking.date := now later |}
       /\ Booking.status b = Booking.completed.
Proof.
  intros st.
  destruct (booking_rating_recorded later userId bookingId 5%float 4%float 4.5%float
              (Some " very kind ") st) as [Hiff Hdone].
  assert (S : status (fst (rateBooking later userId bookingId 5%float 4%float 4.5%float
                             (Some " very kind ") st)) = 200).
  { apply Hiff. repeat (split; [reflexivity|]).
    exists completedVisit. split; reflexivity. }
  split; [exact S|].
  destruct (Hdone completedVisit eq_refl S) as [E _]. rewrite E.
  eexists. split; [reflexivity|]. split; reflexivity.
Defined.

Lemma order_rating_recorded_witness :
  Reply.succeeded (fst (rateOrder later userId newId 5%float 4%float 4.5%float
                          None deliveredShop)) = true
  /\ exists o,
       OrdersRoute.findOwned newId userId (orders deliveredShop) = Some o
       /\ Order.orderStatus o = Order.delivered
       /\ rateOrder later userId newId 5%float 4%float 4.5%float None deliveredShop
          = (Reply.Sent 200 "Rating submitted successfully"
               (Some {| Order.food := 5%float; Order.delivery := 4%float;
                        Order.overall := 4.5%float; Order.comment := None;
                        Order.date := now later |}),
             set_orders
               (Order.replace
                  (Order.set_updatedAt (Some (now later))
                     (Order.set_rating
                        (Some {| Order.food := 5%float; Order.delivery := 4%float;
                                 Order.overall := 4.5%float; Order.comment := None;
                                 Order.date := now later |}) o))
                  (orders deliveredShop)) deliveredShop).
Proof.
  destruct (order_rating_recorded later userId newId 5%float 4%float 4.5%float
              None deliveredShop) as [_ Hdone].
  split; [reflexivity|].
  destruct (OrdersRoute.findOwned newId userId (orders deliveredShop))
    as [o|] eqn:F.
  2:{ vm_compute in F. discriminate. }
  exists o. split; [reflexivity|]. split.
  - assert (F' := F). vm_compute in F'. injection F' as <-. reflexivity.
  - exact (proj1 (Hdone o eq_refl eq_refl)).
Defined.

Lemma status_change_notification_witness :
  (exists path,
      Booking.updateStatus env appointment Booking.confirmed
        (Some "Your appointment has been confirmed") [appointment]
      = Throw (ValidationError path))
  /\ (exists b',
        Booking.updateStatus env appointment Booking.confirmed None [appointment]
        = Normal (b', [b'])
        /\ Booking.status b' = Booking.confirmed
        /\ Booking.notifications b' = Booking.notifications appointment
        /\ Booking.updatedAt b' = Some (now env))
  /\ Booking.updateStatus env appointment Booking.pending None [appointment]
     = Normal (appointment, [appointment])
  /\ Booking.updateStatus env appointment Booking.pending None [completedVisit]
     = Normal (appointment, [completedVisit]).
Proof.
  destruct status_change_notification as (Hb & _ & Hnone & _).
  split; [|split; [|split]].
  - destruct (Hb env appointment Booking.confirmed
                "Your appointment has been confirmed" [appointment] eq_refl)
      as (_ & _ & _ & Hthrow).
    destruct (Booking.updateStatus env appointment Booking.confirmed
                (Some "Your appointment has been confirmed") [appointment])
      as [r|e] eqn:E; [discriminate|].
    destruct (Hthrow e eq_refl) as [path ->]. now exists path.
  - destruct (Hnone env appointment Booking.confirmed None [appointment]
                (or_introl eq_refl))
      as (b' & coll' & E & Hs & Hn & Hchanged & _).
    destruct Hchanged as [Hcoll Hu]; [discriminate|].
    exists b'. rewrite E, Hcoll.
    assert (Hid : Booking._id b' = Booking._id appointment).
    { assert (E' := E). vm_compute in E'. injection E' as <- _. reflexivity. }
    unfold Booking.replace. cbn [map]. rewrite Hid.
    unfold ObjectId.eqb. rewrite String.eqb_refl. auto.
  - destruct (Hnone env appointment Booking.pending None [appointment]
                (or_introl eq_refl))
      as (b' & coll' & E & _ & _ & _ & Hsame).
    destruct Hsame as [-> ->]; [reflexivity|]. exact E.
  - destruct (Hnone env appointment Booking.pending None [completedVisit]
                (or_introl eq_refl))
      as (b' & coll' & E & _ & _ & _ & Hsame).
    destruct Hsame as [-> ->]; [reflexivity|]. exact E.
Defined.


Lemma stored_order_is_tracked_witness :
  In placed (orders shop)
  /\ Order.orderNumber placed = Some "MH300101042"
  /\ (exists tracking,
        trackOrder userId "MH300101042" shop = (Reply.Sent 200 "" tracking, shop)
        /\ trackedStatus tracking = Order.pending
        /\ map completed (trackedTimeline tracking)
           = [true; false; false; false; false])
  /\ trackOrder otherId "MH300101042" shop
     = (Reply.Failed (failure 404 "Order not found"), shop).
Proof.
  assert (Hin : In placed (orders shop)) by now left.
  assert (Huniq : forall x, In x (orders shop) ->
                            Order.orderNumber x = Some "MH300101042" ->
                            x = placed).
  { intros x [<-|[]] _. reflexivity. }
  destruct (stored_order_is_tracked shop placed "MH300101042"
              Hin eq_refl eq_refl Huniq) as [(tracking & Ht & _ & Hs & _ & _ & _
                                              & _ & _ & _ & Hl) Hother].
  split; [exact Hin|]. split; [reflexivity|]. split.
  - exists tracking. split; [exact Ht|]. split; [exact Hs|].
    rewrite Hl. reflexivity.
  - apply Hother. discriminate.
Defined.

Lemma documents_stay_distinct_witness :
  let shop' := snd (cancelOrder later userId newId None shop) in
  Api.step node shop shop'
  /\ Api.distinct shop
  /\ Api.distinct shop'
  /\ Api.reachable node kitchen
  /\ Api.distinct kitchen.
Proof.
  intros shop'.
  assert (S : Api.step node shop shop') by apply Api.step_cancelOrder.
  assert (D : Api.distinct shop).
  { unfold Api.distinct. simpl.
    split; [repeat constructor; simpl; tauto|].
    split; [repeat constructor; simpl; tauto|].
    split; [intros o [<-|[]]; discriminate|].
    split; [constructor|]. split; [constructor|]. intros b []. }
  assert (R : Api.reachable node kitchen) by now apply Api.reach_seeded.
  split; [exact S|]. split; [exact D|].
  split; [exact (proj1 (documents_stay_distinct node) shop shop' S D)|].
  split; [exact R|]. exact (proj2 (documents_stay_distinct node) kitchen R).
Defined.

Lemma routers_never_complete_witness :
  Api.reachable node kitchen
  /\ Api.untouched kitchen
  /\ Api.untouched shop
  /\ Reply.succeeded
       (fst (rateOrder later userId newId 5%float 5%float 5%float None shop))
     = false.
Proof.
  assert (R : Api.reachable node kitchen) by now apply Api.reach_seeded.
  assert (U : Api.untouched shop).
  { split; [|intros b []]. intros o [<-|[]]. split; [now left|reflexivity]. }
  destruct (routers_never_complete node) as [Hreach Hrate].
  split; [exact R|]. split; [exact (Hreach kitchen R)|]. split; [exact U|].
  exact (proj1 (proj2 (proj2 (Hrate shop U later userId newId
                                5%float 5%float 5%float None)))).
Defined.

Lemma routers_keep_to_their_collection_witness :
  let shop' := snd (cancelOrder later userId newId None shop) in
  Api.step node shop shop'
  /\ meals shop' = meals shop
  /\ bookings shop' = bookings shop
  /\ map Order._id (orders shop') = map Order._id (orders shop).
Proof.
  intros shop'.
  assert (S : Api.step node shop shop') by apply Api.step_cancelOrder.
  destruct (routers_keep_to_their_collection node shop shop' S)
    as (Hm & _ & _ & _ & _).
  split; [exact S|]. split; [exact Hm|]. split; reflexivity.
Defined.

Lemma no_booking_on_ecma402_witness :
  Ecma402 node
  /\ status (fst (createBooking node env userId (visit "09:30" None)
                    (clinic doctor []))) <> 201
  /\ snd (createBooking node env userId (visit "09:30" None) (clinic doctor []))
     = clinic doctor [].
Proof.
  split; [exact node_ecma402|].
  apply (proj1 (no_booking_on_ecma402 node node_ecma402)).
  intros p a [<-|[]] Ha. simpl in Ha.
  decompose [or] Ha; subst; simpl; tauto.
Defined.

Lemma next_slot_raises_witness :
  Ecma402 node
  /\ exists msg,
       HealthProfessional.getNextAvailableSlot node clock env doctor
       = Throw (RangeError msg).
Proof.
  split; [exact node_ecma402|].
  exact (next_slot_raises node node_ecma402 clock env doctor).
Defined.

Lemma availability_is_an_interval_witness :
  HealthProfessional.isAvailable node doctor "monday" "08:00" = true
  /\ HealthProfessional.isAvailable node doctor "monday" "17:00" = true
  /\ HealthProfessional.isAvailable node doctor "monday" "12:30" = true.
Proof.
  split; [reflexivity|]. split; [reflexivity|].
  apply (availability_is_an_interval node doctor "monday" "08:00" "17:00" "12:30"
           946702800000 946735200000 946719000000);
    try reflexivity. lia.
Defined.

Lemma next_slot_is_open_witness :
  HealthProfessional.getNextAvailableSlot lenient clock env doctor
  = Normal (Some {| HealthProfessional.slotDay := "tuesday";
                    HealthProfessional.slotTime := "09:00:00" |})
  /\ exists a,
       Spec.firstOpen (HealthProfessional.availability doctor) "tuesday" a
       /\ HealthProfessional.openEntry doctor "tuesday" = Some a.
Proof.
  assert (E : HealthProfessional.getNextAvailableSlot lenient clock env doctor
              = Normal (Some {| HealthProfessional.slotDay := "tuesday";
                                HealthProfessional.slotTime := "09:00:00" |}))
    by (vm_compute; reflexivity).
  split; [exact E|].
  destruct (proj1 (next_slot_is_open lenient clock env doctor) _ E)
    as (a & Hfirst & Hopen & _).
  exists a. auto.
Defined.

Lemma upcoming_route_is_shadowed_witness :
  Express.segments "/Upcoming/" = Some ["Upcoming"]
  /\ exists id,
       Express.serve BookingsRoute.routes Express.GET "/Upcoming/"
       = Some (GetBooking, [("id", id)])
       /\ validateGet id = ["Invalid booking ID"].
Proof.
  split; [reflexivity|].
  exact (proj2 upcoming_route_is_shadowed "/Upcoming/" ["Upcoming"]
           eq_refl eq_refl).
Defined.

Lemma orders_routes_all_served_witness :
  Express.decodeURIComponent "MH300101042" = Some "MH300101042"
  /\ Express.serve OrdersRoute.routes Express.GET "/tracking/MH300101042"
     = Some (GetTracking, [("orderNumber", "MH300101042")]).
Proof.
  destruct orders_routes_all_served as (_ & Htrack & Hplain & _).
  assert (D : Express.decodeURIComponent "MH300101042" = Some "MH300101042")
    by (apply Hplain; reflexivity).
  split; [exact D|].
  pose proof (Htrack "MH300101042" eq_refl eq_refl) as T.
  rewrite D in T. exact T.
Defined.

Lemma reference_number_format_witness :
  0 <= now env + LocalTZA node
  /\ referenceNumber node "BK" env = "BK300101042"
  /\ exists digits,
       referenceNumber node "BK" env = "BK" ++ digits
       /\ String.length digits = 9%nat
       /\ forallb_string isDigit digits = true.
Proof.
  split; [vm_compute; discriminate|]. split; [reflexivity|].
  apply (reference_number_format node "BK" env).
  - vm_compute. discriminate.
  - split; [vm_compute; discriminate|reflexivity].
Defined.

Lemma built_order_is_validated_witness :
  exists o,
    buildOrder env userId twoItems kitchen = Next o
    /\ Order.items o <> []
    /\ Forall (fun line => isInt 1%float None (Order.quantity line) = true)
         (Order.items o)
    /\ In (Order.paymentMethod o)
         ["mpesa"; "cash_on_delivery"; "bank_transfer"; "credit_card"].
Proof.
  assert (B : exists o, buildOrder env userId twoItems kitchen = Next o)
    by (eexists; vm_compute; reflexivity).
  destruct B as [o B]. exists o.
  destruct (built_order_is_validated env userId twoItems kitchen o B)
    as (Hi & Hq & _ & _ & _ & _ & _ & Hp).
  auto.
Defined.

Lemma booking_cancel_window_witness :
  ObjectId.isMongoId bookingId = true
  /\ findOwned bookingId userId (bookings (clinic doctor [appointment]))
     = Some appointment
  /\ Booking.appointmentDate appointment - now eve < 24 * msPerHour
  /\ cancelBooking eve userId bookingId None (clinic doctor [appointment])
     = (cannotCancel, clinic doctor [appointment]).
Proof.
  split; [reflexivity|]. split; [reflexivity|].
  assert (Hlt : Booking.appointmentDate appointment - now eve < 24 * msPerHour)
    by (vm_compute; reflexivity).
  split; [exact Hlt|].
  exact (proj1 (proj2 (booking_cancel_window eve userId bookingId None
                         (clinic doctor [appointment]) appointment
                         eq_refl eq_refl)) Hlt).
Defined.
